(** * Retrospective sentiment analysis: a model of [main.py]

    The development embeds the algorithmic core of the Streamlit
    application: [sanitize_text], [analyze_retrodata] and the filter and
    sort steps of [main].  Python strings are sequences of Unicode code
    points, a DataFrame is an index (the row labels) with an ordered list
    of labelled columns, and DataFrame objects live in a store, because
    [analyze_retrodata] updates the object it receives. *)

From Stdlib Require Import List NArith ZArith QArith String Ascii Lia Bool.
From Stdlib Require Import Permutation Sorted Lqa.
From stdpp Require Import base option list sorting gmap.

Close Scope Q_scope.
Local Open Scope list_scope.
#[local] Set Warnings "-clear-no-such-hyp".

(** ** Python strings *)

Module PyStr.

(** A character is a Unicode code point; a [str] is a sequence of them. *)
Definition char := N.
Definition pystr := list char.

(** The code points of an ASCII literal. *)
Definition py (s : string) : pystr := map N_of_ascii (list_ascii_of_string s).

Definition space : char := 32%N.

Definition in_range (lo hi c : N) : bool := (lo <=? c)%N && (c <=? hi)%N.

(** Whitespace as CPython has it (the same table serves [\s] of [re] on a
    [str] pattern and [str.strip] without argument). *)
Definition is_space (c : char) : bool :=
  in_range 9 13 c || in_range 28 32 c || (c =? 133)%N || (c =? 160)%N
  || (c =? 5760)%N || in_range 8192 8202 c || (c =? 8232)%N || (c =? 8233)%N
  || (c =? 8239)%N || (c =? 8287)%N || (c =? 12288)%N.

Definition ascii_alnum (c : char) : bool :=
  in_range 48 57 c || in_range 65 90 c || in_range 97 122 c.

Section Unicode.

(** The alphanumeric property of the code points above ASCII comes from the
    Unicode database of the interpreter. *)
Variable uni_alnum : char -> bool.

(** [\w] on a [str] pattern: alphanumeric or underscore. *)
Definition is_word (c : char) : bool :=
  (c =? 95)%N || (if (c <? 128)%N then ascii_alnum c else uni_alnum c).

(** The literal members of the class [[^\w\s.,!?]]: ". , ! ?" *)
Definition is_kept_punct (c : char) : bool :=
  (c =? 46)%N || (c =? 44)%N || (c =? 33)%N || (c =? 63)%N.

(** [[^\w\s.,!?]] *)
Definition is_special (c : char) : bool :=
  negb (is_word c || is_space c || is_kept_punct c).

(** [[\•\-\*]]: the bullet U+2022, the hyphen and the asterisk. *)
Definition is_bullet (c : char) : bool :=
  (c =? 8226)%N || (c =? 45)%N || (c =? 42)%N.

(** [re.sub(r'[cls]', ' ', text)]: every character of the class becomes one
    space. *)
Definition re_sub_class (cls : char -> bool) (text : pystr) : pystr :=
  map (fun c => if cls c then space else c) text.

(** [re.sub(r'\s+', ' ', text)]: the scan replaces every maximal run of
    whitespace by one space; [in_run] says that the previous character
    belonged to a run already replaced. *)
Fixpoint re_sub_ws_runs (in_run : bool) (text : pystr) : pystr :=
  match text with
  | [] => []
  | c :: t =>
      if is_space c
      then (if in_run then re_sub_ws_runs true t
            else space :: re_sub_ws_runs true t)
      else c :: re_sub_ws_runs false t
  end.

Fixpoint lstrip (s : pystr) : pystr :=
  match s with
  | [] => []
  | c :: t => if is_space c then lstrip t else s
  end.

Definition rstrip (s : pystr) : pystr := rev (lstrip (rev s)).

(** [text.strip()] *)
Definition strip (s : pystr) : pystr := rstrip (lstrip s).

End Unicode.

(** Observations on a string, used to state what sanitization achieves. *)
Fixpoint ws_run_free (s : pystr) : bool :=
  match s with
  | a :: (b :: _) as t => negb (is_space a && is_space b) && ws_run_free t
  | _ => true
  end.

Definition starts_ws (s : pystr) : bool :=
  match s with
  | c :: _ => is_space c
  | [] => false
  end.

Definition ends_ws (s : pystr) : bool := starts_ws (rev s).

(** A string is normalised after [prev_ws] when its only whitespace
    characters are single spaces, none of them next to another. *)
Fixpoint normalised (prev_ws : bool) (s : pystr) : bool :=
  match s with
  | [] => true
  | c :: t =>
      if is_space c
      then (c =? space)%N && negb prev_ws && normalised true t
      else normalised false t
  end.

End PyStr.

Export PyStr.

(** ** Python values held by a cell *)

(** A cell of the uploaded table: text, a number, or missing (None / NaN). *)
Inductive pyval : Type :=
  | PStr (s : pystr)
  | PNum (q : Q)
  | PMissing.

Section Sanitize.

Variable uni_alnum : char -> bool.

(** [sanitize_text] of main.py: the [isinstance] guard, then the three
    substitutions, each on the result of the previous one. *)
Definition sanitize_text (text : pyval) : pystr :=
  match text with
  | PStr s =>
      let text := re_sub_class (is_special uni_alnum) s in
      let text := re_sub_class is_bullet text in
      let text := strip (re_sub_ws_runs false text) in
      text
  | _ => []
  end.

End Sanitize.

(** ** Exceptions and results *)

Inductive exn : Type :=
  | KeyError (key : option pystr)   (* the key looked up; [None] for the key None *)
  | ValueError                      (* a column of the wrong length *)
  | AttributeError                  (* a method that the object does not have *)
  | Raised (msg : pystr)            (* an exception raised inside a library call *)
  | NoObject.                       (* a reference outside the store: no Python state *)

Definition result (A : Type) : Type := (exn + A)%type.

Definition rbind {A B : Type} (m : result A) (k : A -> result B) : result B :=
  match m with
  | inl e => inl e
  | inr a => k a
  end.

Notation "'let*' x ':=' m 'in' k" := (rbind m (fun x => k))
  (at level 10, x name, m at level 100, k at level 200).

(** ** DataFrames *)

(** A column label.  [read_excel] takes the labels from the header row of
    the sheet: a header cell with text gives a str, and a header cell with a
    number or a date gives that number or date, which is no str.  The columns
    that the program itself names and adds are strs. *)
Inductive column_label : Type :=
  | LStr (s : pystr)
  | LInt (n : Z)
  | LDate (stamp : Z).

#[global] Instance column_label_eq_dec : EqDecision column_label.
Proof. solve_decision. Defined.

(** The index holds the row labels; every column holds one cell per label. *)
Record DataFrame : Type := mkDataFrame {
  df_index : list nat;
  df_data : list (column_label * list pyval)
}.

Definition df_columns (d : DataFrame) : list column_label := map fst (df_data d).

(** The column under the str [name], if there is one. *)
Fixpoint get_column (data : list (column_label * list pyval)) (name : pystr)
  : option (list pyval) :=
  match data with
  | [] => None
  | (k, v) :: rest =>
      if bool_decide (k = LStr name) then Some v else get_column rest name
  end.

(** Assignment to a column keeps the place of an existing column and puts a
    new one last. *)
Fixpoint set_column (data : list (column_label * list pyval)) (name : pystr)
  (values : list pyval) : list (column_label * list pyval) :=
  match data with
  | [] => [(LStr name, values)]
  | (k, v) :: rest =>
      if bool_decide (k = LStr name) then (k, values) :: rest
      else (k, v) :: set_column rest name values
  end.

(** [df[name]] *)
Definition df_getitem (d : DataFrame) (name : pystr) : result (list pyval) :=
  match get_column (df_data d) name with
  | Some v => inr v
  | None => inl (KeyError (Some name))
  end.

(** [df[name] = values], for a list of values *)
Definition df_setitem (d : DataFrame) (name : pystr) (values : list pyval)
  : result DataFrame :=
  if (length values =? length (df_index d))%nat
  then inr (mkDataFrame (df_index d) (set_column (df_data d) name values))
  else inl ValueError.

(** A DataFrame of pandas: columns as long as the index, names all different
    (as [read_excel] delivers them). *)
Definition lengths_ok (d : DataFrame) : Prop :=
  Forall (fun c => length (snd c) = length (df_index d)) (df_data d).

Definition wf_df (d : DataFrame) : Prop :=
  lengths_ok d /\ NoDup (df_columns d).

(** ** The store of DataFrame objects *)

Abbreviation loc := positive (only parsing).
Abbreviation heap := (gmap positive DataFrame) (only parsing).

(** Computations that read and update the store and may raise. *)
Definition M (A : Type) : Type := heap -> heap * result A.

Definition ret {A : Type} (a : A) : M A := fun h => (h, inr a).

Definition raise {A : Type} (e : exn) : M A := fun h => (h, inl e).

Definition bind {A B : Type} (m : M A) (k : A -> M B) : M B :=
  fun h =>
    match m h with
    | (h', inl e) => (h', inl e)
    | (h', inr a) => k a h'
    end.

Definition lift {A : Type} (r : result A) : M A := fun h => (h, r).

Notation "x <- m ;; k" := (bind m (fun x => k))
  (at level 100, m at next level, right associativity).
Notation "m ;;; k" := (bind m (fun _ => k))
  (at level 100, right associativity).

Definition deref (df : loc) : M DataFrame :=
  fun h =>
    match h !! df with
    | Some d => (h, inr d)
    | None => (h, inl NoObject)
    end.

Definition getitem (df : loc) (name : pystr) : M (list pyval) :=
  d <- deref df ;; lift (df_getitem d name).

(** The assignment updates the object itself. *)
Definition setitem (df : loc) (name : pystr) (values : list pyval) : M unit :=
  d <- deref df ;;
  d' <- lift (df_setitem d name values) ;;
  fun h => (<[df := d']> h, inr tt).

(** ** analyze_retrodata *)

(** What [analyze_text] returns: the entries 'compound', 'category' and
    'color' of its dictionary. *)
Record sentiment : Type := mkSentiment {
  compound : Q;
  category : pystr;
  color : pystr
}.

Definition sentiment_columns : list pystr :=
  [ py "What Did Not Go Well?";
    py "What Went Well?";
    py "Reason for Churn";
    py "Improvement opportunity";
    py "Reason for reported success rate" ].

Definition score_suffix : pystr := py "_Sentiment_Score".
Definition category_suffix : pystr := py "_Sentiment_Category".
Definition color_suffix : pystr := py "_Color".

Section Analyze.

Variable uni_alnum : char -> bool.

(** [str] of a number is the interpreter's formatting. *)
Variable num_str : Q -> pystr.

(** [analyzer.analyze_text] of the imported class [SentimentAnalyzer]. *)
Variable analyze_text : pystr -> result sentiment.

(** [str(text)]; a missing value of a DataFrame is a NaN. *)
Definition py_str (v : pyval) : pystr :=
  match v with
  | PStr s => s
  | PNum q => num_str q
  | PMissing => py "nan"
  end.

(** The loop over the cells of a column, appending to [sentiments]. *)
Fixpoint analyze_cells (series : list pyval) (sentiments : list sentiment)
  : M (list sentiment) :=
  match series with
  | [] => ret sentiments
  | text :: rest =>
      s <- lift (analyze_text (py_str text)) ;;
      analyze_cells rest (sentiments ++ [s])
  end.

(** The body of the loop over [sentiment_columns]. *)
Definition analyze_column (df : loc) (col : pystr) : M unit :=
  d <- deref df ;;
  if bool_decide (LStr col ∈ df_columns d) then
    series <- getitem df col ;;
    setitem df col (map (fun x => PStr (sanitize_text uni_alnum x)) series) ;;;
    series <- getitem df col ;;
    sentiments <- analyze_cells series [] ;;
    setitem df (col ++ score_suffix)
            (map (fun s => PNum (compound s)) sentiments) ;;;
    setitem df (col ++ category_suffix)
            (map (fun s => PStr (category s)) sentiments) ;;;
    setitem df (col ++ color_suffix)
            (map (fun s => PStr (color s)) sentiments)
  else ret tt.

Fixpoint for_each (cols : list pystr) (body : pystr -> M unit) : M unit :=
  match cols with
  | [] => ret tt
  | col :: rest => body col ;;; for_each rest body
  end.

Definition analyze_retrodata (df : loc) : M loc :=
  for_each sentiment_columns (analyze_column df) ;;;
  ret df.

End Analyze.

(** ** The scorer *)

Module Scorer.

(** The five categories; their names are the options of the "Filter by
    sentiment" widget of [main]. *)
Inductive label : Type :=
  | very_negative | negative | neutral | positive | very_positive.

(** Modelled from the spec: the order of the five buckets of section 3
    (SentimentAnalyzer is not among the sources). *)
Definition rank (l : label) : nat :=
  match l with
  | very_negative => 0
  | negative => 1
  | neutral => 2
  | positive => 3
  | very_positive => 4
  end.

Definition label_name (l : label) : pystr :=
  match l with
  | very_negative => py "very_negative"
  | negative => py "negative"
  | neutral => py "neutral"
  | positive => py "positive"
  | very_positive => py "very_positive"
  end.

(** Modelled from the spec: the class SentimentAnalyzer
    (utils/sentiment_analyzer.py) is imported by main.py and is not among the
    sources.  Its thresholds are the table of section 4.2:
    compound <= -0.6 very_negative; -0.6 < compound <= -0.2 negative;
    -0.2 < compound < 0.2 neutral; 0.2 <= compound < 0.6 positive;
    compound >= 0.6 very_positive. *)
Definition classify (c : Q) : label :=
  if Qle_bool c (-3 # 5) then very_negative
  else if Qle_bool c (-1 # 5) then negative
  else if negb (Qle_bool (1 # 5) c) then neutral
  else if negb (Qle_bool (3 # 5) c) then positive
  else very_positive.

Section Primitive.

(** The external lexicon primitive: the compound score of a text, or [None]
    when it fails on it. *)
Variable primitive : pystr -> option Q.

(** The colour codes are configuration. *)
Variable color_of : label -> pystr.

(** Modelled from the spec: the scorer of section 4.2 (SentimentAnalyzer is
    not among the sources).  It delegates the compound score to the
    primitive, treats a failure of the primitive as compound 0.0, and derives
    category and colour from the compound score. *)
Definition score (text : pystr) : sentiment :=
  let c := match primitive text with
           | Some c => c
           | None => 0%Q
           end in
  mkSentiment c (label_name (classify c)) (color_of (classify c)).

(** Modelled from the spec: [analyze_text] of SentimentAnalyzer (not among
    the sources), which by sections 4.2 and 7 raises for no cell. *)
Definition analyze_text (text : pystr) : result sentiment := inr (score text).

End Primitive.

End Scorer.

(** ** Filtering *)

(** [series.isin(values)] for a list of strings. *)
Definition isin (values : list pystr) (series : list pyval) : list bool :=
  map (fun c => match c with
                | PStr s => bool_decide (s ∈ values)
                | _ => false
                end) series.

(** [a | b] on two boolean series over the same index. *)
Definition mask_or (a b : list bool) : list bool := zip_with orb a b.

Fixpoint mask_select {A : Type} (mask : list bool) (l : list A) : list A :=
  match mask, l with
  | m :: mask', x :: l' =>
      if m then x :: mask_select mask' l' else mask_select mask' l'
  | _, _ => []
  end.

(** [df[mask]] *)
Definition select_rows (d : DataFrame) (mask : list bool) : DataFrame :=
  mkDataFrame (mask_select mask (df_index d))
              (map (fun c => (fst c, mask_select mask (snd c))) (df_data d)).

(** [df[col + '_Sentiment_Category'].isin(sentiment_filter)] *)
Definition category_isin (d : DataFrame) (col : pystr)
  (sentiment_filter : list pystr) : result (list bool) :=
  let* series := df_getitem d (col ++ category_suffix) in
  inr (isin sentiment_filter series).

(** "Apply filters" of [main]: the five category columns are named one by
    one. *)
Definition apply_filter (d : DataFrame) (sentiment_filter : list pystr)
  : result DataFrame :=
  match sentiment_filter with
  | [] => inr d
  | _ :: _ =>
      let* m1 := category_isin d (py "What Did Not Go Well?") sentiment_filter in
      let* m2 := category_isin d (py "What Went Well?") sentiment_filter in
      let* m3 := category_isin d (py "Reason for Churn") sentiment_filter in
      let* m4 := category_isin d (py "Improvement opportunity") sentiment_filter in
      let* m5 := category_isin d (py "Reason for reported success rate")
                               sentiment_filter in
      inr (select_rows d (mask_or (mask_or (mask_or (mask_or m1 m2) m3) m4) m5))
  end.

(** ** Sorting *)

Definition isna (v : pyval) : bool :=
  match v with
  | PMissing => true
  | _ => false
  end.

Definition is_text (v : pyval) : bool :=
  match v with
  | PStr _ => true
  | _ => false
  end.

Definition as_number (v : pyval) : option Q :=
  match v with
  | PNum q => Some q
  | _ => None
  end.

(** [df.take(indexer)]: the rows at the given positions. *)
Definition df_take (d : DataFrame) (indexer : list nat) : DataFrame :=
  mkDataFrame (map (fun i => nth i (df_index d) 0%nat) indexer)
              (map (fun c => (fst c, map (fun i => nth i (snd c) PMissing) indexer))
                   (df_data d)).

Section Sort.

(** [ndarray.argsort(kind='quicksort')] on floats: the algorithm is numpy's. *)
Variable argsort : list Q -> list nat.

(** The ordering of a column that holds text is left to pandas. *)
Variable nargsort_object : list pyval -> result (list nat).

(** What [argsort] promises: the positions of the array, arranged so that the
    values ascend.  The order of equal values is not promised for
    'quicksort'. *)
Definition argsort_spec : Prop :=
  forall l : list Q,
    Permutation (argsort l) (seq 0 (length l))
    /\ StronglySorted Qle (map (fun i => nth i l 0%Q) (argsort l)).

(** What [kind='stable'] promises on top of it, and the default kind does
    not: equal keys come in the order of their positions. *)
Definition argsort_stable : Prop :=
  forall l : list Q,
    StronglySorted (fun i j => (nth i l 0 == nth j l 0)%Q -> (i < j)%nat)
                   (argsort l).

(** [nargsort(items, kind='quicksort', ascending=False, na_position='last')]
    of pandas: missing values are set apart, the others are reversed,
    argsorted and reversed again, and the missing ones come last. *)
Definition nargsort_desc (items : list pyval) : result (list nat) :=
  let idx := seq 0 (length items) in
  let mask := map isna items in
  let non_nan_idx := mask_select (map negb mask) idx in
  let nan_idx := mask_select mask idx in
  match mapM as_number (mask_select (map negb mask) items) with
  | Some non_nans =>
      let non_nans := rev non_nans in
      let non_nan_idx := rev non_nan_idx in
      let indexer := map (fun i => nth i non_nan_idx 0%nat) (argsort non_nans) in
      let indexer := rev indexer in
      inr (indexer ++ nan_idx)
  | None => nargsort_object items
  end.

(** Two rows of a column have the same score: both a number, and equal, or
    both none. *)
Definition same_score (series : list pyval) (i j : nat) : Prop :=
  match nth i series PMissing, nth j series PMissing with
  | PNum x, PNum y => (x == y)%Q
  | PMissing, PMissing => True
  | _, _ => False
  end.

(** [df.sort_values(by=sort_by, ascending=False)] *)
Definition sort_values_desc (d : DataFrame) (sort_by : option pystr)
  : result DataFrame :=
  match sort_by with
  | None => inl (KeyError None)
  | Some k =>
      let* series := df_getitem d k in
      let* indexer := nargsort_desc series in
      inr (df_take d indexer)
  end.

(** The filter and sort steps of [main]. *)
Definition filter_and_sort (d : DataFrame) (sentiment_filter : list pystr)
  (sort_by : option pystr) : result DataFrame :=
  let* filtered_df := apply_filter d sentiment_filter in
  sort_values_desc filtered_df sort_by.

End Sort.

(** ** main *)

(** [col.endswith(suffix)] *)
Definition endswith (s suffix : pystr) : bool :=
  bool_decide (drop (length s - length suffix) s = suffix).

(** [isinstance(col, str)] *)
Definition is_str (col : column_label) : bool :=
  match col with
  | LStr _ => true
  | _ => false
  end.

(** The options of the select box,
    [[col for col in df.columns if col.endswith('_Sentiment_Score')]].
    [endswith] is a method of str: looking it up on a label that is no str
    raises AttributeError.  The labels kept are strs. *)
Fixpoint score_columns (columns : list column_label) : result (list pystr) :=
  match columns with
  | [] => inr []
  | LStr col :: rest =>
      let* others := score_columns rest in
      inr (if endswith col score_suffix then col :: others else others)
  | _ :: _ => inl AttributeError
  end.

(** The "Sort by" select box: it offers the score columns and returns the
    one at the chosen position, or None when there is nothing to offer. *)
Definition selectbox (options : list pystr) (choice : nat) : option pystr :=
  options !! choice.

(** What the user gets: the sorted table handed to the display code, or the
    message of the [except Exception] handler. *)
Inductive outcome : Type :=
  | Displayed (d : DataFrame)
  | ErrorBanner (e : exn).

Definition handler (r : result DataFrame) : outcome :=
  match r with
  | inr d => Displayed d
  | inl e => ErrorBanner e
  end.

Section Main.

Variable uni_alnum : char -> bool.
Variable num_str : Q -> pystr.
Variable analyze_text : pystr -> result sentiment.
Variable argsort : list Q -> list nat.
Variable nargsort_object : list pyval -> result (list nat).

(** The [try] block of [main] from the analysis to the sort; [uploaded] is
    the table read from the file. *)
Definition main_try (uploaded : loc) (sentiment_filter : list pystr)
  (choice : nat) : M DataFrame :=
  df <- analyze_retrodata uni_alnum num_str analyze_text uploaded ;;
  d <- deref df ;;
  options <- lift (score_columns (df_columns d)) ;;
  let sort_by := selectbox options choice in
  lift (filter_and_sort argsort nargsort_object d sentiment_filter sort_by).

Definition main (uploaded : loc) (sentiment_filter : list pystr) (choice : nat)
  : heap -> heap * outcome :=
  fun h =>
    let (h', r) := main_try uploaded sentiment_filter choice h in
    (h', handler r).

End Main.

(** ** numpy's argsort of a short array *)

(** The algorithm behind [argsort] is numpy's, and which one runs depends on
    the CPU.  numpy's own quicksort, which runs where no SIMD sort is
    compiled in for the CPU, leaves an array of up to 16 elements to an
    insertion sort over the positions: each position in turn moves left
    past the positions whose key is larger than its own
    ([while (pj > pl && vp < v[*pk])]).  [run] holds the positions sorted so
    far, the last one first. *)
Fixpoint insert_position (v : list Q) (vi : nat) (run : list nat) : list nat :=
  match run with
  | [] => [vi]
  | pk :: rest =>
      if negb (Qle_bool (nth pk v 0%Q) (nth vi v 0%Q))
      then pk :: insert_position v vi rest
      else vi :: pk :: rest
  end.

Definition insertion_run (v : list Q) (n : nat) : list nat :=
  fold_left (fun run vi => insert_position v vi run) (seq 0 n) [].

Definition argsort_insertion (v : list Q) : list nat :=
  rev (insertion_run v (length v)).

(** The order of a run: a position comes before the positions of smaller or
    equal key, and among equal keys before the smaller positions. *)
Definition run_order (v : list Q) (a b : nat) : Prop :=
  (nth b v 0 <= nth a v 0)%Q /\ ((nth a v 0 == nth b v 0)%Q -> (b < a)%nat).

(** Where the CPU has AVX-512, numpy hands [argsort] of a float64 array
    with the default kind to x86-simd-sort.  An array of up to 8
    elements is loaded into the 8 lanes of one register, each key with its
    position, the lanes left over filled with the largest value; the
    register goes through the bitonic network [sort_zmm_64bit], and the
    positions of the first lanes are the result.  A key of [None] stands for
    the fill value. *)
Definition lane : Type := (option Q * nat)%type.

Definition fill : lane := (None, 0%nat).

Definition lane_leb (a b : option Q) : bool :=
  match a, b with
  | _, None => true
  | None, Some _ => false
  | Some x, Some y => Qle_bool x y
  end.

Definition lane_min (a b : option Q) : option Q := if lane_leb a b then a else b.

Definition lane_max (a b : option Q) : option Q := if lane_leb a b then b else a.

Definition lane_eqb (a b : option Q) : bool := lane_leb a b && lane_leb b a.

(** One round of the network: every lane meets its partner lane and takes
    the smaller of the two keys, or the larger one where the mask is set; it
    keeps its own position when the key it takes equals its own, and takes
    the partner's position otherwise. *)
Definition cmp_merge (partner : list nat) (mask : list bool)
  (lanes : list lane) : list lane :=
  map (fun i =>
         let own := nth i lanes fill in
         let other := nth (nth i partner i) lanes fill in
         let key := if nth i mask false
                    then lane_max (fst own) (fst other)
                    else lane_min (fst own) (fst other) in
         (key, if lane_eqb key (fst own) then snd own else snd other))
      (seq 0 8).

Definition swap_neighbours : list nat := [1; 0; 3; 2; 5; 4; 7; 6]%nat.
Definition reverse_quads : list nat := [3; 2; 1; 0; 7; 6; 5; 4]%nat.
Definition reverse_all : list nat := [7; 6; 5; 4; 3; 2; 1; 0]%nat.
Definition swap_pairs : list nat := [2; 3; 0; 1; 6; 7; 4; 5]%nat.

Definition mask_AA : list bool :=
  [false; true; false; true; false; true; false; true].
Definition mask_CC : list bool :=
  [false; false; true; true; false; false; true; true].
Definition mask_F0 : list bool :=
  [false; false; false; false; true; true; true; true].

Definition sort_zmm_64bit (lanes : list lane) : list lane :=
  let lanes := cmp_merge swap_neighbours mask_AA lanes in
  let lanes := cmp_merge reverse_quads mask_CC lanes in
  let lanes := cmp_merge swap_neighbours mask_AA lanes in
  let lanes := cmp_merge reverse_all mask_F0 lanes in
  let lanes := cmp_merge swap_pairs mask_CC lanes in
  let lanes := cmp_merge swap_neighbours mask_AA lanes in
  lanes.

(** [argsort] of an array of up to 8 elements. *)
Definition argsort_8_64bit (arr : list Q) : list nat :=
  let n := length arr in
  let keys := map Some arr ++ repeat None (8 - n) in
  let positions := seq 0 n ++ repeat 0%nat (8 - n) in
  take n (map snd (sort_zmm_64bit (zip keys positions))).

(** ** The table that an analysis leaves behind *)

Definition derived_columns (col : pystr) : list pystr :=
  [col ++ score_suffix; col ++ category_suffix; col ++ color_suffix].

Definition is_derived_name (k : pystr) : bool :=
  endswith k score_suffix || endswith k category_suffix || endswith k color_suffix.

Section Augmented.

Variable uni_alnum : char -> bool.

(** A scorer that raises for no text. *)
Variable scorer : pystr -> sentiment.

(** The effect of one round of the loop of [analyze_retrodata] on the value
    of the table, when the scorer does not raise. *)
Definition augment_column (d : DataFrame) (col : pystr) : DataFrame :=
  match get_column (df_data d) col with
  | None => d
  | Some series =>
      let texts := map (sanitize_text uni_alnum) series in
      let sentiments := map scorer texts in
      let data := set_column (df_data d) col (map PStr texts) in
      let data := set_column data (col ++ score_suffix)
                    (map (fun s => PNum (compound s)) sentiments) in
      let data := set_column data (col ++ category_suffix)
                    (map (fun s => PStr (category s)) sentiments) in
      let data := set_column data (col ++ color_suffix)
                    (map (fun s => PStr (color s)) sentiments) in
      mkDataFrame (df_index d) data
  end.

Definition augmented (d : DataFrame) : DataFrame :=
  fold_left augment_column sentiment_columns d.

End Augmented.

(** ** Concrete instances *)

(** An interpreter in which no code point above ASCII is alphanumeric. *)
Definition ascii_only : char -> bool := fun _ => false.

Definition plain_num_str : Q -> pystr := fun _ => py "0.0".

(** A primitive that fails on every text, and one that scores every text
    0.5 except the empty one, on which it fails. *)
Definition failing_primitive : pystr -> option Q := fun _ => None.

Definition half_primitive : pystr -> option Q :=
  fun t => match t with
           | [] => None
           | _ :: _ => Some (1 # 2)%Q
           end.

Definition grey : Scorer.label -> pystr := fun _ => py "#808080".

Definition object_sort_unsupported : list pyval -> result (list nat) :=
  fun _ => inl (Raised (py "object column")).

Definition went_well_table : DataFrame :=
  mkDataFrame [0%nat; 1%nat]
    [ (LStr (py "issue_key"), [PStr (py "RETRO-1"); PStr (py "RETRO-2")]);
      (LStr (py "What Went Well?"), [PStr (py "Great work!! 100% effort"); PMissing]) ].

(** The table above after the analysis, with a scorer built on
    [half_primitive]. *)
Definition analysed_went_well_table : DataFrame :=
  augmented ascii_only (Scorer.score half_primitive grey) went_well_table.

(** A table with none of the configured columns. *)
Definition issues_only_table : DataFrame :=
  mkDataFrame [0%nat; 1%nat]
    [ (LStr (py "issue_key"), [PStr (py "RETRO-1"); PStr (py "RETRO-2")]) ].

(** Four rows, two scores. *)
Definition tied_table : DataFrame :=
  mkDataFrame [0%nat; 1%nat; 2%nat; 3%nat]
    [ (LStr (py "issue_key"),
       [PStr (py "RETRO-1"); PStr (py "RETRO-2");
        PStr (py "RETRO-3"); PStr (py "RETRO-4")]);
      (LStr (py "What Went Well?_Sentiment_Score"),
       [PNum 0; PNum 0; PNum (1 # 2); PNum (1 # 2)]) ].

(** The store right after the upload: the table read from the file is the
    object at reference 1. *)
Definition uploaded (d : DataFrame) : gmap positive DataFrame :=
  <[1%positive := d]> ∅.

(** ** What a sanitized text is made of *)

Section Visible.

Variable uni_alnum : char -> bool.

(** The characters that sanitization lets through as they are: word
    characters and ". , ! ?", the bullets excepted. *)
Definition is_visible (c : char) : bool :=
  negb (is_space c) && negb (is_special uni_alnum c) && negb (is_bullet c).

Definition is_plain (c : char) : bool :=
  negb (is_special uni_alnum c) && negb (is_bullet c)
  && (negb (is_space c) || (c =? space)%N).

(** A text that needs no sanitization. *)
Definition clean_text (s : pystr) : bool :=
  normalised false s && negb (starts_ws s) && negb (ends_ws s)
  && forallb (fun c => negb (is_special uni_alnum c) && negb (is_bullet c)) s.

End Visible.

(** A scorer that raises on the empty text and scores every other text 0.5. *)
Definition picky_analyzer : pystr -> result sentiment :=
  fun t => match t with
           | [] => inl (Raised (py "empty text"))
           | _ :: _ => inr (mkSentiment (1 # 2) (py "positive") (py "#90EE90"))
           end.

(** A table with the five configured columns: a row of praise and a row of
    empty cells. *)
Definition full_table : DataFrame :=
  mkDataFrame [0%nat; 1%nat]
    [ (LStr (py "issue_key"), [PStr (py "RETRO-1"); PStr (py "RETRO-2")]);
      (LStr (py "What Did Not Go Well?"), [PStr (py "nothing"); PMissing]);
      (LStr (py "What Went Well?"), [PStr (py "Great work!! 100% effort"); PMissing]);
      (LStr (py "Reason for Churn"), [PStr (py "none"); PMissing]);
      (LStr (py "Improvement opportunity"), [PStr (py "- more demos"); PMissing]);
      (LStr (py "Reason for reported success rate"), [PStr (py "team"); PMissing]) ].

Definition analysed_full_table : DataFrame :=
  augmented ascii_only (Scorer.score half_primitive grey) full_table.

(** A sheet whose third header cell holds the number 2024. *)
Definition numeric_header_table : DataFrame :=
  mkDataFrame [0%nat; 1%nat]
    [ (LStr (py "issue_key"), [PStr (py "RETRO-1"); PStr (py "RETRO-2")]);
      (LStr (py "What Went Well?"), [PStr (py "Great work!! 100% effort"); PMissing]);
      (LInt 2024, [PNum 3; PNum 5]) ].

(** ** The display of a row *)

Fixpoint starts_with (s prefix : pystr) : bool :=
  match prefix, s with
  | [], _ => true
  | p :: prefix', c :: s' => (p =? c)%N && starts_with s' prefix'
  | _ :: _, [] => false
  end.

(** The scan of [str.replace] for a non-empty [old]: occurrences are taken
    from left to right and do not overlap; [skip] counts the characters of
    an occurrence still to pass over. *)
Fixpoint replace_scan (old new : pystr) (skip : nat) (s : pystr) : pystr :=
  match s with
  | [] => []
  | c :: t =>
      match skip with
      | S k => replace_scan old new k t
      | O =>
          if starts_with s old
          then new ++ replace_scan old new (length old - 1) t
          else c :: replace_scan old new 0 t
      end
  end.

(** [s.replace(old, new)] *)
Definition str_replace (s old new : pystr) : pystr :=
  match old with
  | [] => new ++ flat_map (fun c => c :: new) s
  | _ :: _ => replace_scan old new 0 s
  end.

(** [sort_by.replace("_Sentiment_Score", "")] and its two companions in
    [main]. *)
Definition text_column_of (sort_by : pystr) : pystr :=
  str_replace sort_by score_suffix [].

Definition color_column_of (sort_by : pystr) : pystr :=
  str_replace sort_by score_suffix color_suffix.

Definition category_column_of (sort_by : pystr) : pystr :=
  str_replace sort_by score_suffix category_suffix.

Definition common_columns : list pystr :=
  [py "issue_key"; py "team_id"; py "sprint"; py "updated"].

(** A dictionary in insertion order; an assignment to a key that is there
    keeps its place. *)
Fixpoint dict_set {V : Type} (dct : list (pystr * V)) (k : pystr) (v : V)
  : list (pystr * V) :=
  match dct with
  | [] => [(k, v)]
  | (k0, v0) :: rest =>
      if bool_decide (k0 = k) then (k0, v) :: rest
      else (k0, v0) :: dict_set rest k v
  end.

(** A row handed to [format_row]: the cells of one line by column name.
    [format_row] runs after the select box was built, which goes through
    for str labels only, so the labels of a row are strs. *)
Fixpoint row_get (row : list (pystr * pyval)) (k : pystr) : option pyval :=
  match row with
  | [] => None
  | (k0, v) :: rest => if bool_decide (k0 = k) then Some v else row_get rest k
  end.

(** [row[k]] *)
Definition row_getitem (row : list (pystr * pyval)) (k : pystr) : result pyval :=
  match row_get row k with
  | Some v => inr v
  | None => inl (KeyError (Some k))
  end.

Definition quote : pystr := [34%N].

Section FormatRow.

Variable num_str : Q -> pystr.

(** The two-decimal formatting of a number, [f"{x:.2f}"]. *)
Variable two_decimals : Q -> pystr.

(** [f"{v:.2f}"] for a cell: a text has no such format. *)
Definition format_2f (v : pyval) : result pystr :=
  match v with
  | PNum q => inr (two_decimals q)
  | PMissing => inr (py "nan")
  | PStr _ => inl ValueError
  end.

(** The f-string [score_html] of [format_row]. *)
Definition score_html (colour : pyval) (score : pystr) : pystr :=
  py "<span style=" ++ quote ++ py "background-color: "
  ++ py_str num_str colour ++ py "; color: black" ++ quote
  ++ py " class=" ++ quote ++ py "sentiment-score" ++ quote ++ py ">"
  ++ score ++ py "</span>".

(** The loop of [format_row] over [common_columns]. *)
Fixpoint copy_columns (cols : list pystr) (row formatted_row : list (pystr * pyval))
  : list (pystr * pyval) :=
  match cols with
  | [] => formatted_row
  | col :: rest =>
      match row_get row col with
      | Some v => copy_columns rest row (dict_set formatted_row col v)
      | None => copy_columns rest row formatted_row
      end
  end.

(** [format_row] of [main], for the sort column chosen. *)
Definition format_row (sort_by : pystr) (row : list (pystr * pyval))
  : result (list (pystr * pyval)) :=
  let text_column := text_column_of sort_by in
  let formatted_row := copy_columns common_columns row [] in
  if bool_decide (text_column ∈ map fst row) && bool_decide (sort_by ∈ map fst row)
  then
    let* colour := row_getitem row (color_column_of sort_by) in
    let* score := row_getitem row sort_by in
    let* score := format_2f score in
    let* text := row_getitem row text_column in
    let formatted_row := dict_set formatted_row text_column text in
    let formatted_row :=
      dict_set formatted_row (text_column ++ py " Score")
               (PStr (score_html colour score)) in
    inr formatted_row
  else inr formatted_row.

End FormatRow.

Definition plain_two_decimals : Q -> pystr := fun _ => py "0.50".

Definition went_well_row : list (pystr * pyval) :=
  [ (py "issue_key", PStr (py "RETRO-1"));
    (py "What Went Well?", PStr (py "Great work!! 100 effort"));
    (py "What Went Well?_Sentiment_Score", PNum (1 # 2));
    (py "What Went Well?_Sentiment_Category", PStr (py "positive"));
    (py "What Went Well?_Color", PStr (py "#90EE90")) ].

(** ** get_smiley_html *)

(** [svg.encode('utf-8')]: the bytes of a string; a surrogate cannot be
    encoded (and a number above U+10FFFF is no character of a [str]). *)
Definition utf8_encode_char (c : char) : result (list N) :=
  if (c <? 128)%N then inr [c]
  else if (c <? 2048)%N then inr [(192 + c / 64)%N; (128 + c mod 64)%N]
  else if (c <? 65536)%N then
    if (55296 <=? c)%N && (c <=? 57343)%N
    then inl (Raised (py "UnicodeEncodeError"))
    else inr [(224 + c / 4096)%N; (128 + (c / 64) mod 64)%N; (128 + c mod 64)%N]
  else if (c <? 1114112)%N then
    inr [(240 + c / 262144)%N; (128 + (c / 4096) mod 64)%N;
         (128 + (c / 64) mod 64)%N; (128 + c mod 64)%N]
  else inl (Raised (py "UnicodeEncodeError")).

Fixpoint utf8_encode (s : pystr) : result (list N) :=
  match s with
  | [] => inr []
  | c :: t =>
      let* b := utf8_encode_char c in
      let* bs := utf8_encode t in
      inr (b ++ bs)
  end.

Definition b64_alphabet : pystr :=
  py "ABCDEFGHIJKLMNOPQRSTUVWXYZabcdefghijklmnopqrstuvwxyz0123456789+/".

Definition b64_pad : char := 61%N.

Definition b64_char (n : N) : char := nth (N.to_nat n) b64_alphabet b64_pad.

(** [base64.b64encode]: three bytes give four characters; one or two bytes
    left over are padded with "=". *)
Fixpoint b64encode (bs : list N) : pystr :=
  match bs with
  | [] => []
  | [a] => [b64_char (a / 4); b64_char ((a mod 4) * 16); b64_pad; b64_pad]
  | [a; b] =>
      [b64_char (a / 4); b64_char ((a mod 4) * 16 + b / 16);
       b64_char ((b mod 16) * 4); b64_pad]
  | a :: b :: c :: rest =>
      b64_char (a / 4) :: b64_char ((a mod 4) * 16 + b / 16)
      :: b64_char ((b mod 16) * 4 + c / 64) :: b64_char (c mod 64)
      :: b64encode rest
  end%N.

(** The reader's side, [base64.b64decode], to say what the payload means. *)
Fixpoint b64_index_from (alphabet : pystr) (i : N) (c : char) : option N :=
  match alphabet with
  | [] => None
  | a :: rest => if (a =? c)%N then Some i else b64_index_from rest (i + 1)%N c
  end.

Definition b64_index (c : char) : option N := b64_index_from b64_alphabet 0%N c.

Fixpoint b64decode (cs : pystr) : option (list N) :=
  match cs with
  | [] => Some []
  | c1 :: c2 :: c3 :: c4 :: rest =>
      match b64_index c1, b64_index c2 with
      | Some s1, Some s2 =>
          if (c3 =? b64_pad)%N then
            match rest with
            | [] => if (c4 =? b64_pad)%N then Some [s1 * 4 + s2 / 16] else None
            | _ :: _ => None
            end
          else
            match b64_index c3 with
            | Some s3 =>
                if (c4 =? b64_pad)%N then
                  match rest with
                  | [] => Some [s1 * 4 + s2 / 16; (s2 mod 16) * 16 + s3 / 4]
                  | _ :: _ => None
                  end
                else
                  match b64_index c4, b64decode rest with
                  | Some s4, Some r =>
                      Some (s1 * 4 + s2 / 16 :: (s2 mod 16) * 16 + s3 / 4
                            :: (s3 mod 4) * 64 + s4 :: r)
                  | _, _ => None
                  end
            | None => None
            end
      | _, _ => None
      end
  | _ => None
  end%N.

(** What the reader needs of the character of a sextet: it is found again
    at its place, it is no padding, and it is a letter of the alphabet. *)
Definition b64_sextet_ok (n : N) : bool :=
  bool_decide (b64_index (b64_char n) = Some n)
  && negb (b64_char n =? b64_pad)%N
  && bool_decide (b64_char n ∈ b64_alphabet).

Section Smiley.

(** The table of icons of assets/smileys.py, which is not among the sources:
    an SVG text per category name. *)
Variable SMILEY_ICONS : gmap pystr pystr.

(** [SMILEY_ICONS[key]] *)
Definition icon_getitem (key : pystr) : result pystr :=
  match SMILEY_ICONS !! key with
  | Some svg => inr svg
  | None => inl (KeyError (Some key))
  end.

(** [get_smiley_html]: the default of [get] is looked up before the call. *)
Definition get_smiley_html (category : pystr) : result pystr :=
  let* fallback := icon_getitem (py "neutral") in
  let svg := default fallback (SMILEY_ICONS !! category) in
  let* encoded := utf8_encode svg in
  let b64 := b64encode encoded in
  inr (py "<img src=" ++ quote ++ py "data:image/svg+xml;base64," ++ b64
       ++ quote ++ py " width=" ++ quote ++ py "24" ++ quote
       ++ py " height=" ++ quote ++ py "24" ++ quote ++ py ">").

End Smiley.

Definition happy_only_icons : gmap pystr pystr :=
  {[ py "positive" := py "<svg>:)</svg>" ]}.

Definition two_icons : gmap pystr pystr :=
  <[ py "neutral" := py "<svg>:|</svg>" ]> happy_only_icons.

(** * Properties *)

(** ** Sanitization *)

Section SanitizeFacts.

Variable uni_alnum : char -> bool.

Lemma normalised_re_sub_ws_runs (b : bool) (s : pystr) :
  normalised b (re_sub_ws_runs b s) = true.
Proof.
  revert b; induction s as [|c t IH]; intros b; simpl; [reflexivity|].
  destruct (is_space c) eqn:Hc.
  - destruct b; simpl; [apply IH|]. rewrite IH. reflexivity.
  - simpl. rewrite Hc. apply IH.
Qed.

Lemma normalised_weaken (b : bool) (s : pystr) :
  normalised b s = true -> normalised false s = true.
Proof.
  destruct s as [|c t]; simpl; [auto|].
  destruct (is_space c); [|auto].
  destruct b; simpl; [|auto].
  rewrite andb_false_r. simpl. discriminate.
Qed.

Lemma normalised_lstrip (b : bool) (s : pystr) :
  normalised b s = true -> normalised false (lstrip s) = true.
Proof.
  revert b; induction s as [|c t IH]; intros b H; simpl; [reflexivity|].
  destruct (is_space c) eqn:Hc.
  - simpl in H. rewrite Hc in H.
    apply andb_prop in H as [_ H]. eapply IH, H.
  - eapply normalised_weaken, H.
Qed.

Lemma normalised_app_l (b : bool) (s t : pystr) :
  normalised b (s ++ t) = true -> normalised b s = true.
Proof.
  revert b; induction s as [|c s IH]; intros b H; simpl in *; [reflexivity|].
  destruct (is_space c).
  - apply andb_prop in H as [H1 H2]. rewrite H1. simpl. eapply IH, H2.
  - eapply IH, H.
Qed.

Lemma lstrip_split (s : pystr) : exists w, s = w ++ lstrip s.
Proof.
  induction s as [|c t [w IH]]; simpl; [exists []; reflexivity|].
  destruct (is_space c).
  - exists (c :: w). simpl. f_equal. exact IH.
  - exists []. reflexivity.
Qed.

Lemma rstrip_split (s : pystr) : exists w, s = rstrip s ++ w.
Proof.
  unfold rstrip. destruct (lstrip_split (rev s)) as [w Hw].
  exists (rev w). rewrite <- rev_app_distr, <- Hw, rev_involutive. reflexivity.
Qed.

Lemma normalised_strip (b : bool) (s : pystr) :
  normalised b s = true -> normalised false (strip s) = true.
Proof.
  intros H. apply normalised_lstrip in H. unfold strip.
  destruct (rstrip_split (lstrip s)) as [w Hw].
  rewrite Hw in H. eapply normalised_app_l, H.
Qed.

Lemma re_sub_ws_runs_normalised (b : bool) (s : pystr) :
  normalised b s = true -> re_sub_ws_runs b s = s.
Proof.
  revert b; induction s as [|c t IH]; intros b H; simpl in *; [reflexivity|].
  destruct (is_space c).
  - apply andb_prop in H as [H1 H2]. apply andb_prop in H1 as [H0 H1].
    apply N.eqb_eq in H0. destruct b; [discriminate|].
    rewrite (IH _ H2). subst c. reflexivity.
  - rewrite (IH _ H). reflexivity.
Qed.

Lemma normalised_cons (b : bool) (c : char) (t : pystr) :
  normalised b (c :: t) = true -> normalised (is_space c) t = true.
Proof.
  simpl. destruct (is_space c); [|auto].
  intros H. apply andb_prop in H as [_ H]. exact H.
Qed.

Lemma ws_run_free_normalised (b : bool) (s : pystr) :
  normalised b s = true -> ws_run_free s = true.
Proof.
  revert b; induction s as [|a t IH]; intros b H; [reflexivity|].
  apply normalised_cons in H.
  destruct t as [|a' t]; [reflexivity|].
  change (negb (is_space a && is_space a') && ws_run_free (a' :: t) = true).
  rewrite (IH _ H), andb_true_r.
  destruct (is_space a); [|reflexivity].
  simpl in H. destruct (is_space a'); [|reflexivity].
  rewrite andb_false_r in H. discriminate.
Qed.

Lemma starts_ws_lstrip (s : pystr) : starts_ws (lstrip s) = false.
Proof.
  induction s as [|c t IH]; simpl; [reflexivity|].
  destruct (is_space c) eqn:Hc; [exact IH|]. simpl. exact Hc.
Qed.

Lemma lstrip_fixed (s : pystr) : starts_ws s = false -> lstrip s = s.
Proof. destruct s as [|c t]; simpl; [auto|]. intros ->. reflexivity. Qed.

Lemma lstrip_snoc (l : pystr) (c : char) :
  is_space c = false -> lstrip (l ++ [c]) = lstrip l ++ [c].
Proof.
  intros Hc. induction l as [|a l IH]; simpl; [rewrite Hc; reflexivity|].
  destruct (is_space a); [exact IH | reflexivity].
Qed.

Lemma ends_ws_rstrip (s : pystr) : ends_ws (rstrip s) = false.
Proof.
  unfold ends_ws, rstrip. rewrite rev_involutive. apply starts_ws_lstrip.
Qed.

Lemma starts_ws_rstrip (s : pystr) :
  starts_ws s = false -> starts_ws (rstrip s) = false.
Proof.
  destruct s as [|c t]; [reflexivity|]. simpl. intros Hc.
  unfold rstrip. simpl rev. rewrite (lstrip_snoc _ _ Hc), rev_app_distr.
  simpl. exact Hc.
Qed.

Lemma rstrip_fixed (s : pystr) : ends_ws s = false -> rstrip s = s.
Proof.
  unfold ends_ws, rstrip. intros H. rewrite (lstrip_fixed _ H).
  apply rev_involutive.
Qed.

Lemma strip_fixed (s : pystr) :
  starts_ws s = false -> ends_ws s = false -> strip s = s.
Proof.
  intros H1 H2. unfold strip. rewrite (lstrip_fixed _ H1). apply rstrip_fixed, H2.
Qed.

Lemma starts_ws_strip (s : pystr) : starts_ws (strip s) = false.
Proof. apply starts_ws_rstrip, starts_ws_lstrip. Qed.

Lemma ends_ws_strip (s : pystr) : ends_ws (strip s) = false.
Proof. apply ends_ws_rstrip. Qed.

(** Classes of characters along the pipeline. *)

Lemma re_sub_class_fixed (cls : char -> bool) (s : pystr) :
  Forall (fun c => cls c = false) s -> re_sub_class cls s = s.
Proof.
  induction 1 as [|c t Hc _ IH]; simpl; [reflexivity|].
  rewrite Hc. f_equal. exact IH.
Qed.

Lemma Forall_re_sub_class (P : char -> Prop) (cls : char -> bool) (s : pystr) :
  P space -> (forall c, cls c = false -> In c s -> P c) ->
  Forall P (re_sub_class cls s).
Proof.
  intros Hsp H. apply List.Forall_forall. intros x Hx.
  apply in_map_iff in Hx as [c [<- Hc]].
  destruct (cls c) eqn:E; auto.
Qed.

Lemma Forall_re_sub_ws_runs (P : char -> Prop) (b : bool) (s : pystr) :
  P space -> Forall P s -> Forall P (re_sub_ws_runs b s).
Proof.
  intros Hsp H. revert b. induction H as [|c t Hc _ IH]; intros b; simpl.
  - constructor.
  - destruct (is_space c); [destruct b|]; auto.
Qed.

Lemma Forall_lstrip (P : char -> Prop) (s : pystr) :
  Forall P s -> Forall P (lstrip s).
Proof.
  induction 1 as [|c t Hc Ht IH]; simpl; [constructor|].
  destruct (is_space c); auto.
Qed.

Lemma Forall_strip (P : char -> Prop) (s : pystr) :
  Forall P s -> Forall P (strip s).
Proof.
  intros H. unfold strip, rstrip.
  apply Forall_rev, Forall_lstrip, Forall_rev, Forall_lstrip, H.
Qed.

Lemma sanitize_text_classes (s : pystr) :
  Forall (fun c => is_special uni_alnum c = false) (sanitize_text uni_alnum (PStr s))
  /\ Forall (fun c => is_bullet c = false) (sanitize_text uni_alnum (PStr s)).
Proof.
  unfold sanitize_text. split.
  - apply Forall_strip, Forall_re_sub_ws_runs; [reflexivity|].
    apply Forall_re_sub_class; [reflexivity|]. intros c _ Hc.
    apply in_map_iff in Hc as [c0 [<- _]].
    destruct (is_special uni_alnum c0) eqn:E; [reflexivity | exact E].
  - apply Forall_strip, Forall_re_sub_ws_runs; [reflexivity|].
    apply Forall_re_sub_class; [reflexivity|]. auto.
Qed.

Lemma sanitize_text_normalised (s : pystr) :
  normalised false (sanitize_text uni_alnum (PStr s)) = true.
Proof.
  unfold sanitize_text. eapply normalised_strip, normalised_re_sub_ws_runs.
Qed.

(** C4: [sanitize_text] is defined on every value (it raises on none), its
    result holds no two consecutive whitespace characters and neither starts
    nor ends with whitespace, and the result is the empty string for a value
    that is not a string. *)
Theorem sanitize_text_normal_form (v : pyval) :
  ws_run_free (sanitize_text uni_alnum v) = true
  /\ starts_ws (sanitize_text uni_alnum v) = false
  /\ ends_ws (sanitize_text uni_alnum v) = false
  /\ match v with
     | PStr _ => True
     | PNum _ | PMissing => sanitize_text uni_alnum v = []
     end.
Proof.
  destruct v as [s| |]; try (repeat split; reflexivity).
  repeat split.
  - eapply ws_run_free_normalised, sanitize_text_normalised.
  - apply starts_ws_strip.
  - apply ends_ws_strip.
Qed.

(** C5: sanitizing the result of a sanitization changes nothing. *)
Theorem sanitize_text_idempotent (v : pyval) :
  sanitize_text uni_alnum (PStr (sanitize_text uni_alnum v))
  = sanitize_text uni_alnum v.
Proof.
  destruct v as [s| |]; try reflexivity.
  destruct (sanitize_text_classes s) as [Hsp Hbu].
  pose proof (sanitize_text_normalised s) as Hn.
  pose proof (starts_ws_strip (re_sub_ws_runs false
    (re_sub_class is_bullet (re_sub_class (is_special uni_alnum) s)))) as Hs.
  pose proof (ends_ws_strip (re_sub_ws_runs false
    (re_sub_class is_bullet (re_sub_class (is_special uni_alnum) s)))) as He.
  change (strip _) with (sanitize_text uni_alnum (PStr s)) in Hs, He.
  set (out := sanitize_text uni_alnum (PStr s)) in *.
  change (strip (re_sub_ws_runs false
    (re_sub_class is_bullet (re_sub_class (is_special uni_alnum) out))) = out).
  rewrite (re_sub_class_fixed _ _ Hsp), (re_sub_class_fixed _ _ Hbu).
  rewrite (re_sub_ws_runs_normalised _ _ Hn).
  apply strip_fixed; assumption.
Qed.

(** C10, as the code has it: on "Great work!! 100% effort" the result is
    "Great work!! 100 effort"; the percent sign goes, the exclamation marks
    belong to the characters that stay. *)
Theorem sanitize_text_great_work :
  sanitize_text uni_alnum (PStr (py "Great work!! 100% effort"))
  = py "Great work!! 100 effort".
Proof. reflexivity. Qed.

End SanitizeFacts.

(** C10, as stated, fails: the result keeps both exclamation marks and so
    differs from "Great work 100 effort". *)
Lemma sanitize_text_great_work_keeps_marks :
  sanitize_text ascii_only (PStr (py "Great work!! 100% effort"))
  = py "Great work!! 100 effort"
  /\ bool_decide (sanitize_text ascii_only (PStr (py "Great work!! 100% effort"))
                  = py "Great work 100 effort") = false.
Proof. split; reflexivity. Qed.

(** ** Columns of a DataFrame *)

Lemma get_set_column (data : list (column_label * list pyval)) (n k : pystr)
  (v : list pyval) :
  get_column (set_column data n v) k
  = if bool_decide (n = k) then Some v else get_column data k.
Proof.
  induction data as [|[k0 v0] rest IH].
  - cbn [set_column get_column].
    rewrite (bool_decide_ext (LStr n = LStr k) (n = k)) by naive_solver.
    reflexivity.
  - cbn [set_column]. destruct (decide (k0 = LStr n)) as [->|Hne].
    + rewrite bool_decide_true by done. cbn [get_column].
      rewrite (bool_decide_ext (LStr n = LStr k) (n = k)) by naive_solver.
      destruct (bool_decide (n = k)); reflexivity.
    + rewrite bool_decide_false by done. cbn [get_column]. rewrite IH.
      destruct (decide (k0 = LStr k)) as [->|Hk].
      * rewrite bool_decide_true by done. rewrite bool_decide_false; [done|].
        intros ->. done.
      * by rewrite (bool_decide_false (k0 = LStr k)).
Qed.

Lemma names_set_column (data : list (column_label * list pyval)) (n : pystr)
  (v : list pyval) :
  map fst (set_column data n v)
  = map fst data
    ++ (if bool_decide (LStr n ∈ map fst data) then [] else [LStr n]).
Proof.
  induction data as [|[k0 v0] rest IH]; [reflexivity|].
  cbn [set_column]. destruct (decide (k0 = LStr n)) as [->|Hne].
  - rewrite bool_decide_true by done. cbn [map fst].
    rewrite bool_decide_true by (apply elem_of_cons; by left).
    by rewrite app_nil_r.
  - rewrite bool_decide_false by done. cbn [map fst]. rewrite IH.
    cbn [app]. f_equal.
    rewrite (bool_decide_ext (LStr n ∈ k0 :: map fst rest)
                             (LStr n ∈ map fst rest));
      [reflexivity|].
    rewrite elem_of_cons. naive_solver.
Qed.

Lemma get_column_None (data : list (column_label * list pyval)) (k : pystr) :
  get_column data k = None <-> LStr k ∉ map fst data.
Proof.
  induction data as [|[k0 v0] rest IH]; cbn [get_column map fst].
  - split; [intros _; apply not_elem_of_nil | done].
  - rewrite not_elem_of_cons. destruct (decide (k0 = LStr k)) as [->|Hne].
    + rewrite bool_decide_true by done. naive_solver.
    + rewrite bool_decide_false by done. rewrite IH. naive_solver.
Qed.

Lemma get_column_is_Some (data : list (column_label * list pyval)) (k : pystr) :
  is_Some (get_column data k) <-> LStr k ∈ map fst data.
Proof.
  rewrite <- not_eq_None_Some, get_column_None.
  split; [apply dec_stable | auto].
Qed.

Lemma get_column_length (m : nat) (data : list (column_label * list pyval))
  (k : pystr) (v : list pyval) :
  Forall (fun c => length (snd c) = m) data ->
  get_column data k = Some v -> length v = m.
Proof.
  induction 1 as [|[k0 v0] rest H0 _ IH]; simpl; [discriminate|].
  case_bool_decide; [intros [= <-]; exact H0 | exact IH].
Qed.

Lemma Forall_set_column (P : column_label * list pyval -> Prop)
  (data : list (column_label * list pyval)) (n : pystr) (v : list pyval) :
  (forall k, P (k, v)) -> Forall P data -> Forall P (set_column data n v).
Proof.
  intros Hv. induction 1 as [|[k0 v0] rest H0 Hr IH]; simpl.
  - constructor; [apply Hv | constructor].
  - case_bool_decide; constructor; auto.
Qed.

Lemma NoDup_names_set_column (data : list (column_label * list pyval)) (n : pystr)
  (v : list pyval) :
  NoDup (map fst data) -> NoDup (map fst (set_column data n v)).
Proof.
  intros H. rewrite names_set_column. case_bool_decide.
  - by rewrite app_nil_r.
  - apply NoDup_app. split; [done|]. split; [|apply NoDup_singleton].
    intros x Hx Hn. apply list_elem_of_singleton in Hn. by subst.
Qed.

Lemma elem_of_map_LStr (k : pystr) (names : list pystr) :
  LStr k ∈ map LStr names <-> k ∈ names.
Proof.
  induction names as [|n names IH]; cbn [map].
  - by rewrite !elem_of_nil.
  - rewrite !elem_of_cons, IH. naive_solver.
Qed.

Lemma str_labels_forallb (f : pystr -> bool) (l : list column_label) :
  forallb (fun k => match k with LStr s => f s | _ => true end) l = true ->
  forall k, LStr k ∈ l -> f k = true.
Proof.
  intros H k Hk. apply list_elem_of_In in Hk.
  exact (proj1 (forallb_forall _ _) H (LStr k) Hk).
Qed.

(** ** Running the analysis on the store *)

Lemma bind_run {A B : Type} (m : M A) (k : A -> M B) (h h' : heap) (a : A) :
  m h = (h', inr a) -> bind m k h = k a h'.
Proof. unfold bind. intros ->. reflexivity. Qed.

Lemma bind_raise {A B : Type} (m : M A) (k : A -> M B) (h h' : heap) (e : exn) :
  m h = (h', inl e) -> bind m k h = (h', inl e).
Proof. unfold bind. intros ->. reflexivity. Qed.

Lemma deref_run (h : heap) (l : loc) (d : DataFrame) :
  h !! l = Some d -> deref l h = (h, inr d).
Proof. unfold deref. intros ->. reflexivity. Qed.

Lemma getitem_run (h : heap) (l : loc) (d : DataFrame) (k : pystr)
  (v : list pyval) :
  h !! l = Some d -> get_column (df_data d) k = Some v ->
  getitem l k h = (h, inr v).
Proof.
  intros Hl Hk. unfold getitem. rewrite (bind_run _ _ _ _ _ (deref_run _ _ _ Hl)).
  unfold lift, df_getitem. rewrite Hk. reflexivity.
Qed.

Lemma setitem_run (h : heap) (l : loc) (d : DataFrame) (k : pystr)
  (v : list pyval) :
  h !! l = Some d -> length v = length (df_index d) ->
  setitem l k v h
  = (<[l := mkDataFrame (df_index d) (set_column (df_data d) k v)]> h, inr tt).
Proof.
  intros Hl Hv. unfold setitem. rewrite (bind_run _ _ _ _ _ (deref_run _ _ _ Hl)).
  unfold bind, lift, df_setitem. rewrite Hv, Nat.eqb_refl. reflexivity.
Qed.

Section AnalyzeFacts.

Variable uni_alnum : char -> bool.
Variable num_str : Q -> pystr.
Variable scorer : pystr -> sentiment.

Lemma analyze_cells_run (texts : list pystr) (acc : list sentiment) (h : heap) :
  analyze_cells num_str (fun t => inr (scorer t)) (map PStr texts) acc h
  = (h, inr (acc ++ map scorer texts)).
Proof.
  revert acc; induction texts as [|t texts IH]; intros acc; simpl.
  - by rewrite app_nil_r.
  - unfold bind, lift. rewrite IH, <- app_assoc. reflexivity.
Qed.

Lemma lengths_ok_augment_column (d : DataFrame) (col : pystr) :
  lengths_ok d -> lengths_ok (augment_column uni_alnum scorer d col).
Proof.
  intros Hd. unfold augment_column.
  destruct (get_column (df_data d) col) as [series|] eqn:E; [|exact Hd].
  pose proof (get_column_length _ _ _ _ Hd E) as Hlen.
  unfold lengths_ok. cbn [df_index df_data].
  repeat (apply Forall_set_column;
          [intros; cbn [snd]; rewrite ?length_map; exact Hlen|]).
  exact Hd.
Qed.

Lemma analyze_column_run (h : heap) (l : loc) (d : DataFrame) (col : pystr) :
  h !! l = Some d -> lengths_ok d ->
  analyze_column uni_alnum num_str (fun t => inr (scorer t)) l col h
  = (<[l := augment_column uni_alnum scorer d col]> h, inr tt).
Proof.
  intros Hl Hd. unfold analyze_column, augment_column.
  rewrite (bind_run _ _ _ _ _ (deref_run _ _ _ Hl)).
  destruct (get_column (df_data d) col) as [series|] eqn:E.
  - rewrite bool_decide_true by (apply get_column_is_Some; eauto).
    pose proof (get_column_length _ _ _ _ Hd E) as Hlen.
    rewrite (bind_run _ _ _ _ _ (getitem_run _ _ _ _ _ Hl E)).
    erewrite bind_run; last first.
    { apply (setitem_run _ _ _ _ _ Hl). by rewrite length_map. }
    erewrite bind_run; last first.
    { eapply getitem_run; [apply lookup_insert_eq|].
      cbn [df_data]. rewrite get_set_column. by rewrite bool_decide_true. }
    rewrite <- (map_map (sanitize_text uni_alnum) PStr).
    erewrite bind_run; last by apply analyze_cells_run.
    cbn [app].
    erewrite bind_run; last first.
    { eapply setitem_run; [apply lookup_insert_eq|].
      cbn [df_index]. by rewrite !length_map. }
    rewrite insert_insert_eq.
    erewrite bind_run; last first.
    { eapply setitem_run; [apply lookup_insert_eq|].
      cbn [df_index]. by rewrite !length_map. }
    rewrite insert_insert_eq.
    erewrite setitem_run; [|apply lookup_insert_eq|cbn [df_index]; by rewrite !length_map].
    rewrite insert_insert_eq. reflexivity.
  - rewrite bool_decide_false.
    + unfold ret. by rewrite insert_id.
    + intros Hin. apply get_column_is_Some in Hin as [? ?]. congruence.
Qed.

Lemma for_each_run (cols : list pystr) (h : heap) (l : loc) (d : DataFrame) :
  h !! l = Some d -> lengths_ok d ->
  for_each cols (analyze_column uni_alnum num_str (fun t => inr (scorer t)) l) h
  = (<[l := fold_left (augment_column uni_alnum scorer) cols d]> h, inr tt).
Proof.
  revert h d; induction cols as [|c cols IH]; intros h d Hl Hd; simpl.
  - unfold ret. by rewrite insert_id.
  - rewrite (bind_run _ _ _ _ _ (analyze_column_run _ _ _ c Hl Hd)).
    rewrite (IH _ (augment_column uni_alnum scorer d c)).
    + by rewrite insert_insert_eq.
    + apply lookup_insert_eq.
    + by apply lengths_ok_augment_column.
Qed.

(** On a store that holds the table at [df], the analysis returns [df] and
    leaves the augmented table in its place. *)
Lemma analyze_retrodata_run (h : heap) (l : loc) (d : DataFrame) :
  h !! l = Some d -> lengths_ok d ->
  analyze_retrodata uni_alnum num_str (fun t => inr (scorer t)) l h
  = (<[l := augmented uni_alnum scorer d]> h, inr l).
Proof.
  intros Hl Hd. unfold analyze_retrodata.
  rewrite (bind_run _ _ _ _ _ (for_each_run _ _ _ _ Hl Hd)). reflexivity.
Qed.

End AnalyzeFacts.

(** ** Names of the derived columns *)

Lemma endswith_app (c s : pystr) : endswith (c ++ s) s = true.
Proof.
  unfold endswith. apply bool_decide_eq_true.
  rewrite length_app, Nat.add_sub. apply drop_app_length.
Qed.

Lemma derived_is_derived_name (c k : pystr) :
  k ∈ derived_columns c -> is_derived_name k = true.
Proof.
  unfold derived_columns, is_derived_name. rewrite !elem_of_cons, elem_of_nil.
  intros [->|[->|[->|[]]]]; rewrite endswith_app; by rewrite ?orb_true_r.
Qed.

Lemma sentiment_columns_not_derived (c : pystr) :
  c ∈ sentiment_columns -> is_derived_name c = false.
Proof.
  intros H. unfold sentiment_columns in H.
  repeat (apply elem_of_cons in H as [->|H]; [vm_compute; reflexivity|]).
  by apply elem_of_nil in H.
Qed.

Lemma sentiment_columns_NoDup : NoDup sentiment_columns.
Proof. apply (bool_decide_unpack _). vm_compute. reflexivity. Qed.

Ltac suffix_clash H :=
  first
    [ apply app_inv_head in H; discriminate H
    | apply (f_equal (@rev char)) in H; rewrite !rev_app_distr in H;
      unfold score_suffix, category_suffix, color_suffix, py in H;
      simpl in H; discriminate H
    | apply (f_equal (@length char)) in H; rewrite ?length_app in H;
      unfold score_suffix, category_suffix, color_suffix, py in H;
      simpl in H; lia ].

Lemma derived_columns_inj (c c' k : pystr) :
  k ∈ derived_columns c -> k ∈ derived_columns c' -> c = c'.
Proof.
  unfold derived_columns. rewrite !elem_of_cons, !elem_of_nil.
  intros [->|[->|[->|[]]]] [H|[H|[H|[]]]];
    first [ by apply app_inv_tail in H | exfalso; suffix_clash H ].
Qed.

Lemma derived_columns_NoDup (c : pystr) : NoDup (derived_columns c).
Proof.
  unfold derived_columns. repeat (apply NoDup_cons; split).
  - rewrite !elem_of_cons, elem_of_nil. intros [H|[H|[]]]; suffix_clash H.
  - rewrite !elem_of_cons, elem_of_nil. intros [H|[]]; suffix_clash H.
  - apply not_elem_of_nil.
  - apply NoDup_nil_2.
Qed.

Lemma not_derived_of_itself (c : pystr) : c ∉ derived_columns c.
Proof.
  unfold derived_columns. rewrite !elem_of_cons, elem_of_nil.
  intros [H|[H|[H|[]]]]; suffix_clash H.
Qed.

(** ** What one round and the whole loop do to the table *)

Section AugmentedFacts.

Variable uni_alnum : char -> bool.
Variable scorer : pystr -> sentiment.

Abbreviation aug := (augment_column uni_alnum scorer).

Lemma index_augment_column (d : DataFrame) (c : pystr) :
  df_index (aug d c) = df_index d.
Proof.
  unfold augment_column. by destruct (get_column (df_data d) c).
Qed.

Lemma elem_of_names_set_column (data : list (column_label * list pyval))
  (n : pystr) (k : column_label) (v : list pyval) :
  k ∈ map fst (set_column data n v) <-> k ∈ map fst data \/ k = LStr n.
Proof.
  rewrite names_set_column, elem_of_app. case_bool_decide.
  - rewrite elem_of_nil. naive_solver.
  - by rewrite list_elem_of_singleton.
Qed.

Lemma elem_of_columns_augment_column (d : DataFrame) (c : pystr)
  (k : column_label) :
  k ∈ df_columns (aug d c)
  <-> k ∈ df_columns d
      \/ (LStr c ∈ df_columns d /\ k ∈ map LStr (derived_columns c)).
Proof.
  unfold augment_column, df_columns.
  destruct (get_column (df_data d) c) as [series|] eqn:E.
  - assert (LStr c ∈ map fst (df_data d)) as Hc
      by (apply get_column_is_Some; eauto).
    cbn [df_data]. rewrite !elem_of_names_set_column.
    unfold derived_columns. cbn [map]. rewrite !elem_of_cons, elem_of_nil.
    naive_solver.
  - apply get_column_None in E. naive_solver.
Qed.

Lemma prefix_names_set_column (data : list (column_label * list pyval)) (n : pystr)
  (v : list pyval) :
  map fst data `prefix_of` map fst (set_column data n v).
Proof. rewrite names_set_column. by eexists. Qed.

Lemma prefix_columns_augment_column (d : DataFrame) (c : pystr) :
  df_columns d `prefix_of` df_columns (aug d c).
Proof.
  unfold augment_column, df_columns.
  destruct (get_column (df_data d) c) as [series|]; [|done].
  cbn [df_data].
  repeat (etrans; [|apply prefix_names_set_column]). done.
Qed.

Lemma NoDup_columns_augment_column (d : DataFrame) (c : pystr) :
  NoDup (df_columns d) -> NoDup (df_columns (aug d c)).
Proof.
  unfold augment_column, df_columns. intros H.
  destruct (get_column (df_data d) c) as [series|]; [|done].
  cbn [df_data]. by repeat apply NoDup_names_set_column.
Qed.

Lemma get_augment_column_other (d : DataFrame) (c k : pystr) :
  k ∉ c :: derived_columns c ->
  get_column (df_data (aug d c)) k = get_column (df_data d) k.
Proof.
  unfold derived_columns. rewrite !not_elem_of_cons. intros (H0 & H1 & H2 & H3 & _).
  unfold augment_column.
  destruct (get_column (df_data d) c) as [series|]; [|done].
  cbn [df_data]. rewrite !get_set_column.
  by rewrite !bool_decide_false.
Qed.

Lemma get_augment_column_same (d : DataFrame) (c : pystr) (series : list pyval) :
  get_column (df_data d) c = Some series ->
  get_column (df_data (aug d c)) c
    = Some (map (fun x => PStr (sanitize_text uni_alnum x)) series)
  /\ get_column (df_data (aug d c)) (c ++ score_suffix)
    = Some (map (fun x => PNum (compound (scorer (sanitize_text uni_alnum x)))) series)
  /\ get_column (df_data (aug d c)) (c ++ category_suffix)
    = Some (map (fun x => PStr (category (scorer (sanitize_text uni_alnum x)))) series)
  /\ get_column (df_data (aug d c)) (c ++ color_suffix)
    = Some (map (fun x => PStr (color (scorer (sanitize_text uni_alnum x)))) series).
Proof.
  intros E. unfold augment_column. rewrite E. cbn [df_data].
  rewrite !get_set_column, !map_map.
  repeat split.
  - rewrite !(bool_decide_false (_ ++ _ = c)) by (intros H; suffix_clash H).
    by rewrite bool_decide_true.
  - rewrite !(bool_decide_false (_ ++ _ = c ++ score_suffix))
      by (intros H; suffix_clash H).
    by rewrite bool_decide_true.
  - rewrite !(bool_decide_false (_ ++ _ = c ++ category_suffix))
      by (intros H; suffix_clash H).
    by rewrite bool_decide_true.
  - by rewrite bool_decide_true.
Qed.

(** The columns under labels that are no str are out of reach of the
    assignments. *)
Lemma other_labels_set_column (data : list (column_label * list pyval))
  (n : pystr) (v : list pyval) :
  List.filter (fun c => negb (is_str (fst c))) (set_column data n v)
  = List.filter (fun c => negb (is_str (fst c))) data.
Proof.
  induction data as [|[k0 v0] rest IH]; [reflexivity|].
  cbn [set_column]. case_bool_decide as Hk.
  - subst k0. reflexivity.
  - cbn [List.filter]. by rewrite IH.
Qed.

Lemma other_labels_augment_column (d : DataFrame) (c : pystr) :
  List.filter (fun c => negb (is_str (fst c))) (df_data (aug d c))
  = List.filter (fun c => negb (is_str (fst c))) (df_data d).
Proof.
  unfold augment_column.
  destruct (get_column (df_data d) c) as [series|]; [|reflexivity].
  cbn [df_data]. by rewrite !other_labels_set_column.
Qed.

Lemma other_labels_fold (cs : list pystr) (d : DataFrame) :
  List.filter (fun c => negb (is_str (fst c))) (df_data (fold_left aug cs d))
  = List.filter (fun c => negb (is_str (fst c))) (df_data d).
Proof.
  revert d; induction cs as [|c cs IH]; intros d; simpl; [done|].
  by rewrite IH, other_labels_augment_column.
Qed.

Lemma index_fold (cs : list pystr) (d : DataFrame) :
  df_index (fold_left aug cs d) = df_index d.
Proof.
  revert d; induction cs as [|c cs IH]; intros d; simpl; [done|].
  by rewrite IH, index_augment_column.
Qed.

Lemma lengths_ok_fold (cs : list pystr) (d : DataFrame) :
  lengths_ok d -> lengths_ok (fold_left aug cs d).
Proof.
  revert d; induction cs as [|c cs IH]; intros d H; simpl; [done|].
  by apply IH, lengths_ok_augment_column.
Qed.

Lemma NoDup_columns_fold (cs : list pystr) (d : DataFrame) :
  NoDup (df_columns d) -> NoDup (df_columns (fold_left aug cs d)).
Proof.
  revert d; induction cs as [|c cs IH]; intros d H; simpl; [done|].
  by apply IH, NoDup_columns_augment_column.
Qed.

Lemma prefix_columns_fold (cs : list pystr) (d : DataFrame) :
  df_columns d `prefix_of` df_columns (fold_left aug cs d).
Proof.
  revert d; induction cs as [|c cs IH]; intros d; simpl; [done|].
  etrans; [apply prefix_columns_augment_column | apply IH].
Qed.

(** A configured column is present after a round exactly when it was
    present before: the round adds derived names only. *)
Lemma present_after_round (d : DataFrame) (c c' : pystr) :
  is_derived_name c' = false ->
  LStr c' ∈ df_columns (aug d c) <-> LStr c' ∈ df_columns d.
Proof.
  intros Hc'. rewrite elem_of_columns_augment_column.
  split; [|auto]. intros [H|[_ H]]; [done|].
  apply elem_of_map_LStr, derived_is_derived_name in H. congruence.
Qed.

Lemma elem_of_columns_fold (cs : list pystr) (d : DataFrame)
  (k : column_label) :
  (forall c, c ∈ cs -> is_derived_name c = false) ->
  k ∈ df_columns (fold_left aug cs d)
  <-> k ∈ df_columns d
      \/ exists c, c ∈ cs /\ LStr c ∈ df_columns d
                   /\ k ∈ map LStr (derived_columns c).
Proof.
  revert d; induction cs as [|c cs IH]; intros d Hcs; simpl.
  - split; [auto|]. intros [H|(c & Hc & _)]; [done|]. by apply elem_of_nil in Hc.
  - rewrite IH by (intros; apply Hcs; by apply elem_of_cons; right).
    rewrite elem_of_columns_augment_column. split.
    + intros [[H|[H1 H2]]|(c' & Hc' & Hp & Hk)]; [by left| |].
      * right. exists c. split; [apply elem_of_cons; by left | done].
      * right. exists c'. split; [apply elem_of_cons; by right|].
        split; [|done]. eapply present_after_round; [|exact Hp].
        apply Hcs. apply elem_of_cons; by right.
    + intros [H|(c' & Hc' & Hp & Hk)]; [by left; left|].
      apply elem_of_cons in Hc' as [->|Hc']; [left; right; done|].
      right. exists c'. split; [done|]. split; [|done].
      apply present_after_round; [|done]. apply Hcs, elem_of_cons; by right.
Qed.

Lemma get_fold_other (cs : list pystr) (d : DataFrame) (k : pystr) :
  (forall c, c ∈ cs -> is_derived_name c = false) ->
  (forall c, c ∈ cs -> LStr c ∈ df_columns d -> k ∉ c :: derived_columns c) ->
  get_column (df_data (fold_left aug cs d)) k = get_column (df_data d) k.
Proof.
  revert d; induction cs as [|c cs IH]; intros d Hcs Hk; simpl; [done|].
  rewrite IH.
  - destruct (decide (LStr c ∈ df_columns d)) as [Hc|Hc].
    + apply get_augment_column_other, Hk; [apply elem_of_cons; by left | done].
    + unfold augment_column. apply get_column_None in Hc. by rewrite Hc.
  - intros; apply Hcs, elem_of_cons; by right.
  - intros c' Hc' Hp. apply Hk; [apply elem_of_cons; by right|].
    eapply present_after_round; [|exact Hp]. apply Hcs, elem_of_cons; by right.
Qed.

(** Two configured columns touch different names. *)
Lemma touched_names_disjoint (c c' k : pystr) :
  is_derived_name c = false -> is_derived_name c' = false -> c <> c' ->
  k ∈ c :: derived_columns c -> k ∉ c' :: derived_columns c'.
Proof.
  intros Hc Hc' Hne Hk Hk'.
  apply elem_of_cons in Hk as [->|Hk]; apply elem_of_cons in Hk' as [Hk'|Hk'].
  - done.
  - apply derived_is_derived_name in Hk'. congruence.
  - subst k. apply derived_is_derived_name in Hk. congruence.
  - by apply Hne, (derived_columns_inj c c' k).
Qed.

Lemma get_fold_same (cs : list pystr) (d : DataFrame) (c : pystr)
  (series : list pyval) :
  NoDup cs -> (forall c', c' ∈ cs -> is_derived_name c' = false) ->
  c ∈ cs -> get_column (df_data d) c = Some series ->
  forall k, k ∈ c :: derived_columns c ->
    get_column (df_data (fold_left aug cs d)) k
    = get_column (df_data (aug d c)) k.
Proof.
  intros Hnd Hcs Hc E k Hk.
  apply list_elem_of_split in Hc as (l1 & l2 & ->).
  apply NoDup_app in Hnd as (_ & Hl1 & Hnd).
  apply NoDup_cons in Hnd as [Hl2 _].
  assert (Hdc : is_derived_name c = false).
  { apply Hcs, elem_of_app; right; apply elem_of_cons; by left. }
  assert (Hother : forall l d0, (forall c', c' ∈ l -> c' ∈ l1 ++ c :: l2 /\ c' <> c) ->
            forall k', k' ∈ c :: derived_columns c ->
            get_column (df_data (fold_left aug l d0)) k' = get_column (df_data d0) k').
  { intros l d0 Hl k' Hk'. apply get_fold_other.
    - intros c' Hc'. apply Hcs, Hl, Hc'.
    - intros c' Hc' _. destruct (Hl c' Hc') as [Hin Hne].
      eapply touched_names_disjoint; [exact Hdc|by apply Hcs|done|exact Hk']. }
  rewrite fold_left_app. cbn [fold_left].
  rewrite Hother; [|intros c' Hc'; split;
                     [apply elem_of_app; right; apply elem_of_cons; by right
                     |intros ->; done]|done].
  set (d1 := fold_left aug l1 d).
  assert (E1 : get_column (df_data d1) c = get_column (df_data d) c).
  { apply Hother; [|apply elem_of_cons; by left].
    intros c' Hc'. split; [apply elem_of_app; by left|].
    intros ->. apply (Hl1 c Hc'). apply elem_of_cons; by left. }
  assert (Hidx : df_index d1 = df_index d) by apply index_fold.
  rewrite E in E1.
  destruct (get_augment_column_same d1 c series E1) as (A0 & A1 & A2 & A3).
  destruct (get_augment_column_same d c series E) as (B0 & B1 & B2 & B3).
  unfold derived_columns in Hk. rewrite !elem_of_cons, elem_of_nil in Hk.
  destruct Hk as [->|[->|[->|[->|[]]]]]; congruence.
Qed.

End AugmentedFacts.


(** ** The analysis *)

Lemma went_well_table_wf : wf_df went_well_table.
Proof.
  split.
  - repeat constructor.
  - apply (bool_decide_unpack _). vm_compute. reflexivity.
Qed.

Lemma uploaded_lookup (d : DataFrame) : uploaded d !! 1%positive = Some d.
Proof. apply lookup_insert_eq. Qed.

Section AnalysisClaims.

Variable uni_alnum : char -> bool.
Variable num_str : Q -> pystr.

Lemma augmented_columns (scorer : pystr -> sentiment) (d : DataFrame)
  (c : pystr) (series : list pyval) :
  c ∈ sentiment_columns -> get_column (df_data d) c = Some series ->
  get_column (df_data (augmented uni_alnum scorer d)) c
    = Some (map (fun x => PStr (sanitize_text uni_alnum x)) series)
  /\ get_column (df_data (augmented uni_alnum scorer d)) (c ++ score_suffix)
    = Some (map (fun x => PNum (compound (scorer (sanitize_text uni_alnum x))))
                series)
  /\ get_column (df_data (augmented uni_alnum scorer d)) (c ++ category_suffix)
    = Some (map (fun x => PStr (category (scorer (sanitize_text uni_alnum x))))
                series)
  /\ get_column (df_data (augmented uni_alnum scorer d)) (c ++ color_suffix)
    = Some (map (fun x => PStr (color (scorer (sanitize_text uni_alnum x))))
                series).
Proof.
  intros Hc E.
  pose proof (get_fold_same uni_alnum scorer sentiment_columns d c series
                sentiment_columns_NoDup sentiment_columns_not_derived Hc E) as Hf.
  destruct (get_augment_column_same uni_alnum scorer d c series E)
    as (B0 & B1 & B2 & B3).
  unfold augmented.
  rewrite !Hf by (unfold derived_columns; rewrite !elem_of_cons; tauto).
  done.
Qed.

(** C1: with a scorer that raises for no text, [analyze_retrodata] returns
    the table it was given with the same row labels in the same order; the
    columns of the input stay where they were, and the names added are
    exactly the three derived names of every configured column present in
    the input; such a column holds the sanitized texts row by row, its
    derived columns hold score, category and colour of the same rows; every
    other column keeps its cells (the columns under a label that is no str
    among them), and a configured column that is absent adds nothing and
    raises nothing. *)
Theorem analyze_retrodata_rows_and_columns (scorer : pystr -> sentiment)
  (h : heap) (l : loc) (d : DataFrame) :
  h !! l = Some d -> wf_df d ->
  exists d',
    analyze_retrodata uni_alnum num_str (fun t => inr (scorer t)) l h
      = (<[l := d']> h, inr l)
    /\ wf_df d'
    /\ df_index d' = df_index d
    /\ df_columns d `prefix_of` df_columns d'
    /\ (forall k, k ∈ df_columns d'
           <-> k ∈ df_columns d
               \/ exists c, c ∈ sentiment_columns /\ LStr c ∈ df_columns d
                            /\ k ∈ map LStr (derived_columns c))
    /\ (forall c series,
          c ∈ sentiment_columns -> get_column (df_data d) c = Some series ->
          get_column (df_data d') c
            = Some (map (fun x => PStr (sanitize_text uni_alnum x)) series)
          /\ get_column (df_data d') (c ++ score_suffix)
            = Some (map (fun x => PNum (compound (scorer (sanitize_text uni_alnum x))))
                        series)
          /\ get_column (df_data d') (c ++ category_suffix)
            = Some (map (fun x => PStr (category (scorer (sanitize_text uni_alnum x))))
                        series)
          /\ get_column (df_data d') (c ++ color_suffix)
            = Some (map (fun x => PStr (color (scorer (sanitize_text uni_alnum x))))
                        series))
    /\ (forall k,
          (forall c, c ∈ sentiment_columns -> LStr c ∈ df_columns d ->
                     k ∉ c :: derived_columns c) ->
          get_column (df_data d') k = get_column (df_data d) k)
    /\ List.filter (fun c => negb (is_str (fst c))) (df_data d')
       = List.filter (fun c => negb (is_str (fst c))) (df_data d).
Proof.
  intros Hl [Hlen Hnd]. exists (augmented uni_alnum scorer d).
  split; [by apply analyze_retrodata_run|].
  split; [split; [by apply lengths_ok_fold | by apply NoDup_columns_fold]|].
  split; [apply index_fold|].
  split; [apply prefix_columns_fold|].
  split; [intros k; apply elem_of_columns_fold, sentiment_columns_not_derived|].
  split; [intros c series Hc E; by apply augmented_columns|].
  split.
  - intros k Hk. apply get_fold_other; [apply sentiment_columns_not_derived | done].
  - apply other_labels_fold.
Qed.

(** C9, as the code has it: [analyze_retrodata] works on the object it is
    given.  It returns the reference it received; afterwards that object is
    the augmented table, whose configured text columns hold the sanitized
    texts in place of the raw ones; no other object of the store changes. *)
Theorem analyze_retrodata_in_place (scorer : pystr -> sentiment)
  (h : heap) (l : loc) (d : DataFrame) :
  h !! l = Some d -> wf_df d ->
  exists h',
    analyze_retrodata uni_alnum num_str (fun t => inr (scorer t)) l h = (h', inr l)
    /\ h' !! l = Some (augmented uni_alnum scorer d)
    /\ (forall l', l' <> l -> h' !! l' = h !! l')
    /\ (forall c series,
          c ∈ sentiment_columns -> get_column (df_data d) c = Some series ->
          get_column (df_data (augmented uni_alnum scorer d)) c
            = Some (map (fun x => PStr (sanitize_text uni_alnum x)) series)).
Proof.
  intros Hl [Hlen Hnd]. exists (<[l := augmented uni_alnum scorer d]> h).
  split; [by apply analyze_retrodata_run|].
  split; [apply lookup_insert_eq|].
  split; [intros l' Hne; by apply lookup_insert_ne|].
  intros c series Hc E. by apply augmented_columns.
Qed.

(** C7: with the scorer of the specification, which answers a failure of the
    primitive by the neutral result, the analysis goes through to the end for
    every primitive; a cell on which the primitive fails gets score 0 and
    category neutral, and every other cell gets the score of the primitive
    and its category. *)
Theorem scoring_failure_is_neutral (primitive : pystr -> option Q)
  (color_of : Scorer.label -> pystr) (h : heap) (l : loc) (d : DataFrame) :
  h !! l = Some d -> wf_df d ->
  exists d',
    analyze_retrodata uni_alnum num_str (Scorer.analyze_text primitive color_of) l h
      = (<[l := d']> h, inr l)
    /\ df_index d' = df_index d
    /\ (forall c series,
          c ∈ sentiment_columns -> get_column (df_data d) c = Some series ->
          exists scores categories,
            get_column (df_data d') (c ++ score_suffix) = Some scores
            /\ get_column (df_data d') (c ++ category_suffix) = Some categories
            /\ length scores = length series
            /\ length categories = length series
            /\ forall i x, series !! i = Some x ->
                 match primitive (sanitize_text uni_alnum x) with
                 | None =>
                     scores !! i = Some (PNum 0)
                     /\ categories !! i = Some (PStr (py "neutral"))
                 | Some q =>
                     scores !! i = Some (PNum q)
                     /\ categories !! i
                        = Some (PStr (Scorer.label_name (Scorer.classify q)))
                 end).
Proof.
  intros Hl [Hlen _].
  exists (augmented uni_alnum (Scorer.score primitive color_of) d).
  split; [exact (analyze_retrodata_run uni_alnum num_str _ h l d Hl Hlen)|].
  split; [apply index_fold|].
  intros c series Hc E.
  destruct (augmented_columns (Scorer.score primitive color_of) d c series Hc E)
    as (_ & Hs & Hk & _).
  eexists _, _. split; [exact Hs|]. split; [exact Hk|].
  rewrite !length_map. split; [done|]. split; [done|].
  intros i x Hx. rewrite !list_lookup_fmap, Hx. cbn [fmap option_fmap option_map].
  unfold Scorer.score. cbn [compound category].
  destruct (primitive (sanitize_text uni_alnum x)); done.
Qed.

End AnalysisClaims.

Lemma analyze_retrodata_rows_and_columns_witness :
  exists d',
    analyze_retrodata ascii_only plain_num_str
      (fun t => inr (Scorer.score half_primitive grey t)) 1%positive
      (uploaded went_well_table)
    = (<[1%positive := d']> (uploaded went_well_table), inr 1%positive)
    /\ df_index d' = [0%nat; 1%nat].
Proof.
  assert (H1 : uploaded went_well_table !! 1%positive = Some went_well_table)
    by (vm_compute; reflexivity).
  assert (H2 : wf_df went_well_table).
  { split; [repeat constructor | apply (bool_decide_unpack _); vm_compute; reflexivity]. }
  destruct (analyze_retrodata_rows_and_columns ascii_only plain_num_str
              (Scorer.score half_primitive grey) (uploaded went_well_table)
              1%positive went_well_table H1 H2)
    as (d' & Hrun & _ & Hidx & _).
  exists d'. split; [exact Hrun | exact Hidx].
Defined.

Lemma analyze_retrodata_in_place_witness :
  exists h',
    analyze_retrodata ascii_only plain_num_str
      (fun t => inr (Scorer.score half_primitive grey t)) 1%positive
      (uploaded went_well_table)
    = (h', inr 1%positive)
    /\ h' !! 1%positive
       = Some (augmented ascii_only (Scorer.score half_primitive grey) went_well_table).
Proof.
  assert (H1 : uploaded went_well_table !! 1%positive = Some went_well_table)
    by (vm_compute; reflexivity).
  assert (H2 : wf_df went_well_table).
  { split; [repeat constructor | apply (bool_decide_unpack _); vm_compute; reflexivity]. }
  destruct (analyze_retrodata_in_place ascii_only plain_num_str
              (Scorer.score half_primitive grey) (uploaded went_well_table)
              1%positive went_well_table H1 H2)
    as (h' & Hrun & Hat & _).
  exists h'. split; [exact Hrun | exact Hat].
Defined.

(** C9, as stated, fails: after the call the object the caller passed holds
    the sanitized texts in place of the raw ones and three more columns. *)
Lemma analyze_retrodata_overwrites_raw_text :
  get_column (df_data went_well_table) (py "What Went Well?")
    = Some [PStr (py "Great work!! 100% effort"); PMissing]
  /\ exists d',
       fst (analyze_retrodata ascii_only plain_num_str
              (Scorer.analyze_text half_primitive grey) 1%positive
              (uploaded went_well_table)) !! 1%positive = Some d'
       /\ get_column (df_data d') (py "What Went Well?")
          = Some [PStr (py "Great work!! 100 effort"); PStr []]
       /\ df_columns d'
          = map LStr [py "issue_key"; py "What Went Well?";
                      py "What Went Well?_Sentiment_Score";
                      py "What Went Well?_Sentiment_Category";
                      py "What Went Well?_Color"].
Proof.
  split; [reflexivity|]. eexists. split; [vm_compute; reflexivity|].
  split; reflexivity.
Qed.

Lemma scoring_failure_is_neutral_witness :
  exists d' scores categories,
    analyze_retrodata ascii_only plain_num_str
      (Scorer.analyze_text half_primitive grey) 1%positive
      (uploaded went_well_table)
    = (<[1%positive := d']> (uploaded went_well_table), inr 1%positive)
    /\ get_column (df_data d') (py "What Went Well?_Sentiment_Score") = Some scores
    /\ get_column (df_data d') (py "What Went Well?_Sentiment_Category")
       = Some categories
    /\ scores !! 1%nat = Some (PNum 0)
    /\ categories !! 1%nat = Some (PStr (py "neutral")).
Proof.
  assert (H1 : uploaded went_well_table !! 1%positive = Some went_well_table)
    by (vm_compute; reflexivity).
  assert (H2 : wf_df went_well_table).
  { split; [repeat constructor | apply (bool_decide_unpack _); vm_compute; reflexivity]. }
  destruct (scoring_failure_is_neutral ascii_only plain_num_str half_primitive grey
              (uploaded went_well_table) 1%positive went_well_table H1 H2)
    as (d' & Hrun & _ & Hcols).
  assert (H3 : py "What Went Well?" ∈ sentiment_columns)
    by (apply (bool_decide_unpack _); vm_compute; reflexivity).
  destruct (Hcols (py "What Went Well?")
              [PStr (py "Great work!! 100% effort"); PMissing] H3 eq_refl)
    as (scores & categories & Hs & Hc & _ & _ & Hi).
  destruct (Hi 1%nat PMissing eq_refl) as [Hi1 Hi2].
  exists d', scores, categories. repeat split; assumption.
Defined.

(** The loop of [analyze_retrodata] has no handler of its own: an exception
    of [analyze_text] leaves the function. *)
Example analyze_retrodata_propagates :
  snd (analyze_retrodata ascii_only plain_num_str
         (fun _ => inl (Raised (py "scorer"))) 1%positive
         (uploaded went_well_table))
  = inl (Raised (py "scorer")).
Proof. vm_compute. reflexivity. Qed.

(** ** Classification *)

Ltac threshold_cases :=
  repeat match goal with
         | |- context [Qle_bool ?a ?b] =>
             let E := fresh "E" in
             destruct (Qle_bool a b) eqn:E;
             [ apply Qle_bool_iff in E
             | apply not_true_iff_false in E; rewrite Qle_bool_iff in E ]
         end.

Lemma classify_table (c : Q) :
  (Scorer.classify c = Scorer.very_negative <-> (c <= -3 # 5)%Q)
  /\ (Scorer.classify c = Scorer.negative <-> (-3 # 5 < c)%Q /\ (c <= -1 # 5)%Q)
  /\ (Scorer.classify c = Scorer.neutral <-> (-1 # 5 < c)%Q /\ (c < 1 # 5)%Q)
  /\ (Scorer.classify c = Scorer.positive <-> (1 # 5 <= c)%Q /\ (c < 3 # 5)%Q)
  /\ (Scorer.classify c = Scorer.very_positive <-> (3 # 5 <= c)%Q).
Proof.
  unfold Scorer.classify. threshold_cases; cbn [negb];
    repeat split; intros; try discriminate; try reflexivity;
    repeat match goal with H : _ /\ _ |- _ => destruct H end; lra.
Qed.

(** C6: the category never goes down in rank when the compound score goes
    up, and the thresholds are those of the table: -0.6 is still
    very_negative and -0.2 still negative, 0.2 is already positive and 0.6
    already very_positive, and a score below 0.2 (and above -0.2) is
    neutral. *)
Theorem classify_monotone_with_boundaries (c1 c2 : Q) :
  (c1 <= c2)%Q ->
  (Scorer.rank (Scorer.classify c1) <= Scorer.rank (Scorer.classify c2))%nat
  /\ Scorer.classify (-3 # 5) = Scorer.very_negative
  /\ Scorer.classify (-1 # 5) = Scorer.negative
  /\ Scorer.classify (1 # 5) = Scorer.positive
  /\ Scorer.classify (3 # 5) = Scorer.very_positive
  /\ ((c1 <= -3 # 5)%Q -> Scorer.classify c1 = Scorer.very_negative)
  /\ ((-3 # 5 < c1)%Q -> (c1 <= -1 # 5)%Q -> Scorer.classify c1 = Scorer.negative)
  /\ ((-1 # 5 < c1)%Q -> (c1 < 1 # 5)%Q -> Scorer.classify c1 = Scorer.neutral)
  /\ ((1 # 5 <= c1)%Q -> (c1 < 3 # 5)%Q -> Scorer.classify c1 = Scorer.positive)
  /\ ((3 # 5 <= c1)%Q -> Scorer.classify c1 = Scorer.very_positive).
Proof.
  intros Hle. split.
  - unfold Scorer.classify. threshold_cases; cbn [negb Scorer.rank]; try lia; lra.
  - destruct (classify_table c1) as (T1 & T2 & T3 & T4 & T5).
    repeat split; try reflexivity; intros.
    + by apply T1.
    + by apply T2.
    + by apply T3.
    + by apply T4.
    + by apply T5.
Qed.

Lemma classify_monotone_with_boundaries_witness :
  (Scorer.rank (Scorer.classify (19 # 100)) <= Scorer.rank (Scorer.classify (1 # 5)))%nat
  /\ Scorer.classify (19 # 100) = Scorer.neutral.
Proof.
  assert (H : (19 # 100 <= 1 # 5)%Q) by (vm_compute; discriminate).
  destruct (classify_monotone_with_boundaries (19 # 100) (1 # 5) H)
    as (Hm & _ & _ & _ & _ & _ & _ & Hn & _).
  split; [exact Hm|]. apply Hn; vm_compute; reflexivity.
Defined.

(** ** Filtering *)

Lemma df_columns_select_rows (d : DataFrame) (mask : list bool) :
  df_columns (select_rows d mask) = df_columns d.
Proof. unfold df_columns, select_rows. cbn [df_data]. by rewrite map_map. Qed.

Lemma apply_filter_empty (d : DataFrame) : apply_filter d [] = inr d.
Proof. reflexivity. Qed.

(** With the five category columns in the table, a row is kept when one of
    its five categories is selected. *)
Lemma apply_filter_all_present (d : DataFrame) (x : pystr) (xs : list pystr)
  (s1 s2 s3 s4 s5 : list pyval) :
  get_column (df_data d) (py "What Did Not Go Well?" ++ category_suffix) = Some s1 ->
  get_column (df_data d) (py "What Went Well?" ++ category_suffix) = Some s2 ->
  get_column (df_data d) (py "Reason for Churn" ++ category_suffix) = Some s3 ->
  get_column (df_data d) (py "Improvement opportunity" ++ category_suffix) = Some s4 ->
  get_column (df_data d) (py "Reason for reported success rate" ++ category_suffix)
    = Some s5 ->
  apply_filter d (x :: xs)
  = inr (select_rows d
           (mask_or (mask_or (mask_or (mask_or (isin (x :: xs) s1) (isin (x :: xs) s2))
                                      (isin (x :: xs) s3))
                             (isin (x :: xs) s4))
                    (isin (x :: xs) s5))).
Proof.
  intros H1 H2 H3 H4 H5. unfold apply_filter, category_isin, df_getitem.
  rewrite H1, H2, H3, H4, H5. reflexivity.
Qed.

Lemma apply_filter_inv (d : DataFrame) (sel : list pystr) :
  match apply_filter d sel with
  | inl e => exists key, e = KeyError key
  | inr d' => df_columns d' = df_columns d
  end.
Proof.
  unfold apply_filter, category_isin, df_getitem.
  destruct sel as [|x xs]; [reflexivity|]. cbn [rbind].
  repeat match goal with
         | |- context [get_column (df_data d) ?k] =>
             destruct (get_column (df_data d) k); cbn [rbind]; [|by eexists]
         end.
  apply df_columns_select_rows.
Qed.

(** C2: on a table that lacks one of the five configured columns, a
    non-empty selection does not filter by the category columns that are
    present: the first missing category column raises KeyError and the
    request ends in the error banner.  Here the analysed table has the
    category column of "What Went Well?" only, whose first row is positive. *)
Theorem apply_filter_missing_category_column :
  get_column (df_data analysed_went_well_table)
             (py "What Went Well?_Sentiment_Category")
    = Some [PStr (py "positive"); PStr (py "neutral")]
  /\ apply_filter analysed_went_well_table [py "positive"]
     = inl (KeyError (Some (py "What Did Not Go Well?_Sentiment_Category")))
  /\ snd (main ascii_only plain_num_str (Scorer.analyze_text half_primitive grey)
             argsort_insertion object_sort_unsupported
             1%positive [py "positive"] 0 (uploaded went_well_table))
     = ErrorBanner (KeyError (Some (py "What Did Not Go Well?_Sentiment_Category"))).
Proof. repeat split; vm_compute; reflexivity. Qed.

(** ** A sort column that is not there *)

Section MissingSortColumn.

Variable argsort : list Q -> list nat.
Variable nargsort_object : list pyval -> result (list nat).

(** C8, as the code has it: when the sort column is not a column of the
    table (or nothing could be chosen), no table is displayed and no other
    column is taken instead: a KeyError is raised, by the sort or before it
    by the filter, and the handler of [main] shows it like every other
    exception. *)
Theorem missing_sort_column_is_a_key_error (d : DataFrame) (sel : list pystr)
  (sort_by : option pystr) :
  match sort_by with
  | None => True
  | Some k => LStr k ∉ df_columns d
  end ->
  exists key,
    handler (filter_and_sort argsort nargsort_object d sel sort_by)
    = ErrorBanner (KeyError key).
Proof.
  intros Hk. unfold filter_and_sort.
  pose proof (apply_filter_inv d sel) as Hf.
  destruct (apply_filter d sel) as [e|d']; cbn [rbind].
  - destruct Hf as [key ->]. by exists key.
  - destruct sort_by as [k|]; cbn [sort_values_desc]; [|by eexists].
    unfold df_getitem. rewrite <- Hf in Hk.
    apply get_column_None in Hk. rewrite Hk. by eexists.
Qed.

End MissingSortColumn.

Lemma missing_sort_column_is_a_key_error_witness :
  exists key,
    handler (filter_and_sort argsort_insertion object_sort_unsupported
               analysed_went_well_table []
               (Some (py "Nonexistent_Sentiment_Score")))
    = ErrorBanner (KeyError key).
Proof.
  apply (missing_sort_column_is_a_key_error argsort_insertion
           object_sort_unsupported analysed_went_well_table []
           (Some (py "Nonexistent_Sentiment_Score"))).
  apply (bool_decide_unpack _). vm_compute. reflexivity.
Defined.

(** C8, as stated, fails: there is no condition of its own for the sort
    column.  When no configured column matched, the request ends with the
    KeyError of pandas for the key None; and a request whose sort column is
    missing ends exactly like a request whose sort column is present and
    whose filter misses a category column. *)
Lemma invalid_sort_column_not_distinct :
  snd (main ascii_only plain_num_str (Scorer.analyze_text half_primitive grey)
         argsort_insertion object_sort_unsupported
         1%positive [] 0 (uploaded issues_only_table))
    = ErrorBanner (KeyError None)
  /\ bool_decide (LStr (py "What Did Not Go Well?_Sentiment_Category")
                    ∈ df_columns analysed_went_well_table) = false
  /\ bool_decide (LStr (py "What Went Well?_Sentiment_Score")
                    ∈ df_columns analysed_went_well_table) = true
  /\ handler (filter_and_sort argsort_insertion object_sort_unsupported
                analysed_went_well_table []
                (Some (py "What Did Not Go Well?_Sentiment_Category")))
     = ErrorBanner (KeyError (Some (py "What Did Not Go Well?_Sentiment_Category")))
  /\ handler (filter_and_sort argsort_insertion object_sort_unsupported
                analysed_went_well_table [py "positive"]
                (Some (py "What Went Well?_Sentiment_Score")))
     = ErrorBanner (KeyError (Some (py "What Did Not Go Well?_Sentiment_Category"))).
Proof. repeat split; vm_compute; reflexivity. Qed.

(** ** Sorting *)

Lemma mask_select_map {A B : Type} (f : A -> B) (m : list bool) (l : list A) :
  mask_select m (map f l) = map f (mask_select m l).
Proof.
  revert l; induction m as [|b m IH]; intros [|x l]; simpl; try reflexivity.
  destruct b; simpl; by rewrite IH.
Qed.

Lemma mask_select_nth {A : Type} (d : A) (m : list bool) (l : list A) :
  map (fun i => nth i l d) (mask_select m (seq 0 (length l))) = mask_select m l.
Proof.
  revert m; induction l as [|x l IH]; intros [|b m]; simpl; try reflexivity.
  rewrite <- seq_shift, mask_select_map.
  destruct b; simpl; rewrite map_map; simpl; by rewrite IH.
Qed.

Lemma map_nth_seq {A : Type} (d : A) (l : list A) :
  map (fun i => nth i l d) (seq 0 (length l)) = l.
Proof.
  induction l as [|x l IH]; simpl; [reflexivity|].
  rewrite <- seq_shift, map_map. simpl. by rewrite IH.
Qed.

Lemma mask_select_partition {A : Type} (m : list bool) (l : list A) :
  length m = length l ->
  Permutation (mask_select (map negb m) l ++ mask_select m l) l.
Proof.
  revert l; induction m as [|b m IH]; intros [|x l] Hlen; simpl in *;
    try discriminate; [constructor|].
  injection Hlen as Hlen. destruct b; simpl.
  - symmetry. apply Permutation_cons_app. symmetry. by apply IH.
  - constructor. by apply IH.
Qed.

Lemma mask_select_isna (l : list pyval) :
  mask_select (map isna l) l
  = repeat PMissing (length (mask_select (map isna l) l)).
Proof.
  induction l as [|x l IH]; simpl; [reflexivity|].
  destruct x; simpl; try exact IH. by rewrite <- IH.
Qed.

Lemma mapM_as_number (l : list pyval) (qs : list Q) :
  mapM as_number l = Some qs -> l = map PNum qs.
Proof.
  intros H. apply mapM_Some_1 in H.
  induction H as [|x q l qs Hx _ IH]; simpl; [reflexivity|].
  destruct x; try discriminate. injection Hx as ->. by rewrite IH.
Qed.

Lemma mapM_as_number_total (l : list pyval) :
  Forall (fun v => is_text v = false) l ->
  exists qs, mapM as_number (mask_select (map negb (map isna l)) l) = Some qs.
Proof.
  induction 1 as [|x l Hx _ [qs IH]]; simpl; [by exists []|].
  destruct x as [s|q|]; simpl; [discriminate| |by exists qs].
  exists (q :: qs). change (mapM as_number (PNum q :: ?t))
    with (q' ← Some q; k ← mapM as_number t; mret (q' :: k)).
  by rewrite IH.
Qed.

Lemma StronglySorted_rev {A : Type} (R : relation A) (l : list A) :
  StronglySorted R l -> StronglySorted (flip R) (rev l).
Proof.
  induction 1 as [|x l _ IH Hx]; simpl; [constructor|].
  apply StronglySorted_app_2; [|exact IH|repeat constructor].
  intros x1 x2 H1 H2. apply list_elem_of_singleton in H2 as ->.
  apply list_elem_of_In, in_rev in H1. unfold flip.
  eapply (proj1 (List.Forall_forall _ _)) in Hx; eauto.
Qed.

Lemma map_nth_in_range {A B : Type} (f : A -> B) (d : A) (d' : B)
  (l : list A) (p : list nat) :
  (forall i, In i p -> (i < length l)%nat) ->
  map (fun i => nth i (map f l) d') p = map f (map (fun i => nth i l d) p).
Proof.
  intros Hp. rewrite map_map. apply map_ext_in. intros i Hi.
  rewrite (nth_indep _ d' (f d)) by (rewrite length_map; auto).
  apply map_nth.
Qed.

Lemma Permutation_map_nth {A : Type} (d : A) (l : list A) (p : list nat) :
  Permutation p (seq 0 (length l)) ->
  Permutation (map (fun i => nth i l d) p) l.
Proof.
  intros Hp. etransitivity; [apply Permutation_map, Hp|].
  by rewrite map_nth_seq.
Qed.

Lemma get_column_df_take (d : DataFrame) (indexer : list nat) (k : pystr) :
  get_column (df_data (df_take d indexer)) k
  = option_map (fun c => map (fun i => nth i c PMissing) indexer)
               (get_column (df_data d) k).
Proof.
  unfold df_take. cbn [df_data].
  induction (df_data d) as [|[k0 v0] rest IH]; simpl; [reflexivity|].
  case_bool_decide; [reflexivity | exact IH].
Qed.

Section SortFacts.

Variable argsort : list Q -> list nat.
Variable nargsort_object : list pyval -> result (list nat).
Hypothesis argsort_ok : argsort_spec argsort.

Lemma nargsort_desc_ordered (series : list pyval) :
  Forall (fun v => is_text v = false) series ->
  exists indexer numbers missing,
    nargsort_desc argsort nargsort_object series = inr indexer
    /\ Permutation indexer (seq 0 (length series))
    /\ map (fun i => nth i series PMissing) indexer
       = map PNum numbers ++ repeat PMissing missing
    /\ StronglySorted (fun a b => (b <= a)%Q) numbers.
Proof.
  intros Hnum. unfold nargsort_desc.
  destruct (mapM_as_number_total series Hnum) as [qs Hqs]. rewrite Hqs.
  apply mapM_as_number in Hqs.
  set (mask := map isna series) in *.
  set (L := mask_select (map negb mask) (seq 0 (length series))).
  set (nan_idx := mask_select mask (seq 0 (length series))).
  assert (HL : map (fun i => nth i series PMissing) L = map PNum qs).
  { unfold L. by rewrite mask_select_nth. }
  assert (Hlen : length L = length qs).
  { apply (f_equal (@length _)) in HL. by rewrite !length_map in HL. }
  destruct (argsort_ok (rev qs)) as [Hperm Hsorted].
  set (p := argsort (rev qs)) in *.
  assert (Hp : forall i, In i p -> (i < length (rev L))%nat).
  { intros i Hi. apply (Permutation_in _ Hperm), in_seq in Hi.
    rewrite !length_rev in *. lia. }
  exists (rev (map (fun i => nth i (rev L) 0%nat) p) ++ nan_idx),
         (rev (map (fun i => nth i (rev qs) 0%Q) p)),
         (length (mask_select mask series)).
  split; [reflexivity|]. split; [|split].
  - etransitivity; [|apply (mask_select_partition mask);
                      unfold mask; by rewrite length_map, length_seq].
    apply Permutation_app; [|reflexivity].
    etransitivity; [symmetry; apply Permutation_rev|].
    etransitivity; [apply Permutation_map_nth|symmetry; apply Permutation_rev].
    by rewrite length_rev, Hlen, <- (length_rev qs).
  - rewrite map_app. f_equal.
    + rewrite map_rev, map_rev. f_equal.
      assert (Hq : forall i, In i p -> (i < length (rev qs))%nat).
      { intros i Hi. rewrite length_rev, <- Hlen, <- (length_rev L). auto. }
      rewrite <- (map_nth_in_range PNum 0%Q PMissing (rev qs) p Hq).
      rewrite map_rev, <- HL, <- map_rev.
      by rewrite (map_nth_in_range (fun i => nth i series PMissing)
                    0%nat PMissing (rev L) p Hp).
    + unfold nan_idx. rewrite mask_select_nth. apply mask_select_isna.
  - apply (StronglySorted_rev Qle), Hsorted.
Qed.

End SortFacts.

(** [argsort_insertion] keeps the promise of [argsort], and keeps equal keys
    in the order of their positions. *)

Lemma StronglySorted_map {A B : Type} (R : relation A) (R' : relation B)
  (f : A -> B) (l : list A) :
  (forall x y, In x l -> In y l -> R x y -> R' (f x) (f y)) ->
  StronglySorted R l -> StronglySorted R' (map f l).
Proof.
  intros Hf H. induction H as [|x xs _ IH Hx]; simpl; constructor.
  - apply IH. intros a b Ha Hb. apply Hf; by right.
  - apply List.Forall_forall. intros q Hq. apply in_map_iff in Hq as [y [<- Hy]].
    apply Hf; [by left | by right |].
    eapply (proj1 (List.Forall_forall _ _)) in Hx; eauto.
Qed.

Section Insertion.

Variable v : list Q.

Lemma insert_position_Permutation (vi : nat) (run : list nat) :
  Permutation (insert_position v vi run) (vi :: run).
Proof.
  induction run as [|pk rest IH]; cbn [insert_position]; [reflexivity|].
  destruct (negb (Qle_bool (nth pk v 0%Q) (nth vi v 0%Q))); [|reflexivity].
  etransitivity; [apply perm_skip, IH | apply perm_swap].
Qed.

Lemma insert_position_sorted (vi : nat) (run : list nat) :
  Forall (fun pk => (pk < vi)%nat) run -> StronglySorted (run_order v) run ->
  StronglySorted (run_order v) (insert_position v vi run).
Proof.
  intros Hlt Hs. induction Hs as [|pk rest Hrest IH Hpk]; cbn [insert_position].
  - repeat constructor.
  - apply Forall_cons in Hlt as [Hpk_lt Hlt].
    destruct (Qle_bool (nth pk v 0%Q) (nth vi v 0%Q)) eqn:E; cbn [negb].
    + apply Qle_bool_iff in E. constructor; [by constructor|].
      constructor.
      * split; [exact E | intros _; exact Hpk_lt].
      * apply List.Forall_forall. intros b Hb.
        eapply (proj1 (List.Forall_forall _ _)) in Hpk; [|exact Hb].
        destruct Hpk as [Hle _]. split; [lra|].
        intros _. apply list_elem_of_In in Hb.
        by eapply (proj1 (Forall_forall _ _)) in Hlt.
    + assert (Hgt : (nth vi v 0 < nth pk v 0)%Q).
      { apply Qnot_le_lt. intros H. apply Qle_bool_iff in H. congruence. }
      constructor; [by apply IH|].
      apply List.Forall_forall. intros b Hb.
      apply (Permutation_in _ (insert_position_Permutation vi rest)) in Hb.
      destruct Hb as [<-|Hb].
      * split; [lra | intros H; lra].
      * eapply (proj1 (List.Forall_forall _ _)) in Hpk; eauto.
Qed.

Lemma insertion_run_ok (n : nat) :
  Permutation (insertion_run v n) (seq 0 n)
  /\ StronglySorted (run_order v) (insertion_run v n).
Proof.
  unfold insertion_run. induction n as [|n [IHp IHs]]; [split; constructor|].
  rewrite seq_S, fold_left_app. cbn [fold_left plus].
  split.
  - etransitivity; [apply insert_position_Permutation|].
    etransitivity; [apply perm_skip, IHp|]. by rewrite Permutation_cons_append.
  - apply insert_position_sorted; [|exact IHs].
    apply Forall_forall. intros pk Hpk. apply list_elem_of_In in Hpk.
    apply (Permutation_in _ IHp), in_seq in Hpk. lia.
Qed.

End Insertion.

Lemma argsort_insertion_ok : argsort_spec argsort_insertion.
Proof.
  intros l. unfold argsort_insertion.
  destruct (insertion_run_ok l (length l)) as [Hperm Hsorted].
  split.
  - etransitivity; [symmetry; apply Permutation_rev | exact Hperm].
  - apply (StronglySorted_map (flip (run_order l))).
    + intros x y _ _ [H _]. exact H.
    + by apply StronglySorted_rev.
Qed.

Lemma argsort_insertion_stable : argsort_stable argsort_insertion.
Proof.
  intros l. unfold argsort_insertion.
  destruct (insertion_run_ok l (length l)) as [_ Hsorted].
  apply StronglySorted_rev in Hsorted.
  rewrite <- (map_id (rev _)).
  apply (StronglySorted_map (flip (run_order l)) _ id); [|exact Hsorted].
  intros x y _ _ [_ H] E. apply H. by symmetry.
Qed.

Section SortClaims.

Variable argsort : list Q -> list nat.
Variable nargsort_object : list pyval -> result (list nat).

(** C3, as the code has it: on a score column (numbers, possibly missing
    values) the sort returns the rows of the table rearranged, whole rows at
    a time, so that the scores descend and the rows without a score come
    last.  This holds for every [argsort] that keeps the promise of numpy's
    default kind; the order among rows of equal score is not part of it. *)
Theorem sort_values_desc_descending (d : DataFrame) (k : pystr)
  (series : list pyval) :
  argsort_spec argsort -> wf_df d ->
  get_column (df_data d) k = Some series ->
  Forall (fun v => is_text v = false) series ->
  exists indexer numbers missing,
    sort_values_desc argsort nargsort_object d (Some k) = inr (df_take d indexer)
    /\ Permutation indexer (seq 0 (length (df_index d)))
    /\ Permutation (df_index (df_take d indexer)) (df_index d)
    /\ get_column (df_data (df_take d indexer)) k
       = Some (map PNum numbers ++ repeat PMissing missing)
    /\ StronglySorted (fun a b => (b <= a)%Q) numbers.
Proof.
  intros Hspec [Hlen _] E Hnum.
  destruct (nargsort_desc_ordered argsort nargsort_object Hspec series Hnum)
    as (indexer & numbers & missing & Hrun & Hperm & Hkeys & Hsorted).
  rewrite (get_column_length _ _ _ _ Hlen E) in Hperm.
  exists indexer, numbers, missing.
  split; [|split; [exact Hperm|split; [|split; [|exact Hsorted]]]].
  - cbn [sort_values_desc]. unfold df_getitem. rewrite E. cbn [rbind].
    by rewrite Hrun.
  - cbn [df_take df_index]. by apply Permutation_map_nth.
  - rewrite get_column_df_take, E. cbn [option_map]. by rewrite Hkeys.
Qed.

End SortClaims.

Lemma sort_values_desc_descending_witness :
  exists indexer numbers missing,
    sort_values_desc argsort_insertion object_sort_unsupported
      analysed_went_well_table (Some (py "What Went Well?_Sentiment_Score"))
    = inr (df_take analysed_went_well_table indexer)
    /\ get_column (df_data (df_take analysed_went_well_table indexer))
                  (py "What Went Well?_Sentiment_Score")
       = Some (map PNum numbers ++ repeat PMissing missing)
    /\ StronglySorted (fun a b => (b <= a)%Q) numbers.
Proof.
  assert (H1 : wf_df analysed_went_well_table).
  { split; [repeat constructor | apply (bool_decide_unpack _); vm_compute; reflexivity]. }
  assert (H2 : Forall (fun v => is_text v = false) [PNum (1 # 2); PNum 0])
    by (repeat constructor).
  destruct (sort_values_desc_descending argsort_insertion
              object_sort_unsupported analysed_went_well_table
              (py "What Went Well?_Sentiment_Score") [PNum (1 # 2); PNum 0]
              argsort_insertion_ok H1 eq_refl H2)
    as (indexer & numbers & missing & Hrun & _ & _ & Hkeys & Hsorted).
  exists indexer, numbers, missing. repeat split; assumption.
Defined.

(** Two rows of equal score alone keep their order under the network. *)
Example nargsort_desc_two_ties :
  nargsort_desc argsort_8_64bit object_sort_unsupported
    [PNum (1 # 2); PNum (1 # 2)]
  = inr [0%nat; 1%nat].
Proof. vm_compute. reflexivity. Qed.

(** C3, as stated, fails in its promise about ties.  [sort_values] is called
    without [kind], so numpy sorts with its default kind, which on x86 with
    AVX-512 is the sorting network of [argsort_8_64bit] for the short array
    of a small table.  Of four rows with the scores 0, 0, 0.5, 0.5 the two
    rows of score 0.5 come out in the order 3, 2 and the two rows of score 0
    in the order 1, 0. *)
Lemma sort_values_desc_reorders_ties :
  df_index tied_table = [0%nat; 1%nat; 2%nat; 3%nat]
  /\ get_column (df_data tied_table) (py "What Went Well?_Sentiment_Score")
     = Some [PNum 0; PNum 0; PNum (1 # 2); PNum (1 # 2)]
  /\ sort_values_desc argsort_8_64bit object_sort_unsupported tied_table
       (Some (py "What Went Well?_Sentiment_Score"))
     = inr (mkDataFrame [3%nat; 2%nat; 1%nat; 0%nat]
              [ (LStr (py "issue_key"),
                 [PStr (py "RETRO-4"); PStr (py "RETRO-3");
                  PStr (py "RETRO-2"); PStr (py "RETRO-1")]);
                (LStr (py "What Went Well?_Sentiment_Score"),
                 [PNum (1 # 2); PNum (1 # 2); PNum 0; PNum 0]) ]).
Proof. repeat split; vm_compute; reflexivity. Qed.

(** * Further properties of the code *)

(** ** sanitize_text *)

Section SanitizeMore.

Variable uni_alnum : char -> bool.

Lemma normalised_only_spaces (b : bool) (s : pystr) :
  normalised b s = true ->
  Forall (fun c => is_space c = true -> c = space) s.
Proof.
  revert b; induction s as [|c t IH]; intros b H; constructor.
  - simpl in H. destruct (is_space c); [|discriminate].
    intros _. apply andb_prop in H as [H _]. apply andb_prop in H as [H _].
    by apply N.eqb_eq in H.
  - eapply IH, normalised_cons, H.
Qed.

(** X1: every character of a sanitized text is a word character, one of
    ". , ! ?" or a space: no other punctuation, no bullet, hyphen or
    asterisk, and no whitespace other than the space itself. *)
Theorem sanitize_text_alphabet (v : pyval) :
  forallb (is_plain uni_alnum) (sanitize_text uni_alnum v) = true.
Proof.
  destruct v as [s| |]; try reflexivity.
  destruct (sanitize_text_classes uni_alnum s) as [Hsp Hbu].
  pose proof (normalised_only_spaces _ _ (sanitize_text_normalised uni_alnum s)) as Hws.
  apply forallb_forall. intros c Hc.
  rewrite List.Forall_forall in Hsp, Hbu, Hws.
  unfold is_plain. rewrite (Hsp c Hc), (Hbu c Hc). cbn [negb andb].
  destruct (is_space c) eqn:E; [|reflexivity].
  rewrite (Hws c Hc E). reflexivity.
Qed.

(** The visible characters go through every stage. *)

Lemma visible_not_space (c : char) :
  is_space c = true -> is_visible uni_alnum c = false.
Proof. unfold is_visible. by intros ->. Qed.

Lemma filter_visible_re_sub_class (cls : char -> bool) (s : pystr) :
  (forall c, cls c = true -> is_visible uni_alnum c = false) ->
  List.filter (is_visible uni_alnum) (re_sub_class cls s)
  = List.filter (is_visible uni_alnum) s.
Proof.
  intros Hcls. unfold re_sub_class.
  induction s as [|c t IH]; [reflexivity|]. cbn [map List.filter].
  destruct (cls c) eqn:E.
  - rewrite (Hcls c E), (visible_not_space space eq_refl). exact IH.
  - by rewrite IH.
Qed.

Lemma filter_visible_re_sub_ws_runs (b : bool) (s : pystr) :
  List.filter (is_visible uni_alnum) (re_sub_ws_runs b s)
  = List.filter (is_visible uni_alnum) s.
Proof.
  revert b; induction s as [|c t IH]; intros b; [reflexivity|].
  cbn [re_sub_ws_runs List.filter].
  destruct (is_space c) eqn:E.
  - rewrite (visible_not_space c E). destruct b; [apply IH|].
    cbn [List.filter]. rewrite (visible_not_space space eq_refl). apply IH.
  - cbn [List.filter]. by rewrite IH.
Qed.

Lemma filter_visible_lstrip (s : pystr) :
  List.filter (is_visible uni_alnum) (lstrip s)
  = List.filter (is_visible uni_alnum) s.
Proof.
  induction s as [|c t IH]; simpl; [reflexivity|].
  destruct (is_space c) eqn:E; [|reflexivity].
  by rewrite (visible_not_space c E).
Qed.

Lemma filter_visible_strip (s : pystr) :
  List.filter (is_visible uni_alnum) (strip s)
  = List.filter (is_visible uni_alnum) s.
Proof.
  unfold strip, rstrip.
  by rewrite filter_rev, filter_visible_lstrip, filter_rev, rev_involutive,
    filter_visible_lstrip.
Qed.

(** X2: sanitization neither drops, adds nor reorders a visible character:
    the word characters and the marks ". , ! ?" of the input are those of
    the result, in the same order. *)
Theorem sanitize_text_keeps_visible (s : pystr) :
  List.filter (is_visible uni_alnum) (sanitize_text uni_alnum (PStr s))
  = List.filter (is_visible uni_alnum) s.
Proof.
  unfold sanitize_text.
  rewrite filter_visible_strip, filter_visible_re_sub_ws_runs.
  rewrite !filter_visible_re_sub_class; [reflexivity| |].
  - intros c Hc. unfold is_visible. rewrite Hc. by rewrite andb_false_r.
  - intros c Hc. unfold is_visible. rewrite Hc. by rewrite andb_false_r.
Qed.

Lemma clean_text_sanitize_text (s : pystr) :
  clean_text uni_alnum (sanitize_text uni_alnum (PStr s)) = true.
Proof.
  unfold clean_text.
  rewrite sanitize_text_normalised.
  unfold sanitize_text. rewrite starts_ws_strip, ends_ws_strip. cbn [negb andb].
  destruct (sanitize_text_classes uni_alnum s) as [Hsp Hbu].
  rewrite List.Forall_forall in Hsp, Hbu.
  apply forallb_forall. intros c Hc.
  by rewrite (Hsp c Hc), (Hbu c Hc).
Qed.

Lemma sanitize_text_clean (s : pystr) :
  clean_text uni_alnum s = true -> sanitize_text uni_alnum (PStr s) = s.
Proof.
  unfold clean_text. intros H.
  apply andb_prop in H as [H Hcl]. apply andb_prop in H as [H He].
  apply andb_prop in H as [Hn Hs].
  apply negb_true_iff in Hs, He.
  assert (Hsp : Forall (fun c => is_special uni_alnum c = false) s).
  { apply List.Forall_forall. intros c Hc.
    apply (proj1 (forallb_forall _ _) Hcl) in Hc.
    apply andb_prop in Hc as [Hc _]. by apply negb_true_iff in Hc. }
  assert (Hbu : Forall (fun c => is_bullet c = false) s).
  { apply List.Forall_forall. intros c Hc.
    apply (proj1 (forallb_forall _ _) Hcl) in Hc.
    apply andb_prop in Hc as [_ Hc]. by apply negb_true_iff in Hc. }
  unfold sanitize_text.
  rewrite (re_sub_class_fixed _ _ Hsp), (re_sub_class_fixed _ _ Hbu).
  rewrite (re_sub_ws_runs_normalised _ _ Hn).
  by apply strip_fixed.
Qed.

(** X3: the texts that sanitization leaves as they are, are exactly the
    clean ones: single spaces as the only whitespace, none at the ends, and
    no character that one of the two substitutions replaces. *)
Theorem sanitize_text_fixed_points (s : pystr) :
  bool_decide (sanitize_text uni_alnum (PStr s) = s) = clean_text uni_alnum s.
Proof.
  destruct (clean_text uni_alnum s) eqn:E.
  - apply bool_decide_eq_true. by apply sanitize_text_clean.
  - apply bool_decide_eq_false. intros H.
    pose proof (clean_text_sanitize_text s) as Hc. rewrite H in Hc. congruence.
Qed.

Lemma length_re_sub_ws_runs (b : bool) (s : pystr) :
  (length (re_sub_ws_runs b s) <= length s)%nat.
Proof.
  revert b; induction s as [|c t IH]; intros b; simpl; [lia|].
  destruct (is_space c); [destruct b|]; simpl;
    [specialize (IH true) | specialize (IH true) | specialize (IH false)]; lia.
Qed.

Lemma length_lstrip (s : pystr) : (length (lstrip s) <= length s)%nat.
Proof.
  induction s as [|c t IH]; simpl; [lia|]. destruct (is_space c); simpl; lia.
Qed.

Lemma length_strip (s : pystr) : (length (strip s) <= length s)%nat.
Proof.
  unfold strip, rstrip. rewrite length_rev.
  etransitivity; [apply length_lstrip|]. rewrite length_rev. apply length_lstrip.
Qed.

(** X4: a sanitized text is never longer than the text it comes from. *)
Theorem sanitize_text_length (s : pystr) :
  (length (sanitize_text uni_alnum (PStr s)) <= length s)%nat.
Proof.
  unfold sanitize_text. etransitivity; [apply length_strip|].
  etransitivity; [apply length_re_sub_ws_runs|].
  unfold re_sub_class. by rewrite !length_map.
Qed.

Lemma bullet_is_special (c : char) :
  uni_alnum 8226%N = false -> is_bullet c = true ->
  is_special uni_alnum c = true.
Proof.
  intros Hu. unfold is_bullet. intros H.
  apply orb_prop in H as [H|H]; [apply orb_prop in H as [H|H]|];
    apply N.eqb_eq in H; subst c; unfold is_special, is_word; cbn;
    rewrite ?Hu; reflexivity.
Qed.

(** X5: when the bullet U+2022 is not alphanumeric (in Unicode it is
    punctuation), the second substitution of [sanitize_text] finds nothing
    left to replace: the first one has already turned bullets, hyphens and
    asterisks into spaces. *)
Theorem sanitize_text_bullet_pass_redundant (s : pystr) :
  uni_alnum 8226%N = false ->
  sanitize_text uni_alnum (PStr s)
  = strip (re_sub_ws_runs false (re_sub_class (is_special uni_alnum) s)).
Proof.
  intros Hu. unfold sanitize_text. do 2 f_equal.
  apply re_sub_class_fixed, List.Forall_forall. intros c Hc.
  apply in_map_iff in Hc as [c0 [<- _]].
  destruct (is_special uni_alnum c0) eqn:E; [reflexivity|].
  destruct (is_bullet c0) eqn:B; [|reflexivity].
  rewrite (bullet_is_special c0 Hu B) in E. discriminate.
Qed.

Lemma filter_nil_forallb {A : Type} (f : A -> bool) (l : list A) :
  List.filter f l = [] <-> forallb (fun x => negb (f x)) l = true.
Proof.
  induction l as [|x l IH]; simpl; [tauto|].
  destruct (f x); simpl; [split; discriminate | exact IH].
Qed.

(** X6: the result is the empty string exactly when the input has no
    visible character, that is when it consists of whitespace, bullets and
    characters that the first substitution replaces. *)
Theorem sanitize_text_empty (s : pystr) :
  bool_decide (sanitize_text uni_alnum (PStr s) = [])
  = forallb (fun c => negb (is_visible uni_alnum c)) s.
Proof.
  assert (Hf : List.filter (is_visible uni_alnum) (sanitize_text uni_alnum (PStr s))
               = List.filter (is_visible uni_alnum) s).
  { unfold sanitize_text.
    rewrite filter_visible_strip, filter_visible_re_sub_ws_runs.
    rewrite !filter_visible_re_sub_class; [reflexivity| |];
      intros c Hc; unfold is_visible; rewrite Hc; by rewrite andb_false_r. }
  destruct (sanitize_text_classes uni_alnum s) as [Hsp Hbu].
  pose proof (starts_ws_strip
                (re_sub_ws_runs false
                   (re_sub_class is_bullet
                      (re_sub_class (is_special uni_alnum) s)))) as Hs.
  change (strip _) with (sanitize_text uni_alnum (PStr s)) in Hs.
  destruct (forallb (fun c => negb (is_visible uni_alnum c)) s) eqn:E.
  - apply bool_decide_eq_true.
    apply filter_nil_forallb in E. rewrite E in Hf.
    destruct (sanitize_text uni_alnum (PStr s)) as [|c t]; [reflexivity|].
    exfalso. simpl in Hf, Hs.
    apply Forall_cons in Hsp as [Hsp _]. apply Forall_cons in Hbu as [Hbu _].
    destruct (is_visible uni_alnum c) eqn:V; [discriminate|].
    unfold is_visible in V. rewrite Hsp, Hbu, Hs in V. discriminate.
  - apply bool_decide_eq_false. intros H. rewrite H in Hf. simpl in Hf.
    symmetry in Hf. apply filter_nil_forallb in Hf. congruence.
Qed.

End SanitizeMore.

Lemma sanitize_text_bullet_pass_redundant_witness :
  sanitize_text ascii_only (PStr (py "- done * tested"))
  = strip (re_sub_ws_runs false
             (re_sub_class (is_special ascii_only) (py "- done * tested"))).
Proof.
  apply (sanitize_text_bullet_pass_redundant ascii_only (py "- done * tested")).
  reflexivity.
Defined.

(** ** analyze_retrodata *)

Lemma set_column_same (data : list (column_label * list pyval)) (k : pystr)
  (v : list pyval) :
  get_column data k = Some v -> set_column data k v = data.
Proof.
  induction data as [|[k0 v0] rest IH]; simpl; [discriminate|].
  case_bool_decide.
  - by intros [= ->].
  - intros Hv. by rewrite IH.
Qed.

Section AnalyzeMore.

Variable uni_alnum : char -> bool.
Variable num_str : Q -> pystr.

Lemma analyze_column_absent (a : pystr -> result sentiment) (h : heap)
  (l : loc) (d : DataFrame) (c : pystr) :
  h !! l = Some d -> LStr c ∉ df_columns d ->
  analyze_column uni_alnum num_str a l c h = (h, inr tt).
Proof.
  intros Hl Hc. unfold analyze_column.
  rewrite (bind_run _ _ _ _ _ (deref_run _ _ _ Hl)).
  by rewrite bool_decide_false.
Qed.

(** X7: on a table with none of the five configured columns the analysis
    changes nothing in the store and calls the scorer for no cell: it
    returns the reference it was given, whatever the scorer would do. *)
Theorem analyze_retrodata_no_configured_column (a : pystr -> result sentiment)
  (h : heap) (l : loc) (d : DataFrame) :
  h !! l = Some d ->
  (forall c, c ∈ sentiment_columns -> LStr c ∉ df_columns d) ->
  analyze_retrodata uni_alnum num_str a l h = (h, inr l).
Proof.
  intros Hl Habs. unfold analyze_retrodata.
  assert (Hloop : forall cs, (forall c, c ∈ cs -> LStr c ∉ df_columns d) ->
            for_each cs (analyze_column uni_alnum num_str a l) h = (h, inr tt)).
  { induction cs as [|c cs IH]; intros Hcs; simpl; [reflexivity|].
    rewrite (bind_run _ _ _ _ _
               (analyze_column_absent a h l d c Hl
                  (Hcs c ltac:(apply elem_of_cons; by left)))).
    apply IH. intros c' Hc'. apply Hcs, elem_of_cons. by right. }
  by rewrite (bind_run _ _ _ _ _ (Hloop _ Habs)).
Qed.

(** A second sanitization of a sanitized cell. *)
Lemma sanitize_text_again (v : pyval) :
  sanitize_text uni_alnum (PStr (sanitize_text uni_alnum v))
  = sanitize_text uni_alnum v.
Proof.
  destruct v as [s| |]; try reflexivity.
  apply sanitize_text_clean, clean_text_sanitize_text.
Qed.

Section Idempotent.

Variable scorer : pystr -> sentiment.

Lemma augment_column_augmented (d : DataFrame) (c : pystr) :
  c ∈ sentiment_columns ->
  augment_column uni_alnum scorer (augmented uni_alnum scorer d) c
  = augmented uni_alnum scorer d.
Proof.
  intros Hc. set (D := augmented uni_alnum scorer d).
  destruct (get_column (df_data d) c) as [series|] eqn:E.
  - destruct (augmented_columns uni_alnum scorer d c series Hc E)
      as (G0 & G1 & G2 & G3). fold D in G0, G1, G2, G3.
    unfold augment_column. rewrite G0.
    rewrite !map_map.
    rewrite (map_ext (fun x => PStr (sanitize_text uni_alnum
                                       (PStr (sanitize_text uni_alnum x))))
                     (fun x => PStr (sanitize_text uni_alnum x)))
      by (intros x; by rewrite sanitize_text_again).
    rewrite (map_ext (fun x => PNum (compound (scorer (sanitize_text uni_alnum
                                       (PStr (sanitize_text uni_alnum x))))))
                     (fun x => PNum (compound (scorer (sanitize_text uni_alnum x)))))
      by (intros x; by rewrite sanitize_text_again).
    rewrite (map_ext (fun x => PStr (category (scorer (sanitize_text uni_alnum
                                       (PStr (sanitize_text uni_alnum x))))))
                     (fun x => PStr (category (scorer (sanitize_text uni_alnum x)))))
      by (intros x; by rewrite sanitize_text_again).
    rewrite (map_ext (fun x => PStr (color (scorer (sanitize_text uni_alnum
                                       (PStr (sanitize_text uni_alnum x))))))
                     (fun x => PStr (color (scorer (sanitize_text uni_alnum x)))))
      by (intros x; by rewrite sanitize_text_again).
    rewrite (set_column_same _ _ _ G0), (set_column_same _ _ _ G1),
      (set_column_same _ _ _ G2), (set_column_same _ _ _ G3).
    by destruct D.
  - assert (G : get_column (df_data D) c = None).
    { unfold D, augmented. rewrite get_fold_other; [exact E| |].
      - apply sentiment_columns_not_derived.
      - intros c' Hc' Hp. apply not_elem_of_cons. split.
        + intros ->. apply get_column_None in E. by apply E.
        + intros Hd. apply derived_is_derived_name in Hd.
          rewrite (sentiment_columns_not_derived c Hc) in Hd. discriminate. }
    unfold augment_column. by rewrite G.
Qed.

Lemma augmented_augmented (d : DataFrame) :
  augmented uni_alnum scorer (augmented uni_alnum scorer d)
  = augmented uni_alnum scorer d.
Proof.
  set (D := augmented uni_alnum scorer d).
  assert (H : forall cs, (forall c, c ∈ cs -> c ∈ sentiment_columns) ->
            fold_left (augment_column uni_alnum scorer) cs D = D).
  { induction cs as [|c cs IH]; intros Hcs; simpl; [reflexivity|].
    unfold D at 1. rewrite augment_column_augmented
      by (apply Hcs, elem_of_cons; by left).
    apply IH. intros c' Hc'. apply Hcs, elem_of_cons. by right. }
  apply H. auto.
Qed.

(** X8: analysing the analysed table again changes nothing: a second call
    of [analyze_retrodata] on the same object leaves the store as the first
    call left it (the sanitized texts are clean, and the same scores,
    categories and colours are assigned to the same columns). *)
Theorem analyze_retrodata_twice (h : heap) (l : loc) (d : DataFrame) :
  h !! l = Some d -> wf_df d ->
  analyze_retrodata uni_alnum num_str (fun t => inr (scorer t)) l
    (fst (analyze_retrodata uni_alnum num_str (fun t => inr (scorer t)) l h))
  = (fst (analyze_retrodata uni_alnum num_str (fun t => inr (scorer t)) l h),
     inr l).
Proof.
  intros Hl [Hlen _].
  rewrite (analyze_retrodata_run uni_alnum num_str scorer h l d Hl Hlen).
  cbn [fst].
  rewrite (analyze_retrodata_run uni_alnum num_str scorer _ l
             (augmented uni_alnum scorer d)
             (lookup_insert_eq _ _ _) (lengths_ok_fold _ _ _ _ Hlen)).
  by rewrite augmented_augmented, insert_insert_eq.
Qed.

End Idempotent.

End AnalyzeMore.

Section AnalyzeColumns.

Variable uni_alnum : char -> bool.
Variable num_str : Q -> pystr.
Variable scorer : pystr -> sentiment.

Lemma columns_augment_column_fresh (d : DataFrame) (c : pystr) :
  LStr c ∈ df_columns d ->
  (forall k, k ∈ derived_columns c -> LStr k ∉ df_columns d) ->
  df_columns (augment_column uni_alnum scorer d c)
  = df_columns d ++ map LStr (derived_columns c).
Proof.
  intros Hc Hfresh. unfold augment_column, df_columns in *.
  destruct (get_column (df_data d) c) as [series|] eqn:E;
    [|apply get_column_None in E; by destruct E].
  cbn [df_data].
  assert (H1 : LStr (c ++ score_suffix) ∉ map fst (df_data d))
    by (apply Hfresh; unfold derived_columns; rewrite !elem_of_cons; tauto).
  assert (H2 : LStr (c ++ category_suffix) ∉ map fst (df_data d))
    by (apply Hfresh; unfold derived_columns; rewrite !elem_of_cons; tauto).
  assert (H3 : LStr (c ++ color_suffix) ∉ map fst (df_data d))
    by (apply Hfresh; unfold derived_columns; rewrite !elem_of_cons; tauto).
  rewrite (names_set_column _ (c ++ color_suffix)).
  rewrite (names_set_column _ (c ++ category_suffix)).
  rewrite (names_set_column _ (c ++ score_suffix)).
  rewrite (names_set_column _ c).
  rewrite (bool_decide_true _ Hc), app_nil_r.
  rewrite (bool_decide_false _ H1).
  rewrite bool_decide_false.
  2:{ rewrite elem_of_app, list_elem_of_singleton.
      intros [H|[= H]]; [done | suffix_clash H]. }
  rewrite bool_decide_false.
  2:{ rewrite !elem_of_app, !list_elem_of_singleton.
      intros [[H|[= H]]|[= H]]; [done | suffix_clash H | suffix_clash H]. }
  unfold derived_columns. cbn [map]. by rewrite <- !app_assoc.
Qed.

Lemma columns_fold_exact (cs : list pystr) (d : DataFrame) :
  NoDup cs -> (forall c, c ∈ cs -> is_derived_name c = false) ->
  (forall c k, c ∈ cs -> k ∈ derived_columns c -> LStr k ∉ df_columns d) ->
  df_columns (fold_left (augment_column uni_alnum scorer) cs d)
  = df_columns d
    ++ map LStr
         (flat_map derived_columns
            (List.filter (fun c => bool_decide (LStr c ∈ df_columns d)) cs)).
Proof.
  revert d; induction cs as [|c cs IH]; intros d Hnd Hcs Hfresh.
  - simpl. by rewrite app_nil_r.
  - apply NoDup_cons in Hnd as [Hc Hnd]. cbn [fold_left].
    rewrite IH; [|exact Hnd| |].
    + rewrite (filter_ext_in
                 (fun c0 => bool_decide (LStr c0 ∈ df_columns
                                           (augment_column uni_alnum scorer d c)))
                 (fun c0 => bool_decide (LStr c0 ∈ df_columns d))).
      2:{ intros c' Hc'. apply bool_decide_ext, present_after_round.
          apply Hcs, elem_of_cons. right. by apply list_elem_of_In. }
      cbn [List.filter]. case_bool_decide as Hp.
      * rewrite columns_augment_column_fresh; [|exact Hp|].
        -- cbn [flat_map]. by rewrite map_app, <- app_assoc.
        -- intros k Hk. eapply Hfresh; [apply elem_of_cons; by left|exact Hk].
      * unfold augment_column. apply get_column_None in Hp. by rewrite Hp.
    + intros c' Hc'. apply Hcs, elem_of_cons. by right.
    + intros c' k Hc' Hk Hin.
      apply elem_of_columns_augment_column in Hin as [Hin|[_ Hin]].
      * eapply Hfresh; [apply elem_of_cons; right; exact Hc'|exact Hk|exact Hin].
      * apply elem_of_map_LStr in Hin.
        apply Hc. by rewrite (derived_columns_inj c c' k Hin Hk).
Qed.

(** X9: when no column of the input carries one of the derived suffixes,
    the analysed table has the columns of the input followed, for every
    configured column present and in the order of the configured list, by
    its score, category and colour columns. *)
Theorem analyze_retrodata_column_order (h : heap) (l : loc) (d : DataFrame) :
  h !! l = Some d -> wf_df d ->
  (forall k, LStr k ∈ df_columns d -> is_derived_name k = false) ->
  exists d',
    analyze_retrodata uni_alnum num_str (fun t => inr (scorer t)) l h
      = (<[l := d']> h, inr l)
    /\ df_columns d'
       = df_columns d
         ++ map LStr
              (flat_map derived_columns
                 (List.filter (fun c => bool_decide (LStr c ∈ df_columns d))
                              sentiment_columns)).
Proof.
  intros Hl [Hlen _] Hplain. exists (augmented uni_alnum scorer d).
  split; [by apply analyze_retrodata_run|].
  apply columns_fold_exact.
  - apply sentiment_columns_NoDup.
  - apply sentiment_columns_not_derived.
  - intros c k _ Hk Hin. apply derived_is_derived_name in Hk.
    rewrite (Hplain k Hin) in Hk. discriminate.
Qed.

End AnalyzeColumns.

Section AnalyzeRaises.

Variable uni_alnum : char -> bool.
Variable num_str : Q -> pystr.
Variable a : pystr -> result sentiment.

Lemma analyze_cells_first_failure (pre post : list pystr) (t : pystr)
  (acc : list sentiment) (e : exn) (h : heap) :
  Forall (fun t' => exists s, a t' = inr s) pre -> a t = inl e ->
  analyze_cells num_str a (map PStr (pre ++ t :: post)) acc h = (h, inl e).
Proof.
  intros Hpre Ht. revert acc.
  induction Hpre as [|t' pre [s Hs] _ IH]; intros acc; simpl.
  - unfold bind, lift. by rewrite Ht.
  - unfold bind, lift. rewrite Hs. apply IH.
Qed.

Lemma analyze_column_raises (h : heap) (l : loc) (d : DataFrame) (c : pystr)
  (pre post : list pyval) (x : pyval) (e : exn) :
  h !! l = Some d -> lengths_ok d ->
  get_column (df_data d) c = Some (pre ++ x :: post) ->
  Forall (fun y => exists s, a (sanitize_text uni_alnum y) = inr s) pre ->
  a (sanitize_text uni_alnum x) = inl e ->
  analyze_column uni_alnum num_str a l c h
  = (<[l := mkDataFrame (df_index d)
             (set_column (df_data d) c
                (map (fun y => PStr (sanitize_text uni_alnum y))
                     (pre ++ x :: post)))]> h,
     inl e).
Proof.
  intros Hl Hd E Hpre Hx. unfold analyze_column.
  rewrite (bind_run _ _ _ _ _ (deref_run _ _ _ Hl)).
  rewrite bool_decide_true by (apply get_column_is_Some; eauto).
  pose proof (get_column_length _ _ _ _ Hd E) as Hlen.
  rewrite (bind_run _ _ _ _ _ (getitem_run _ _ _ _ _ Hl E)).
  erewrite bind_run; last first.
  { apply (setitem_run _ _ _ _ _ Hl). by rewrite length_map. }
  erewrite bind_run; last first.
  { eapply getitem_run; [apply lookup_insert_eq|].
    cbn [df_data]. rewrite get_set_column. by rewrite bool_decide_true. }
  rewrite <- (map_map (sanitize_text uni_alnum) PStr), map_app. cbn [map].
  apply bind_raise. apply analyze_cells_first_failure; [|exact Hx].
  apply List.Forall_forall. intros t Ht. apply in_map_iff in Ht as [y [<- Hy]].
  eapply (proj1 (List.Forall_forall _ _)) in Hpre; eauto.
Qed.

(** X10: the scoring loop has no handler, and the text column is
    overwritten before it starts.  When the scorer raises on a cell of the
    first configured column present, [analyze_retrodata] ends with that
    exception, and the caller's table is left with this column already
    sanitized and without derived columns. *)
Theorem analyze_retrodata_raises_midway (h : heap) (l : loc) (d : DataFrame)
  (c : pystr) (pre post : list pyval) (x : pyval) (e : exn) :
  h !! l = Some d -> wf_df d ->
  List.find (fun c0 => bool_decide (LStr c0 ∈ df_columns d)) sentiment_columns
    = Some c ->
  get_column (df_data d) c = Some (pre ++ x :: post) ->
  Forall (fun y => exists s, a (sanitize_text uni_alnum y) = inr s) pre ->
  a (sanitize_text uni_alnum x) = inl e ->
  analyze_retrodata uni_alnum num_str a l h
  = (<[l := mkDataFrame (df_index d)
             (set_column (df_data d) c
                (map (fun y => PStr (sanitize_text uni_alnum y))
                     (pre ++ x :: post)))]> h,
     inl e).
Proof.
  intros Hl [Hd _] Hfind E Hpre Hx. unfold analyze_retrodata.
  apply bind_raise.
  induction sentiment_columns as [|c0 cs IH]; [discriminate|].
  cbn [List.find] in Hfind. cbn [for_each].
  case_bool_decide as Hp.
  - injection Hfind as ->. apply bind_raise.
    by apply analyze_column_raises.
  - rewrite (bind_run _ _ _ _ _
               (analyze_column_absent uni_alnum num_str a h l d c0 Hl Hp)).
    by apply IH.
Qed.

End AnalyzeRaises.

Lemma analyze_retrodata_no_configured_column_witness :
  analyze_retrodata ascii_only plain_num_str picky_analyzer 1%positive
    (uploaded issues_only_table)
  = (uploaded issues_only_table, inr 1%positive).
Proof.
  apply (analyze_retrodata_no_configured_column ascii_only plain_num_str
           picky_analyzer (uploaded issues_only_table) 1%positive
           issues_only_table).
  - vm_compute. reflexivity.
  - intros c Hc. revert c Hc. apply Forall_forall.
    apply (bool_decide_unpack _). vm_compute. reflexivity.
Defined.

Lemma analyze_retrodata_twice_witness :
  analyze_retrodata ascii_only plain_num_str
    (fun t => inr (Scorer.score half_primitive grey t)) 1%positive
    (fst (analyze_retrodata ascii_only plain_num_str
            (fun t => inr (Scorer.score half_primitive grey t)) 1%positive
            (uploaded went_well_table)))
  = (fst (analyze_retrodata ascii_only plain_num_str
            (fun t => inr (Scorer.score half_primitive grey t)) 1%positive
            (uploaded went_well_table)),
     inr 1%positive).
Proof.
  apply (analyze_retrodata_twice ascii_only plain_num_str
           (Scorer.score half_primitive grey) (uploaded went_well_table)
           1%positive went_well_table).
  - vm_compute. reflexivity.
  - split; [repeat constructor | apply (bool_decide_unpack _); vm_compute; reflexivity].
Defined.

Lemma analyze_retrodata_column_order_witness :
  exists d',
    analyze_retrodata ascii_only plain_num_str
      (fun t => inr (Scorer.score half_primitive grey t)) 1%positive
      (uploaded went_well_table)
    = (<[1%positive := d']> (uploaded went_well_table), inr 1%positive)
    /\ df_columns d'
       = map LStr [py "issue_key"; py "What Went Well?";
                   py "What Went Well?_Sentiment_Score";
                   py "What Went Well?_Sentiment_Category";
                   py "What Went Well?_Color"].
Proof.
  apply (analyze_retrodata_column_order ascii_only plain_num_str
           (Scorer.score half_primitive grey) (uploaded went_well_table)
           1%positive went_well_table).
  - vm_compute. reflexivity.
  - split; [repeat constructor | apply (bool_decide_unpack _); vm_compute; reflexivity].
  - intros k Hk. apply negb_true_iff. revert k Hk.
    apply str_labels_forallb. vm_compute. reflexivity.
Defined.

Lemma analyze_retrodata_raises_midway_witness :
  analyze_retrodata ascii_only plain_num_str picky_analyzer 1%positive
    (uploaded went_well_table)
  = (<[1%positive :=
         mkDataFrame [0%nat; 1%nat]
           [ (LStr (py "issue_key"), [PStr (py "RETRO-1"); PStr (py "RETRO-2")]);
             (LStr (py "What Went Well?"),
              [PStr (py "Great work!! 100 effort"); PStr []]) ]]>
       (uploaded went_well_table),
     inl (Raised (py "empty text"))).
Proof.
  apply (analyze_retrodata_raises_midway ascii_only plain_num_str picky_analyzer
           (uploaded went_well_table) 1%positive went_well_table
           (py "What Went Well?")
           [PStr (py "Great work!! 100% effort")] [] PMissing
           (Raised (py "empty text"))).
  - vm_compute. reflexivity.
  - split; [repeat constructor | apply (bool_decide_unpack _); vm_compute; reflexivity].
  - vm_compute. reflexivity.
  - reflexivity.
  - repeat constructor. eexists. reflexivity.
  - reflexivity.
Defined.

(** ** The select box, the filter and the sort of main *)

Lemma endswith_inv (k s : pystr) :
  endswith k s = true -> exists k0, k = k0 ++ s.
Proof.
  unfold endswith. intros H. apply bool_decide_eq_true in H.
  exists (take (length k - length s) k).
  transitivity (take (length k - length s) k ++ drop (length k - length s) k).
  - by rewrite take_drop.
  - by rewrite H.
Qed.

Lemma not_derived_not_score (k : pystr) :
  is_derived_name k = false -> endswith k score_suffix = false.
Proof.
  unfold is_derived_name. intros H.
  apply orb_false_elim in H as [H _]. by apply orb_false_elim in H as [H _].
Qed.

Lemma filter_score_derived (cs : list pystr) :
  List.filter (fun col => endswith col score_suffix) (flat_map derived_columns cs)
  = map (fun c => c ++ score_suffix) cs.
Proof.
  induction cs as [|c cs IH]; [reflexivity|].
  cbn [flat_map map]. unfold derived_columns at 1. cbn [app List.filter].
  rewrite endswith_app.
  destruct (endswith (c ++ category_suffix) score_suffix) eqn:E1.
  { apply endswith_inv in E1 as [k0 H]. suffix_clash H. }
  destruct (endswith (c ++ color_suffix) score_suffix) eqn:E2.
  { apply endswith_inv in E2 as [k0 H]. suffix_clash H. }
  by rewrite IH.
Qed.

Lemma score_columns_not_str (columns : list column_label) :
  forallb is_str columns = false -> score_columns columns = inl AttributeError.
Proof.
  induction columns as [|[s|n|t] rest IH]; cbn [forallb is_str score_columns andb];
    [discriminate| |reflexivity|reflexivity].
  intros H. by rewrite (IH H).
Qed.

Lemma score_columns_plain (columns : list column_label) :
  forallb is_str columns = true ->
  (forall k, LStr k ∈ columns -> endswith k score_suffix = false) ->
  score_columns columns = inr [].
Proof.
  induction columns as [|[s|n|t] rest IH]; cbn [forallb is_str score_columns andb];
    [reflexivity| |discriminate|discriminate].
  intros H Hplain. rewrite IH; [|exact H|].
  - cbn [rbind]. rewrite (Hplain s); [reflexivity|]. apply elem_of_cons; by left.
  - intros k Hk. apply Hplain, elem_of_cons. by right.
Qed.

Lemma score_columns_strs (names : list pystr) :
  score_columns (map LStr names)
  = inr (List.filter (fun col => endswith col score_suffix) names).
Proof.
  induction names as [|n names IH]; [reflexivity|].
  cbn [map score_columns List.filter]. rewrite IH. cbn [rbind].
  by destruct (endswith n score_suffix).
Qed.

Lemma score_columns_app (l1 l2 : list column_label) :
  score_columns (l1 ++ l2)
  = let* options1 := score_columns l1 in
    let* options2 := score_columns l2 in
    inr (options1 ++ options2).
Proof.
  induction l1 as [|[s|n|t] l1 IH]; cbn [app score_columns rbind];
    [by destruct (score_columns l2)| |reflexivity|reflexivity].
  rewrite IH. destruct (score_columns l1) as [e|o1]; [reflexivity|].
  cbn [rbind]. destruct (score_columns l2) as [e|o2]; [reflexivity|].
  cbn [rbind]. by destruct (endswith s score_suffix).
Qed.

Lemma score_options_augmented (uni_alnum : char -> bool)
  (scorer : pystr -> sentiment) (d : DataFrame) :
  (forall k, LStr k ∈ df_columns d -> is_derived_name k = false) ->
  score_columns (df_columns (augmented uni_alnum scorer d))
  = if forallb is_str (df_columns d)
    then inr (map (fun c => c ++ score_suffix)
                  (List.filter (fun c => bool_decide (LStr c ∈ df_columns d))
                               sentiment_columns))
    else inl AttributeError.
Proof.
  intros Hplain. unfold augmented.
  rewrite columns_fold_exact.
  - destruct (forallb is_str (df_columns d)) eqn:Hstr.
    + rewrite score_columns_app, score_columns_plain, score_columns_strs;
        [|exact Hstr|].
      * cbn [rbind app]. by rewrite filter_score_derived.
      * intros k Hk. apply not_derived_not_score, Hplain, Hk.
    + apply score_columns_not_str. rewrite forallb_app, Hstr. reflexivity.
  - apply sentiment_columns_NoDup.
  - apply sentiment_columns_not_derived.
  - intros c k _ Hk Hin. apply derived_is_derived_name in Hk.
    rewrite (Hplain k Hin) in Hk. discriminate.
Qed.

Section SelectBox.

Variable uni_alnum : char -> bool.
Variable num_str : Q -> pystr.
Variable scorer : pystr -> sentiment.

(** X11: the options of the "Sort by" select box after the analysis, for a
    table none of whose str labels carries a derived suffix.  When every
    column label is a str (every header cell of the sheet is text), the box
    offers exactly the score columns of the configured columns present, in
    the order of the configured list, and the default choice, position 0,
    is the score column of the first of them, and None when none is present.
    When some label is no str (a header cell that is a number or a date),
    building the options raises AttributeError. *)
Theorem sort_options_after_analysis (h : heap) (l : loc) (d : DataFrame) :
  h !! l = Some d -> wf_df d ->
  (forall k, LStr k ∈ df_columns d -> is_derived_name k = false) ->
  exists d',
    analyze_retrodata uni_alnum num_str (fun t => inr (scorer t)) l h
      = (<[l := d']> h, inr l)
    /\ score_columns (df_columns d')
       = (if forallb is_str (df_columns d)
          then inr (map (fun c => c ++ score_suffix)
                        (List.filter (fun c => bool_decide (LStr c ∈ df_columns d))
                                     sentiment_columns))
          else inl AttributeError)
    /\ selectbox (map (fun c => c ++ score_suffix)
                      (List.filter (fun c => bool_decide (LStr c ∈ df_columns d))
                                   sentiment_columns)) 0
       = option_map (fun c => c ++ score_suffix)
           (List.find (fun c => bool_decide (LStr c ∈ df_columns d))
                      sentiment_columns).
Proof.
  intros Hl [Hlen _] Hplain. exists (augmented uni_alnum scorer d).
  split; [by apply analyze_retrodata_run|].
  split; [by apply score_options_augmented|]. unfold selectbox.
  induction sentiment_columns as [|c cs IH]; [reflexivity|].
  cbn [List.filter List.find].
  destruct (bool_decide (LStr c ∈ df_columns d)); [reflexivity|].
  exact IH.
Qed.

End SelectBox.

Lemma sort_options_after_analysis_witness :
  exists d',
    analyze_retrodata ascii_only plain_num_str
      (fun t => inr (Scorer.score half_primitive grey t)) 1%positive
      (uploaded went_well_table)
    = (<[1%positive := d']> (uploaded went_well_table), inr 1%positive)
    /\ score_columns (df_columns d')
       = inr [py "What Went Well?_Sentiment_Score"].
Proof.
  assert (H1 : uploaded went_well_table !! 1%positive = Some went_well_table)
    by (vm_compute; reflexivity).
  assert (H2 : wf_df went_well_table).
  { split; [repeat constructor | apply (bool_decide_unpack _); vm_compute; reflexivity]. }
  assert (H3 : forall k, LStr k ∈ df_columns went_well_table
                         -> is_derived_name k = false).
  { intros k Hk. apply negb_true_iff. revert k Hk.
    apply str_labels_forallb. vm_compute. reflexivity. }
  destruct (sort_options_after_analysis ascii_only plain_num_str
              (Scorer.score half_primitive grey) (uploaded went_well_table)
              1%positive went_well_table H1 H2 H3) as (d' & Hrun & Hopts & _).
  exists d'. split; [exact Hrun | exact Hopts].
Defined.

(** The rows that a mask keeps. *)

Lemma mask_select_In {A : Type} (m : list bool) (l : list A) (x : A) :
  In x (mask_select m l) -> In x l.
Proof.
  revert l; induction m as [|b m IH]; intros [|y l]; simpl; try tauto.
  destruct b; simpl; intros H; [destruct H as [H|H]|]; auto.
Qed.

Lemma mask_select_seq_sorted (m : list bool) (s n : nat) :
  StronglySorted lt (mask_select m (seq s n)).
Proof.
  revert m s; induction n as [|n IH]; intros [|b m] s; simpl; try constructor.
  destruct b; [|apply IH]. constructor; [apply IH|].
  apply List.Forall_forall. intros i Hi.
  apply mask_select_In, in_seq in Hi. lia.
Qed.

Lemma mask_select_seq_elem (m : list bool) (s i : nat) :
  i ∈ mask_select m (seq s (length m))
  <-> (s <= i)%nat /\ m !! (i - s)%nat = Some true.
Proof.
  revert s; induction m as [|b m IH]; intros s; simpl.
  - rewrite elem_of_nil. naive_solver.
  - assert (Hrest : i ∈ mask_select m (seq (S s) (length m))
                    <-> (s < i)%nat /\ (b :: m) !! (i - s)%nat = Some true).
    { rewrite IH. split.
      - intros [H1 H2]. split; [lia|].
        replace (i - s)%nat with (S (i - S s)) by lia. exact H2.
      - intros [H1 H2]. split; [lia|].
        replace (i - s)%nat with (S (i - S s)) in H2 by lia. exact H2. }
    destruct b.
    + rewrite elem_of_cons, Hrest. split.
      * intros [->|[H1 H2]]; [by rewrite Nat.sub_diag|]. split; [lia|done].
      * intros [H1 H2]. destruct (decide (i = s)) as [->|Hne]; [by left|].
        right. split; [lia|done].
    + rewrite Hrest. split.
      * intros [H1 H2]. split; [lia|done].
      * intros [H1 H2]. split; [|done].
        destruct (decide (i = s)) as [->|Hne]; [|lia].
        rewrite Nat.sub_diag in H2. discriminate.
Qed.

Lemma select_rows_take (d : DataFrame) (mask : list bool) :
  lengths_ok d -> length mask = length (df_index d) ->
  select_rows d mask = df_take d (mask_select mask (seq 0 (length mask))).
Proof.
  intros Hd Hm. unfold select_rows, df_take. f_equal.
  - rewrite Hm. by rewrite mask_select_nth.
  - apply map_ext_in. intros [k v] Hin. cbn [fst snd]. f_equal.
    eapply (proj1 (List.Forall_forall _ _)) in Hd; [|exact Hin].
    cbn [snd] in Hd. rewrite Hm, <- Hd. by rewrite mask_select_nth.
Qed.

Lemma mask_or_lookup_true (a b : list bool) (i : nat) :
  length a = length b ->
  mask_or a b !! i = Some true <-> a !! i = Some true \/ b !! i = Some true.
Proof.
  intros Hlen. unfold mask_or. rewrite lookup_zip_with.
  destruct (a !! i) as [x|] eqn:Ea; destruct (b !! i) as [y|] eqn:Eb; simpl.
  - destruct x, y; naive_solver.
  - apply lookup_lt_Some in Ea. apply lookup_ge_None in Eb. lia.
  - apply lookup_lt_Some in Eb. apply lookup_ge_None in Ea. lia.
  - naive_solver.
Qed.

Lemma isin_lookup_true (sel : list pystr) (cells : list pyval) (i : nat) :
  isin sel cells !! i = Some true
  <-> exists cat, cells !! i = Some (PStr cat) /\ cat ∈ sel.
Proof.
  unfold isin. rewrite list_lookup_fmap.
  destruct (cells !! i) as [[s|q|]|]; simpl; split;
    try (intros [= H]); try (intros (cat & [= <-] & Hc)); try (intros (cat & [=] & _)).
  - exists s. split; [done|]. by apply bool_decide_eq_true in H.
  - f_equal. by apply bool_decide_eq_true.
Qed.

Lemma length_isin (sel : list pystr) (cells : list pyval) :
  length (isin sel cells) = length cells.
Proof. unfold isin. apply length_map. Qed.

Lemma length_mask_or (a b : list bool) :
  length a = length b -> length (mask_or a b) = length a.
Proof. intros H. unfold mask_or. by rewrite length_zip_with_l_eq. Qed.

(** X12: on a table that has the category column of each of the five
    configured columns, a non-empty selection keeps whole rows, in their
    original order, and keeps the row at a position exactly when one of its
    five category cells is a selected category. *)
Theorem apply_filter_rows (d : DataFrame) (x : pystr) (xs : list pystr) :
  wf_df d ->
  (forall c, c ∈ sentiment_columns ->
             LStr (c ++ category_suffix) ∈ df_columns d) ->
  exists positions,
    apply_filter d (x :: xs) = inr (df_take d positions)
    /\ StronglySorted lt positions
    /\ forall i, i ∈ positions
         <-> exists c cells cat,
               c ∈ sentiment_columns
               /\ get_column (df_data d) (c ++ category_suffix) = Some cells
               /\ cells !! i = Some (PStr cat)
               /\ cat ∈ x :: xs.
Proof.
  intros [Hd _] Hall.
  assert (Hget : forall c, c ∈ sentiment_columns ->
            exists cells, get_column (df_data d) (c ++ category_suffix) = Some cells
                          /\ length cells = length (df_index d)).
  { intros c Hc. destruct (proj2 (get_column_is_Some _ _) (Hall c Hc)) as [cells E].
    exists cells. split; [exact E|]. exact (get_column_length _ _ _ _ Hd E). }
  unfold sentiment_columns in Hget.
  destruct (Hget (py "What Did Not Go Well?")) as (s1 & E1 & L1);
    [rewrite !elem_of_cons; tauto|].
  destruct (Hget (py "What Went Well?")) as (s2 & E2 & L2);
    [rewrite !elem_of_cons; tauto|].
  destruct (Hget (py "Reason for Churn")) as (s3 & E3 & L3);
    [rewrite !elem_of_cons; tauto|].
  destruct (Hget (py "Improvement opportunity")) as (s4 & E4 & L4);
    [rewrite !elem_of_cons; tauto|].
  destruct (Hget (py "Reason for reported success rate")) as (s5 & E5 & L5);
    [rewrite !elem_of_cons; tauto|].
  clear Hget.
  set (sel := x :: xs).
  set (n := length (df_index d)) in *.
  assert (M1 : length (isin sel s1) = n) by (by rewrite length_isin).
  assert (M2 : length (isin sel s2) = n) by (by rewrite length_isin).
  assert (M3 : length (isin sel s3) = n) by (by rewrite length_isin).
  assert (M4 : length (isin sel s4) = n) by (by rewrite length_isin).
  assert (M5 : length (isin sel s5) = n) by (by rewrite length_isin).
  set (m12 := mask_or (isin sel s1) (isin sel s2)).
  assert (M12 : length m12 = n)
    by (unfold m12; rewrite length_mask_or; congruence).
  set (m123 := mask_or m12 (isin sel s3)).
  assert (M123 : length m123 = n)
    by (unfold m123; rewrite length_mask_or; congruence).
  set (m1234 := mask_or m123 (isin sel s4)).
  assert (M1234 : length m1234 = n)
    by (unfold m1234; rewrite length_mask_or; congruence).
  set (mask := mask_or m1234 (isin sel s5)).
  assert (Hm : length mask = n)
    by (unfold mask; rewrite length_mask_or; congruence).
  exists (mask_select mask (seq 0 (length mask))).
  split; [|split].
  - rewrite <- (select_rows_take d mask Hd Hm).
    exact (apply_filter_all_present d x xs s1 s2 s3 s4 s5 E1 E2 E3 E4 E5).
  - apply mask_select_seq_sorted.
  - intros i. rewrite mask_select_seq_elem, Nat.sub_0_r.
    unfold mask. rewrite mask_or_lookup_true by congruence.
    unfold m1234. rewrite mask_or_lookup_true by congruence.
    unfold m123. rewrite mask_or_lookup_true by congruence.
    unfold m12. rewrite mask_or_lookup_true by congruence.
    rewrite !isin_lookup_true.
    split.
    + intros [_ [[[[H|H]|H]|H]|H]]; destruct H as (cat & Hc & Hin);
        [exists (py "What Did Not Go Well?"), s1, cat
        |exists (py "What Went Well?"), s2, cat
        |exists (py "Reason for Churn"), s3, cat
        |exists (py "Improvement opportunity"), s4, cat
        |exists (py "Reason for reported success rate"), s5, cat];
        (split; [unfold sentiment_columns; rewrite !elem_of_cons; tauto|done]).
    + intros (c & cells & cat & Hc & E & Hcell & Hin). split; [lia|].
      unfold sentiment_columns in Hc. rewrite !elem_of_cons, elem_of_nil in Hc.
      destruct Hc as [->|[->|[->|[->|[->|[]]]]]];
        [rewrite E1 in E|rewrite E2 in E|rewrite E3 in E|rewrite E4 in E
        |rewrite E5 in E]; injection E as <-; eauto 10.
Qed.

Lemma df_columns_df_take (d : DataFrame) (indexer : list nat) :
  df_columns (df_take d indexer) = df_columns d.
Proof. unfold df_columns, df_take. cbn [df_data]. by rewrite map_map. Qed.

Section SortKeepsColumns.

Variable argsort : list Q -> list nat.
Variable nargsort_object : list pyval -> result (list nat).

(** X13: a filter and sort that succeeds returns a table with the very
    columns of the analysed table, and it succeeds only with a sort column
    that is one of them: once the sort has gone through, the average of the
    statistics always finds its column, so its "N/A" case never shows. *)
Theorem filter_and_sort_keeps_columns (d d' : DataFrame) (sel : list pystr)
  (sort_by : option pystr) :
  filter_and_sort argsort nargsort_object d sel sort_by = inr d' ->
  df_columns d' = df_columns d
  /\ exists k, sort_by = Some k /\ LStr k ∈ df_columns d'.
Proof.
  unfold filter_and_sort. intros H.
  pose proof (apply_filter_inv d sel) as Hf.
  destruct (apply_filter d sel) as [e|d1]; cbn [rbind] in H; [discriminate|].
  destruct sort_by as [k|]; cbn [sort_values_desc] in H; [|discriminate].
  unfold df_getitem in H.
  destruct (get_column (df_data d1) k) as [series|] eqn:E; cbn [rbind] in H;
    [|discriminate].
  destruct (nargsort_desc argsort nargsort_object series) as [e|indexer];
    cbn [rbind] in H; [discriminate|].
  injection H as <-. rewrite df_columns_df_take. split; [exact Hf|].
  exists k. split; [reflexivity|]. apply get_column_is_Some. eauto.
Qed.

End SortKeepsColumns.

Lemma filter_and_sort_keeps_columns_witness :
  df_columns (df_take analysed_went_well_table [0%nat; 1%nat])
  = df_columns analysed_went_well_table
  /\ exists k, Some (py "What Went Well?_Sentiment_Score") = Some k
               /\ LStr k ∈ df_columns (df_take analysed_went_well_table
                                                [0%nat; 1%nat]).
Proof.
  apply (filter_and_sort_keeps_columns argsort_insertion
           object_sort_unsupported analysed_went_well_table
           (df_take analysed_went_well_table [0%nat; 1%nat]) []
           (Some (py "What Went Well?_Sentiment_Score"))).
  vm_compute. reflexivity.
Defined.

Lemma wf_df_augmented (uni_alnum : char -> bool) (scorer : pystr -> sentiment)
  (d : DataFrame) :
  wf_df d -> wf_df (augmented uni_alnum scorer d).
Proof.
  intros [H1 H2]. split; [by apply lengths_ok_fold | by apply NoDup_columns_fold].
Qed.

Lemma apply_filter_rows_witness :
  exists positions,
    apply_filter analysed_full_table [py "positive"]
    = inr (df_take analysed_full_table positions)
    /\ StronglySorted lt positions
    /\ (0%nat ∈ positions
        <-> exists c cells cat,
              c ∈ sentiment_columns
              /\ get_column (df_data analysed_full_table) (c ++ category_suffix)
                 = Some cells
              /\ cells !! 0%nat = Some (PStr cat)
              /\ cat ∈ [py "positive"]).
Proof.
  assert (H1 : wf_df analysed_full_table).
  { apply wf_df_augmented. split; [repeat constructor|].
    apply (bool_decide_unpack _). vm_compute. reflexivity. }
  assert (H2 : forall c, c ∈ sentiment_columns ->
                 LStr (c ++ category_suffix) ∈ df_columns analysed_full_table).
  { apply Forall_forall. apply (bool_decide_unpack _). vm_compute. reflexivity. }
  destruct (apply_filter_rows analysed_full_table (py "positive") [] H1 H2)
    as (positions & Hrun & Hsorted & Hrows).
  exists positions. split; [exact Hrun|]. split; [exact Hsorted|]. apply Hrows.
Defined.

(** ** The columns named after the sort column *)

Lemma replace_scan_skip_all (old new s : pystr) :
  replace_scan old new (length s) s = [].
Proof. induction s as [|c t IH]; simpl; [reflexivity | exact IH]. Qed.

Lemma starts_with_refl (s : pystr) : starts_with s s = true.
Proof.
  induction s as [|c t IH]; simpl; [reflexivity|]. by rewrite N.eqb_refl.
Qed.

Lemma replace_scan_suffix (c old' new : pystr) (u : char) :
  u ∉ c ->
  replace_scan (u :: old') new 0 (c ++ u :: old') = c ++ new.
Proof.
  induction c as [|x c IH]; intros Hu.
  - cbn [app replace_scan]. rewrite starts_with_refl.
    cbn [length]. rewrite Nat.sub_succ, Nat.sub_0_r.
    by rewrite replace_scan_skip_all, app_nil_r.
  - apply not_elem_of_cons in Hu as [Hx Hu].
    cbn [app replace_scan starts_with].
    rewrite (proj2 (N.eqb_neq u x) Hx). cbn [andb].
    by rewrite IH.
Qed.

(** X14: for a sort column C_Sentiment_Score whose C holds no underscore
    (as the five configured names), the three replacements of [main] give
    back the text column C and name its colour column C_Color and its
    category column C_Sentiment_Category. *)
Theorem columns_of_sort_column (c : pystr) :
  95%N ∉ c ->
  text_column_of (c ++ score_suffix) = c
  /\ color_column_of (c ++ score_suffix) = c ++ color_suffix
  /\ category_column_of (c ++ score_suffix) = c ++ category_suffix.
Proof.
  intros Hc. unfold text_column_of, color_column_of, category_column_of.
  change score_suffix with (95%N :: py "Sentiment_Score").
  unfold str_replace. rewrite !(replace_scan_suffix c _ _ 95%N Hc).
  by rewrite app_nil_r.
Qed.

Lemma columns_of_sort_column_witness :
  text_column_of (py "What Went Well?" ++ score_suffix) = py "What Went Well?"
  /\ color_column_of (py "What Went Well?" ++ score_suffix)
     = py "What Went Well?" ++ color_suffix
  /\ category_column_of (py "What Went Well?" ++ score_suffix)
     = py "What Went Well?" ++ category_suffix.
Proof.
  apply (columns_of_sort_column (py "What Went Well?")).
  apply (bool_decide_unpack _). vm_compute. reflexivity.
Defined.

(** ** format_row *)

Lemma row_get_None (row : list (pystr * pyval)) (k : pystr) :
  row_get row k = None <-> k ∉ map fst row.
Proof.
  induction row as [|[k0 v0] rest IH]; cbn [row_get map fst].
  - split; [intros _; apply not_elem_of_nil | done].
  - rewrite not_elem_of_cons. destruct (decide (k0 = k)) as [->|Hne].
    + rewrite bool_decide_true by done. naive_solver.
    + rewrite bool_decide_false by done. rewrite IH. naive_solver.
Qed.

Lemma row_get_is_Some (row : list (pystr * pyval)) (k : pystr) :
  is_Some (row_get row k) <-> k ∈ map fst row.
Proof.
  rewrite <- not_eq_None_Some, row_get_None.
  split; [apply dec_stable | auto].
Qed.

Lemma elem_of_keys_dict_set {V : Type} (dct : list (pystr * V)) (k k' : pystr)
  (v : V) :
  k' ∈ map fst (dict_set dct k v) <-> k' ∈ map fst dct \/ k' = k.
Proof.
  induction dct as [|[k0 v0] rest IH]; cbn [dict_set map fst].
  - rewrite list_elem_of_singleton, elem_of_nil. naive_solver.
  - case_bool_decide; cbn [map fst]; rewrite !elem_of_cons; [|rewrite IH];
      naive_solver.
Qed.

Lemma elem_of_keys_copy_columns (cols : list pystr)
  (row acc : list (pystr * pyval)) (k : pystr) :
  k ∈ map fst (copy_columns cols row acc)
  <-> k ∈ map fst acc \/ (k ∈ cols /\ k ∈ map fst row).
Proof.
  revert acc; induction cols as [|col cols IH]; intros acc; cbn [copy_columns].
  - rewrite elem_of_nil. naive_solver.
  - destruct (row_get row col) as [v|] eqn:E.
    + assert (col ∈ map fst row) by (apply row_get_is_Some; eauto).
      rewrite IH, elem_of_keys_dict_set, elem_of_cons. naive_solver.
    + apply row_get_None in E. rewrite IH, elem_of_cons. naive_solver.
Qed.

Section FormatRowFacts.

Variable num_str : Q -> pystr.
Variable two_decimals : Q -> pystr.

(** X15: [format_row] raises in two cases only, both with the text column
    and the sort column in the row: KeyError when the colour column that
    belongs to the sort column is not in the row, and ValueError when the
    cell of the sort column is a text. *)
Theorem format_row_raises (sort_by : pystr) (row : list (pystr * pyval))
  (e : exn) :
  format_row num_str two_decimals sort_by row = inl e
  <-> text_column_of sort_by ∈ map fst row
      /\ sort_by ∈ map fst row
      /\ (((color_column_of sort_by ∉ map fst row)
           /\ e = KeyError (Some (color_column_of sort_by)))
          \/ (color_column_of sort_by ∈ map fst row
              /\ (exists s, row_get row sort_by = Some (PStr s))
              /\ e = ValueError)).
Proof.
  unfold format_row.
  destruct (decide (text_column_of sort_by ∈ map fst row)) as [Ht|Ht];
    [rewrite (bool_decide_true _ Ht)|rewrite (bool_decide_false _ Ht)];
    cbn [andb]; [|naive_solver].
  destruct (decide (sort_by ∈ map fst row)) as [Hs|Hs];
    [rewrite (bool_decide_true _ Hs)|rewrite (bool_decide_false _ Hs)];
    [|naive_solver].
  unfold row_getitem.
  destruct (proj2 (row_get_is_Some _ _) Ht) as [text Etext].
  destruct (proj2 (row_get_is_Some _ _) Hs) as [score Escore].
  rewrite Etext, Escore.
  destruct (row_get row (color_column_of sort_by)) as [colour|] eqn:Ec;
    cbn [rbind].
  - assert (Hc : color_column_of sort_by ∈ map fst row)
      by (apply row_get_is_Some; eauto).
    destruct score as [s|q|]; cbn [format_2f rbind]; naive_solver.
  - apply row_get_None in Ec. naive_solver.
Qed.

(** X16: what [format_row] returns has no other entries than the common
    columns issue_key, team_id, sprint and updated that the row has and,
    when the row has the text column and the sort column, the text column
    and the entry "<text column> Score": no derived column and no other text
    column is displayed. *)
Theorem format_row_keys (sort_by : pystr) (row formatted : list (pystr * pyval)) :
  format_row num_str two_decimals sort_by row = inr formatted ->
  forall k, k ∈ map fst formatted
    <-> (k ∈ common_columns /\ k ∈ map fst row)
        \/ (text_column_of sort_by ∈ map fst row /\ sort_by ∈ map fst row
            /\ (k = text_column_of sort_by
                \/ k = text_column_of sort_by ++ py " Score")).
Proof.
  unfold format_row. intros H k.
  set (fr0 := copy_columns common_columns row []) in H.
  assert (Hfr0 : forall k', k' ∈ map fst fr0
                   <-> k' ∈ common_columns /\ k' ∈ map fst row).
  { intros k'. unfold fr0. rewrite elem_of_keys_copy_columns.
    cbn [map]. rewrite elem_of_nil. naive_solver. }
  clearbody fr0.
  destruct (decide (text_column_of sort_by ∈ map fst row)) as [Ht|Ht];
    [rewrite (bool_decide_true _ Ht) in H|rewrite (bool_decide_false _ Ht) in H];
    cbn [andb] in H.
  2:{ injection H as <-. rewrite Hfr0. naive_solver. }
  destruct (decide (sort_by ∈ map fst row)) as [Hs|Hs];
    [rewrite (bool_decide_true _ Hs) in H|rewrite (bool_decide_false _ Hs) in H].
  2:{ injection H as <-. rewrite Hfr0. naive_solver. }
  destruct (row_getitem row (color_column_of sort_by)) as [?|colour];
    cbn [rbind] in H; [discriminate|].
  destruct (row_getitem row sort_by) as [?|score]; cbn [rbind] in H; [discriminate|].
  destruct (format_2f two_decimals score) as [?|shown]; cbn [rbind] in H;
    [discriminate|].
  destruct (row_getitem row (text_column_of sort_by)) as [?|text];
    cbn [rbind] in H; [discriminate|].
  injection H as <-.
  rewrite !elem_of_keys_dict_set, Hfr0. naive_solver.
Qed.

End FormatRowFacts.

Lemma format_row_keys_witness :
  py "What Went Well?_Color"
    ∈ [py "issue_key"; py "What Went Well?"; py "What Went Well? Score"]
  <-> (py "What Went Well?_Color" ∈ common_columns
       /\ py "What Went Well?_Color" ∈ map fst went_well_row)
      \/ (text_column_of (py "What Went Well?_Sentiment_Score") ∈ map fst went_well_row
          /\ py "What Went Well?_Sentiment_Score" ∈ map fst went_well_row
          /\ (py "What Went Well?_Color"
                = text_column_of (py "What Went Well?_Sentiment_Score")
              \/ py "What Went Well?_Color"
                 = text_column_of (py "What Went Well?_Sentiment_Score")
                   ++ py " Score")).
Proof.
  apply (format_row_keys plain_num_str plain_two_decimals
           (py "What Went Well?_Sentiment_Score") went_well_row
           [ (py "issue_key", PStr (py "RETRO-1"));
             (py "What Went Well?", PStr (py "Great work!! 100 effort"));
             (py "What Went Well? Score",
              PStr (score_html plain_num_str (PStr (py "#90EE90")) (py "0.50"))) ]).
  vm_compute. reflexivity.
Defined.

(** ** get_smiley_html *)

Lemma b64_sextets_ok (n : N) : (n < 64)%N -> b64_sextet_ok n = true.
Proof.
  intros Hn.
  assert (H : forallb b64_sextet_ok (map N.of_nat (seq 0 64)) = true)
    by (vm_compute; reflexivity).
  apply (proj1 (forallb_forall _ _) H).
  apply in_map_iff. exists (N.to_nat n). split; [apply N2Nat.id|].
  apply in_seq. lia.
Qed.

Lemma b64_index_char (n : N) :
  (n < 64)%N -> b64_index (b64_char n) = Some n.
Proof.
  intros Hn. pose proof (b64_sextets_ok n Hn) as H. unfold b64_sextet_ok in H.
  apply andb_prop in H as [H _]. apply andb_prop in H as [H _].
  by apply bool_decide_eq_true in H.
Qed.

Lemma b64_char_not_pad (n : N) :
  (n < 64)%N -> (b64_char n =? b64_pad)%N = false.
Proof.
  intros Hn. pose proof (b64_sextets_ok n Hn) as H. unfold b64_sextet_ok in H.
  apply andb_prop in H as [H _]. apply andb_prop in H as [_ H].
  by apply negb_true_iff in H.
Qed.

Lemma b64_char_alphabet (n : N) :
  bool_decide (b64_char n ∈ b64_alphabet) || (b64_char n =? b64_pad)%N = true.
Proof.
  destruct (N.lt_ge_cases n 64) as [Hn|Hn].
  - pose proof (b64_sextets_ok n Hn) as H. unfold b64_sextet_ok in H.
    apply andb_prop in H as [_ H]. by rewrite H.
  - unfold b64_char. rewrite nth_overflow; [by rewrite N.eqb_refl, orb_true_r|].
    change (length b64_alphabet) with 64%nat. lia.
Qed.

Lemma b64encode_alphabet (bs : list N) :
  forallb (fun c => bool_decide (c ∈ b64_alphabet) || (c =? b64_pad)%N)
          (b64encode bs) = true.
Proof.
  assert (H : forall n bs', (length bs' <= n)%nat ->
            forallb (fun c => bool_decide (c ∈ b64_alphabet) || (c =? b64_pad)%N)
                    (b64encode bs') = true).
  { induction n as [|n IH]; intros [|a [|b [|c rest]]] Hlen;
      cbn [b64encode forallb length] in *; try reflexivity; try lia;
      rewrite ?b64_char_alphabet; cbn [andb]; try reflexivity.
    apply IH. lia. }
  by apply (H (length bs)).
Qed.

Ltac byte_arith := zify; Z.to_euclidean_division_equations; lia.

Lemma b64decode_b64encode (bs : list N) :
  Forall (fun b => (b < 256)%N) bs -> b64decode (b64encode bs) = Some bs.
Proof.
  assert (H : forall n bs', (length bs' <= n)%nat ->
            Forall (fun b => (b < 256)%N) bs' ->
            b64decode (b64encode bs') = Some bs').
  { induction n as [|n IH]; intros [|a [|b [|c rest]]] Hlen Hb;
      cbn [length] in Hlen; try reflexivity; try lia.
    - apply Forall_cons in Hb as [Ha _].
      cbn [b64encode b64decode].
      rewrite !b64_index_char by byte_arith.
      rewrite N.eqb_refl.
      do 2 f_equal. byte_arith.
    - apply Forall_cons in Hb as [Ha Hb]. apply Forall_cons in Hb as [Hb _].
      cbn [b64encode b64decode].
      rewrite !b64_index_char by byte_arith.
      rewrite (b64_char_not_pad ((b mod 16) * 4)) by byte_arith.
      rewrite N.eqb_refl.
      do 2 f_equal; [byte_arith|f_equal; byte_arith].
    - apply Forall_cons in Hb as [Ha Hb]. apply Forall_cons in Hb as [Hb Hc].
      apply Forall_cons in Hc as [Hc Hrest].
      cbn [b64encode b64decode].
      rewrite !b64_index_char by byte_arith.
      rewrite (b64_char_not_pad ((b mod 16) * 4 + c / 64)) by byte_arith.
      rewrite (b64_char_not_pad (c mod 64)) by byte_arith.
      rewrite IH; [|lia|exact Hrest].
      do 2 f_equal; [byte_arith|f_equal; [byte_arith|f_equal; byte_arith]]. }
  by apply (H (length bs)).
Qed.

Lemma utf8_encode_char_bytes (c : char) (bs : list N) :
  utf8_encode_char c = inr bs -> Forall (fun b => (b < 256)%N) bs.
Proof.
  unfold utf8_encode_char.
  repeat match goal with
         | |- context [(?a <? ?b)%N] =>
             let E := fresh "E" in
             destruct (a <? b)%N eqn:E;
             [apply N.ltb_lt in E | apply N.ltb_ge in E]
         | |- context [(?a && ?b)%bool] => destruct (a && b)%bool
         end;
    intros [= <-]; repeat constructor; byte_arith.
Qed.

Lemma utf8_encode_bytes (s : pystr) (bs : list N) :
  utf8_encode s = inr bs -> Forall (fun b => (b < 256)%N) bs.
Proof.
  revert bs; induction s as [|c t IH]; intros bs; cbn [utf8_encode].
  - intros [= <-]. constructor.
  - destruct (utf8_encode_char c) as [?|b] eqn:Ec; cbn [rbind]; [discriminate|].
    destruct (utf8_encode t) as [?|bs'] eqn:Et; cbn [rbind]; [discriminate|].
    intros [= <-]. apply Forall_app. split.
    + by apply (utf8_encode_char_bytes c).
    + by apply IH.
Qed.

Section SmileyFacts.

Variable SMILEY_ICONS : gmap pystr pystr.

(** X17: the fallback icon is looked up before the category is: when the
    table of icons has no entry 'neutral', [get_smiley_html] raises
    KeyError for every category, also for one that has an icon. *)
Theorem get_smiley_html_needs_neutral (category : pystr) :
  SMILEY_ICONS !! py "neutral" = None ->
  get_smiley_html SMILEY_ICONS category = inl (KeyError (Some (py "neutral"))).
Proof.
  intros H. unfold get_smiley_html, icon_getitem. by rewrite H.
Qed.

(** X18: with an entry 'neutral' and an icon without surrogates, the image
    tag is the fixed frame around a payload of base64 characters (so none
    of them closes the attribute), and the payload decodes to the UTF-8
    bytes of the icon of the category, or of the neutral icon when the
    category has none. *)
Theorem get_smiley_html_payload (category fallback : pystr) (bytes : list N) :
  SMILEY_ICONS !! py "neutral" = Some fallback ->
  utf8_encode (default fallback (SMILEY_ICONS !! category)) = inr bytes ->
  exists payload,
    get_smiley_html SMILEY_ICONS category
    = inr (py "<img src=" ++ quote ++ py "data:image/svg+xml;base64,"
           ++ payload ++ quote ++ py " width=" ++ quote ++ py "24" ++ quote
           ++ py " height=" ++ quote ++ py "24" ++ quote ++ py ">")
    /\ b64decode payload = Some bytes
    /\ forallb (fun c => bool_decide (c ∈ b64_alphabet) || (c =? b64_pad)%N)
               payload = true.
Proof.
  intros Hn He. exists (b64encode bytes). split; [|split].
  - unfold get_smiley_html, icon_getitem. rewrite Hn. cbn [rbind].
    by rewrite He.
  - apply b64decode_b64encode. by apply (utf8_encode_bytes _ _ He).
  - apply b64encode_alphabet.
Qed.

End SmileyFacts.

Lemma get_smiley_html_needs_neutral_witness :
  get_smiley_html happy_only_icons (py "positive")
  = inl (KeyError (Some (py "neutral"))).
Proof.
  apply (get_smiley_html_needs_neutral happy_only_icons (py "positive")).
  vm_compute. reflexivity.
Defined.

Lemma get_smiley_html_payload_witness :
  exists payload,
    get_smiley_html two_icons (py "very_positive")
    = inr (py "<img src=" ++ quote ++ py "data:image/svg+xml;base64,"
           ++ payload ++ quote ++ py " width=" ++ quote ++ py "24" ++ quote
           ++ py " height=" ++ quote ++ py "24" ++ quote ++ py ">")
    /\ b64decode payload = Some (py "<svg>:|</svg>")
    /\ forallb (fun c => bool_decide (c ∈ b64_alphabet) || (c =? b64_pad)%N)
               payload = true.
Proof.
  apply (get_smiley_html_payload two_icons (py "very_positive")
           (py "<svg>:|</svg>") (py "<svg>:|</svg>")).
  - vm_compute. reflexivity.
  - vm_compute. reflexivity.
Defined.

(** ** The whole request *)

Lemma apply_filter_shape (d filtered : DataFrame) (sel : list pystr) :
  apply_filter d sel = inr filtered ->
  filtered = d \/ exists mask, filtered = select_rows d mask.
Proof.
  unfold apply_filter, category_isin, df_getitem.
  destruct sel as [|x xs]; [intros [= <-]; by left|]. cbn [rbind].
  repeat match goal with
         | |- context [get_column (df_data d) ?k] =>
             destruct (get_column (df_data d) k); cbn [rbind]; [|discriminate]
         end.
  intros [= <-]. right. by eexists.
Qed.

Lemma get_column_select_rows (d : DataFrame) (mask : list bool) (k : pystr) :
  get_column (df_data (select_rows d mask)) k
  = option_map (mask_select mask) (get_column (df_data d) k).
Proof.
  unfold select_rows. cbn [df_data].
  induction (df_data d) as [|[k0 v0] rest IH]; simpl; [reflexivity|].
  case_bool_decide; [reflexivity | exact IH].
Qed.

Lemma length_mask_select {A B : Type} (m : list bool) (l1 : list A)
  (l2 : list B) :
  length l1 = length l2 ->
  length (mask_select m l1) = length (mask_select m l2).
Proof.
  revert l1 l2; induction m as [|b m IH]; intros [|x l1] [|y l2] H;
    simpl in *; try reflexivity; try discriminate.
  injection H as H. destruct b; simpl; by rewrite (IH l1 l2 H).
Qed.

Lemma filtered_column (d filtered : DataFrame) (sel : list pystr) (k : pystr)
  (cells : list pyval) :
  apply_filter d sel = inr filtered -> lengths_ok d ->
  get_column (df_data d) k = Some cells ->
  exists cells',
    get_column (df_data filtered) k = Some cells'
    /\ (forall v, In v cells' -> In v cells)
    /\ length cells' = length (df_index filtered).
Proof.
  intros Hf Hd E. pose proof (get_column_length _ _ _ _ Hd E) as Hlen.
  apply apply_filter_shape in Hf as [->|[mask ->]].
  - exists cells. auto.
  - exists (mask_select mask cells). rewrite get_column_select_rows, E.
    split; [reflexivity|]. split; [apply mask_select_In|].
    cbn [select_rows df_index]. by apply length_mask_select.
Qed.

Lemma apply_filter_succeeds (d : DataFrame) (sel : list pystr) :
  (forall c, c ∈ sentiment_columns ->
             LStr (c ++ category_suffix) ∈ df_columns d) ->
  exists filtered, apply_filter d sel = inr filtered.
Proof.
  intros Hall. destruct sel as [|x xs]; [by exists d|].
  assert (Hget : forall c, c ∈ sentiment_columns ->
            exists cells, get_column (df_data d) (c ++ category_suffix) = Some cells).
  { intros c Hc. exact (proj2 (get_column_is_Some _ _) (Hall c Hc)). }
  unfold sentiment_columns in Hget.
  destruct (Hget (py "What Did Not Go Well?")) as (s1 & E1);
    [rewrite !elem_of_cons; tauto|].
  destruct (Hget (py "What Went Well?")) as (s2 & E2);
    [rewrite !elem_of_cons; tauto|].
  destruct (Hget (py "Reason for Churn")) as (s3 & E3);
    [rewrite !elem_of_cons; tauto|].
  destruct (Hget (py "Improvement opportunity")) as (s4 & E4);
    [rewrite !elem_of_cons; tauto|].
  destruct (Hget (py "Reason for reported success rate")) as (s5 & E5);
    [rewrite !elem_of_cons; tauto|].
  eexists. exact (apply_filter_all_present d x xs s1 s2 s3 s4 s5 E1 E2 E3 E4 E5).
Qed.

Lemma all_numbers (cells : list pyval) :
  Forall (fun v => exists q, v = PNum q) cells -> exists qs, cells = map PNum qs.
Proof.
  induction 1 as [|v cells [q ->] _ [qs ->]]; [by exists []|].
  by exists (q :: qs).
Qed.

Lemma no_missing_tail (numbers qs : list Q) (missing : nat) :
  map PNum qs = map PNum numbers ++ repeat PMissing missing ->
  map PNum qs = map PNum numbers.
Proof.
  intros H. destruct missing as [|m]; [by rewrite app_nil_r in H|].
  exfalso.
  assert (Hin : In PMissing (map PNum qs)).
  { rewrite H. apply in_or_app. right. by left. }
  apply in_map_iff in Hin as [q [Hq _]]. discriminate.
Qed.

Section MainDisplays.

Variable uni_alnum : char -> bool.
Variable num_str : Q -> pystr.
Variable scorer : pystr -> sentiment.
Variable argsort : list Q -> list nat.
Variable nargsort_object : list pyval -> result (list nat).

(** X19: a request on a table whose column labels are all strs, which has
    the five configured columns and no label with a derived suffix of its
    own, gets through the analysis, the select box, the filter and the sort
    without an exception, whatever the selection and whichever score column
    is chosen: [main] analyses the uploaded table in place, the filter goes
    through, and the table that the display code receives holds the filtered
    rows rearranged so that the chosen scores, all of them numbers,
    descend. *)
Theorem main_sorts_analysed_table (h : heap) (l : loc) (d : DataFrame)
  (sel : list pystr) (choice : nat) (c : pystr) :
  argsort_spec argsort ->
  h !! l = Some d -> wf_df d ->
  forallb is_str (df_columns d) = true ->
  (forall c0, c0 ∈ sentiment_columns -> LStr c0 ∈ df_columns d) ->
  (forall k, LStr k ∈ df_columns d -> is_derived_name k = false) ->
  sentiment_columns !! choice = Some c ->
  exists filtered indexer numbers,
    main uni_alnum num_str (fun t => inr (scorer t)) argsort nargsort_object
         l sel choice h
    = (<[l := augmented uni_alnum scorer d]> h,
       Displayed (df_take filtered indexer))
    /\ apply_filter (augmented uni_alnum scorer d) sel = inr filtered
    /\ Permutation indexer (seq 0 (length (df_index filtered)))
    /\ get_column (df_data (df_take filtered indexer)) (c ++ score_suffix)
       = Some (map PNum numbers)
    /\ StronglySorted (fun a b => (b <= a)%Q) numbers.
Proof.
  intros Hspec Hl Hwf Hstr Hall Hplain Hchoice.
  pose proof (wf_df_augmented uni_alnum scorer d Hwf) as [HD _].
  destruct Hwf as [Hlen _].
  set (D := augmented uni_alnum scorer d) in *.
  assert (Hc : c ∈ sentiment_columns) by (eapply list_elem_of_lookup_2; eauto).
  destruct (proj2 (get_column_is_Some _ _) (Hall c Hc)) as [series E].
  destruct (augmented_columns uni_alnum scorer d c series Hc E)
    as (_ & Hscore & _). fold D in Hscore.
  (* the filter *)
  destruct (apply_filter_succeeds D sel) as [filtered Hf].
  { intros c0 Hc0. unfold D, augmented.
    apply elem_of_columns_fold; [apply sentiment_columns_not_derived|].
    right. exists c0. split; [done|]. split; [by apply Hall|].
    unfold derived_columns. cbn [map]. rewrite !elem_of_cons. tauto. }
  destruct (filtered_column D filtered sel _ _ Hf HD Hscore)
    as (cells' & Ecells & Hsub & Hcells).
  destruct (all_numbers cells') as [qs ->].
  { apply List.Forall_forall. intros v Hv. apply Hsub, in_map_iff in Hv.
    destruct Hv as [x [<- _]]. by eexists. }
  (* the sort *)
  destruct (nargsort_desc_ordered argsort nargsort_object Hspec (map PNum qs))
    as (indexer & numbers & missing & Hrun & Hperm & Hkeys & Hsorted).
  { apply List.Forall_forall. intros v Hv. apply in_map_iff in Hv.
    by destruct Hv as [q [<- _]]. }
  assert (Hin : forall i, In i indexer -> (i < length qs)%nat).
  { intros i Hi. apply (Permutation_in _ Hperm), in_seq in Hi.
    rewrite length_map in Hi. lia. }
  rewrite (map_nth_in_range PNum 0%Q PMissing qs indexer Hin) in Hkeys.
  apply no_missing_tail in Hkeys.
  exists filtered, indexer, numbers.
  split; [|split; [exact Hf|split; [by rewrite <- Hcells|split; [|exact Hsorted]]]].
  - unfold main, main_try.
    rewrite (bind_run _ _ _ _ _
               (analyze_retrodata_run uni_alnum num_str scorer h l d Hl Hlen)).
    rewrite (bind_run _ _ _ _ _ (deref_run _ _ _ (lookup_insert_eq _ _ _))).
    unfold bind, lift.
    rewrite (score_options_augmented uni_alnum scorer d Hplain), Hstr.
    rewrite forallb_filter_id.
    2:{ apply forallb_forall. intros c0 Hc0. apply bool_decide_eq_true.
        by apply Hall, list_elem_of_In. }
    unfold selectbox. rewrite list_lookup_fmap.
    replace (sentiment_columns !! choice) with (Some c).
    cbn [fmap option_fmap option_map].
    fold D. unfold filter_and_sort. rewrite Hf. cbn [rbind sort_values_desc].
    unfold df_getitem. rewrite Ecells. cbn [rbind]. rewrite Hrun.
    reflexivity.
  - rewrite get_column_df_take, Ecells. cbn [option_map].
    rewrite (map_nth_in_range PNum 0%Q PMissing qs indexer Hin). by rewrite Hkeys.
Qed.

(** X22: a table with a column label that is no str (a header cell of the
    sheet that holds a number or a date) never gets to the filter.  The
    analysis runs first and changes the uploaded table; then building the
    options of the select box raises AttributeError, and the request ends in
    the error banner, whatever the selection and the choice. *)
Theorem main_label_not_str (h : heap) (l : loc) (d : DataFrame)
  (sel : list pystr) (choice : nat) :
  h !! l = Some d -> lengths_ok d ->
  forallb is_str (df_columns d) = false ->
  main uni_alnum num_str (fun t => inr (scorer t)) argsort nargsort_object
       l sel choice h
  = (<[l := augmented uni_alnum scorer d]> h, ErrorBanner AttributeError).
Proof.
  intros Hl Hlen Hstr. unfold main, main_try.
  rewrite (bind_run _ _ _ _ _
             (analyze_retrodata_run uni_alnum num_str scorer h l d Hl Hlen)).
  rewrite (bind_run _ _ _ _ _ (deref_run _ _ _ (lookup_insert_eq _ _ _))).
  unfold bind, lift. rewrite score_columns_not_str; [reflexivity|].
  destruct (prefix_columns_fold uni_alnum scorer sentiment_columns d)
    as [added Hcols].
  unfold augmented. rewrite Hcols, forallb_app, Hstr. reflexivity.
Qed.

End MainDisplays.

Lemma main_sorts_analysed_table_witness :
  exists filtered indexer numbers,
    main ascii_only plain_num_str
         (fun t => inr (Scorer.score half_primitive grey t))
         argsort_insertion object_sort_unsupported
         1%positive [py "positive"] 1 (uploaded full_table)
    = (<[1%positive := analysed_full_table]> (uploaded full_table),
       Displayed (df_take filtered indexer))
    /\ apply_filter analysed_full_table [py "positive"] = inr filtered
    /\ get_column (df_data (df_take filtered indexer))
                  (py "What Went Well?" ++ score_suffix)
       = Some (map PNum numbers).
Proof.
  assert (H1 : uploaded full_table !! 1%positive = Some full_table)
    by (vm_compute; reflexivity).
  assert (H2 : wf_df full_table).
  { split; [repeat constructor | apply (bool_decide_unpack _); vm_compute; reflexivity]. }
  assert (H3 : forall c0, c0 ∈ sentiment_columns -> LStr c0 ∈ df_columns full_table).
  { apply Forall_forall. apply (bool_decide_unpack _). vm_compute. reflexivity. }
  assert (H4 : forall k, LStr k ∈ df_columns full_table -> is_derived_name k = false).
  { intros k Hk. apply negb_true_iff. revert k Hk.
    apply str_labels_forallb. vm_compute. reflexivity. }
  destruct (main_sorts_analysed_table ascii_only plain_num_str
              (Scorer.score half_primitive grey) argsort_insertion
              object_sort_unsupported (uploaded full_table) 1%positive full_table
              [py "positive"] 1 (py "What Went Well?")
              argsort_insertion_ok H1 H2 eq_refl H3 H4 eq_refl)
    as (filtered & indexer & numbers & Hmain & Hf & _ & Hkeys & _).
  exists filtered, indexer, numbers. repeat split; assumption.
Defined.

Lemma main_label_not_str_witness :
  main ascii_only plain_num_str
       (fun t => inr (Scorer.score half_primitive grey t))
       argsort_insertion object_sort_unsupported
       1%positive [] 0 (uploaded numeric_header_table)
  = (<[1%positive := augmented ascii_only (Scorer.score half_primitive grey)
                       numeric_header_table]>
       (uploaded numeric_header_table),
     ErrorBanner AttributeError).
Proof.
  apply (main_label_not_str ascii_only plain_num_str
           (Scorer.score half_primitive grey) argsort_insertion
           object_sort_unsupported (uploaded numeric_header_table) 1%positive
           numeric_header_table [] 0).
  - vm_compute. reflexivity.
  - repeat constructor.
  - reflexivity.
Defined.

(** ** The badge of a row and the cells of an analysed column *)

Section Badge.

Variable num_str : Q -> pystr.
Variable two_decimals : Q -> pystr.

(** X20: for a row that has a text column C without underscore in its name,
    its score column with a number and its colour column, [format_row]
    raises nothing and returns the common columns followed by the text of C
    and, under "C Score", the badge made of the colour of the row and the
    score with two decimals. *)
Theorem format_row_badge (c : pystr) (row : list (pystr * pyval))
  (text colour : pyval) (q : Q) :
  95%N ∉ c ->
  row_get row c = Some text ->
  row_get row (c ++ score_suffix) = Some (PNum q) ->
  row_get row (c ++ color_suffix) = Some colour ->
  format_row num_str two_decimals (c ++ score_suffix) row
  = inr (dict_set (dict_set (copy_columns common_columns row []) c text)
                  (c ++ py " Score")
                  (PStr (score_html num_str colour (two_decimals q)))).
Proof.
  intros Hc Ht Hs Hcol. unfold format_row, text_column_of, color_column_of.
  change score_suffix with (95%N :: py "Sentiment_Score") in *.
  unfold str_replace. rewrite !(replace_scan_suffix c _ _ 95%N Hc), app_nil_r.
  rewrite bool_decide_true by (apply row_get_is_Some; eauto).
  rewrite bool_decide_true by (apply row_get_is_Some; eauto).
  cbn [andb]. unfold row_getitem. rewrite Hcol, Hs, Ht. reflexivity.
Qed.

End Badge.

Lemma format_row_badge_witness :
  format_row plain_num_str plain_two_decimals
    (py "What Went Well?" ++ score_suffix) went_well_row
  = inr (dict_set
           (dict_set (copy_columns common_columns went_well_row [])
                     (py "What Went Well?")
                     (PStr (py "Great work!! 100 effort")))
           (py "What Went Well?" ++ py " Score")
           (PStr (score_html plain_num_str (PStr (py "#90EE90"))
                             (plain_two_decimals (1 # 2))))).
Proof.
  apply (format_row_badge plain_num_str plain_two_decimals
           (py "What Went Well?") went_well_row).
  - apply (bool_decide_unpack _). vm_compute. reflexivity.
  - reflexivity.
  - reflexivity.
  - reflexivity.
Defined.

Section AnalysedCells.

Variable uni_alnum : char -> bool.
Variable num_str : Q -> pystr.
Variable scorer : pystr -> sentiment.

(** X21: after the analysis every cell of a configured column is a string,
    and a clean one: numbers and missing values have become the empty
    string, and no cell would change under another sanitization. *)
Theorem analysed_cells_are_clean (h : heap) (l : loc) (d : DataFrame) :
  h !! l = Some d -> wf_df d ->
  exists d',
    analyze_retrodata uni_alnum num_str (fun t => inr (scorer t)) l h
      = (<[l := d']> h, inr l)
    /\ forall c cells,
         c ∈ sentiment_columns -> get_column (df_data d') c = Some cells ->
         Forall (fun v => exists s, v = PStr s /\ clean_text uni_alnum s = true)
                cells.
Proof.
  intros Hl [Hlen _]. exists (augmented uni_alnum scorer d).
  split; [by apply analyze_retrodata_run|].
  intros c cells Hc E.
  assert (Hin : LStr c ∈ df_columns d).
  { assert (H : LStr c ∈ df_columns (augmented uni_alnum scorer d))
      by (apply get_column_is_Some; eauto).
    unfold augmented in H.
    apply elem_of_columns_fold in H; [|apply sentiment_columns_not_derived].
    destruct H as [H|(c' & _ & _ & H)]; [done|].
    apply elem_of_map_LStr, derived_is_derived_name in H.
    rewrite (sentiment_columns_not_derived c Hc) in H. discriminate. }
  destruct (proj2 (get_column_is_Some _ _) Hin) as [series Es].
  destruct (augmented_columns uni_alnum scorer d c series Hc Es) as (G & _).
  rewrite G in E. injection E as <-.
  apply List.Forall_forall. intros v Hv. apply in_map_iff in Hv as [x [<- _]].
  eexists. split; [reflexivity|].
  destruct x as [s| |]; [apply clean_text_sanitize_text | reflexivity | reflexivity].
Qed.

End AnalysedCells.

Lemma analysed_cells_are_clean_witness :
  exists d',
    analyze_retrodata ascii_only plain_num_str
      (fun t => inr (Scorer.score half_primitive grey t)) 1%positive
      (uploaded went_well_table)
    = (<[1%positive := d']> (uploaded went_well_table), inr 1%positive)
    /\ forall c cells,
         c ∈ sentiment_columns -> get_column (df_data d') c = Some cells ->
         Forall (fun v => exists s, v = PStr s /\ clean_text ascii_only s = true)
                cells.
Proof.
  apply (analysed_cells_are_clean ascii_only plain_num_str
           (Scorer.score half_primitive grey) (uploaded went_well_table)
           1%positive went_well_table).
  - vm_compute. reflexivity.
  - split; [repeat constructor | apply (bool_decide_unpack _); vm_compute; reflexivity].
Defined.

(** ** The order of rows of equal score *)

Lemma StronglySorted_nth {A : Type} (R : relation A) (l : list A) (d : A)
  (a b : nat) :
  StronglySorted R l -> (a < b)%nat -> (b < length l)%nat ->
  R (nth a l d) (nth b l d).
Proof.
  intros H. revert a b. induction H as [|x xs _ IH Hx]; intros a b Hab Hb.
  - simpl in Hb. lia.
  - destruct b as [|b]; [lia|]. simpl in Hb. destruct a as [|a]; simpl.
    + eapply (proj1 (List.Forall_forall _ _)); [exact Hx|]. apply nth_In. lia.
    + apply IH; lia.
Qed.

Lemma nth_map_eq {A B C : Type} (f : A -> C) (g : B -> C) (l : list A)
  (l' : list B) (d : A) (d' : B) (t : nat) :
  map f l = map g l' -> (t < length l')%nat ->
  f (nth t l d) = g (nth t l' d').
Proof.
  intros H Ht.
  assert (Hlen : length l = length l').
  { apply (f_equal (@length _)) in H. by rewrite !length_map in H. }
  rewrite <- (map_nth f), <- (map_nth g), H.
  apply nth_indep. by rewrite length_map.
Qed.

Section SortKeepsTies.

Variable argsort : list Q -> list nat.
Variable nargsort_object : list pyval -> result (list nat).
Hypothesis argsort_ok : argsort_spec argsort.
Hypothesis argsort_keeps : argsort_stable argsort.

(** X23: the sort hands the order of equal scores over to numpy.  With an
    [argsort] that keeps equal keys in the order of their positions, the
    rows of equal score, and the rows without a score, come out in the
    order they had in the table: reversing the column before [argsort] and
    the result after it, as pandas does for a descending sort, does not
    disturb them. *)
Theorem sort_values_desc_keeps_ties (d : DataFrame) (k : pystr)
  (series : list pyval) :
  wf_df d ->
  get_column (df_data d) k = Some series ->
  Forall (fun v => is_text v = false) series ->
  exists indexer,
    sort_values_desc argsort nargsort_object d (Some k) = inr (df_take d indexer)
    /\ Permutation indexer (seq 0 (length (df_index d)))
    /\ StronglySorted (fun i j => same_score series i j -> (i < j)%nat) indexer.
Proof.
  intros [Hd _] E Hnum.
  destruct (nargsort_desc_ordered argsort nargsort_object argsort_ok series Hnum)
    as (indexer & _ & _ & Hrun & Hperm & _).
  rewrite (get_column_length _ _ _ _ Hd E) in Hperm.
  exists indexer. split; [|split; [exact Hperm|]].
  { cbn [sort_values_desc]. unfold df_getitem. rewrite E. cbn [rbind].
    by rewrite Hrun. }
  (* the indexer: the rows with a score as argsort leaves them, then the rest *)
  unfold nargsort_desc in Hrun.
  destruct (mapM_as_number_total series Hnum) as [qs Hqs]. rewrite Hqs in Hrun.
  injection Hrun as <-. apply mapM_as_number in Hqs.
  set (mask := map isna series) in *.
  set (L := mask_select (map negb mask) (seq 0 (length series))).
  set (nan_idx := mask_select mask (seq 0 (length series))).
  set (cell := fun i => nth i series PMissing).
  assert (HL : map cell (rev L) = map PNum (rev qs)).
  { rewrite !map_rev. f_equal. unfold L, cell. by rewrite mask_select_nth. }
  assert (Hlen : length (rev L) = length (rev qs)).
  { apply (f_equal (@length _)) in HL. by rewrite !length_map in HL. }
  assert (Hdesc : StronglySorted (flip lt) (rev L)).
  { apply StronglySorted_rev. apply mask_select_seq_sorted. }
  assert (Hnan : forall j, In j nan_idx -> cell j = PMissing).
  { intros j Hj. apply (in_map cell) in Hj. unfold nan_idx, cell in Hj.
    rewrite mask_select_nth in Hj. unfold mask in Hj.
    rewrite mask_select_isna in Hj. by apply repeat_spec in Hj. }
  destruct (argsort_ok (rev qs)) as [Hp _].
  pose proof (argsort_keeps (rev qs)) as Hkeeps.
  set (p := argsort (rev qs)) in *.
  assert (Hrange : forall t, In t p -> (t < length (rev qs))%nat).
  { intros t Ht. apply (Permutation_in _ Hp), in_seq in Ht. lia. }
  assert (Hcell : forall t, In t p ->
            cell (nth t (rev L) 0%nat) = PNum (nth t (rev qs) 0%Q)).
  { intros t Ht. apply (nth_map_eq cell PNum _ _ _ _ _ HL), Hrange, Ht. }
  apply StronglySorted_app_2.
  - (* a row with a score and a row without one *)
    intros i j Hi Hj Hsame. exfalso.
    apply list_elem_of_In, in_rev, in_map_iff in Hi as [t [<- Ht]].
    apply list_elem_of_In in Hj.
    unfold same_score in Hsame. fold (cell (nth t (rev L) 0%nat)) in Hsame.
    fold (cell j) in Hsame. by rewrite (Hcell t Ht), (Hnan j Hj) in Hsame.
  - (* two rows with a score: argsort saw them in reverse, and is reversed *)
    apply StronglySorted_rev.
    apply (StronglySorted_map
             (fun a b => (nth a (rev qs) 0 == nth b (rev qs) 0)%Q -> (a < b)%nat));
      [|exact Hkeeps].
    intros a b Ha Hb Hab. unfold flip. intros Hsame.
    unfold same_score in Hsame.
    fold (cell (nth b (rev L) 0%nat)) in Hsame.
    fold (cell (nth a (rev L) 0%nat)) in Hsame.
    rewrite (Hcell a Ha), (Hcell b Hb) in Hsame.
    assert (Hlt : (a < b)%nat) by (apply Hab; by symmetry).
    apply (StronglySorted_nth (flip lt) (rev L) 0%nat a b Hdesc Hlt).
    rewrite Hlen. by apply Hrange.
  - (* two rows without a score *)
    rewrite <- (map_id nan_idx).
    apply (StronglySorted_map lt _ id); [|apply mask_select_seq_sorted].
    intros i j _ _ Hij _. exact Hij.
Qed.

End SortKeepsTies.

Lemma sort_values_desc_keeps_ties_witness :
  exists indexer,
    sort_values_desc argsort_insertion object_sort_unsupported tied_table
      (Some (py "What Went Well?_Sentiment_Score"))
    = inr (df_take tied_table indexer)
    /\ StronglySorted
         (fun i j => same_score [PNum 0; PNum 0; PNum (1 # 2); PNum (1 # 2)] i j
                     -> (i < j)%nat)
         indexer.
Proof.
  assert (H1 : wf_df tied_table).
  { split; [repeat constructor | apply (bool_decide_unpack _); vm_compute; reflexivity]. }
  assert (H2 : Forall (fun v => is_text v = false)
                      [PNum 0; PNum 0; PNum (1 # 2); PNum (1 # 2)])
    by (repeat constructor).
  destruct (sort_values_desc_keeps_ties argsort_insertion object_sort_unsupported
              argsort_insertion_ok argsort_insertion_stable tied_table
              (py "What Went Well?_Sentiment_Score")
              [PNum 0; PNum 0; PNum (1 # 2); PNum (1 # 2)] H1 eq_refl H2)
    as (indexer & Hrun & _ & Hties).
  exists indexer. split; [exact Hrun | exact Hties].
Defined.

(** With the insertion sort the four rows of [tied_table] come out with the
    equal scores in their order. *)
Example sort_values_desc_insertion_ties :
  sort_values_desc argsort_insertion object_sort_unsupported tied_table
    (Some (py "What Went Well?_Sentiment_Score"))
  = inr (df_take tied_table [2%nat; 3%nat; 0%nat; 1%nat]).
Proof. vm_compute. reflexivity. Qed.
